(** * ptb_word_lm.py: the PTB word-level language model script

    A shallow embedding of [examples/tensor_flow/code/ptb_word_lm.py].

    The script is glue around three libraries: TensorFlow (graph
    construction and sessions), the repository's own [reader] module
    (which is not part of the sources at hand) and numpy.  The embedding
    keeps the script's own control flow and data flow:

    - Python exceptions are a [result] type, and the script's statements
      run in a state-and-exception monad [M] over a [world] (file system,
      standard output, clock, random generator, the default graph and the
      session);
    - graph construction ([PTBModel.__init__]) builds symbolic [tensor]
      terms and updates the variable store of the default graph, with
      TensorFlow's variable-scope and reuse rules;
    - what a session computes is an interface ([TensorFlow]), as are the
      reader ([Reader]) and numpy's sampler ([NumpyRandom]);
    - Python ints are [Z]; Python and numpy floats are rationals [Q] with
      exact arithmetic (no rounding, no inf, no nan); [np.exp] is the real
      exponential. *)

From Stdlib Require Import Ascii String ZArith QArith Qpower Qreals Reals Lia Lra.
From stdpp Require Import base strings gmap pretty list.

Set Default Proof Using "Type".
Set Warnings "-register-all".
Local Open Scope string_scope.
Local Open Scope list_scope.
Local Open Scope Z_scope.

(** ** Python: exceptions, integers, floats, strings *)

Inductive exn :=
| ZeroDivisionError
| ValueError (msg : string)
| KeyError (key : string)
| IndexError
| TypeError
| AttributeError (attr : string)
| IOError (path : string)
| FrameworkError (msg : string).

Inductive result (A : Type) :=
| Ok (a : A)
| Raise (e : exn).
Arguments Ok {A} a.
Arguments Raise {A} e.

Definition is_ok {A} (r : result A) : bool :=
  match r with Ok _ => true | Raise _ => false end.

Definition result_bind {A B} (r : result A) (k : A → result B) : result B :=
  match r with Ok a => k a | Raise e => Raise e end.

(** [a // b] and [a % b] on Python ints: floor division, the remainder has
    the sign of the divisor, and a zero divisor raises. *)
Definition floordiv (a b : Z) : result Z :=
  if b =? 0 then Raise ZeroDivisionError else Ok (a / b).

Definition pymod (a b : Z) : result Z :=
  if b =? 0 then Raise ZeroDivisionError else Ok (a mod b).

(** A float is a Python [float] or a numpy scalar; the two differ in what
    division by zero does. *)
Inductive float :=
| PyFloat (q : Q)
| NpFloat (q : Q).

Definition float_val (a : float) : Q :=
  match a with PyFloat q => q | NpFloat q => q end.

(** [a + c] with [c] a numpy scalar: the sum is a numpy scalar. *)
Definition float_add_np (a : float) (c : Q) : float :=
  NpFloat (float_val a + c).

(** [a / n] under [from __future__ import division], [n] a Python int.  A
    Python float raises on [n = 0]; a numpy scalar warns and yields inf or
    nan, which [Q] does not have: the value at [n = 0] is left as [Q]'s. *)
Definition truediv (a : float) (n : Z) : result float :=
  match a with
  | PyFloat q => if n =? 0 then Raise ZeroDivisionError
                 else Ok (PyFloat (q / inject_Z n))
  | NpFloat q => Ok (NpFloat (q / inject_Z n))
  end.

(** Division of two Python numbers of which one is a Python float. *)
Definition pydiv (a b : Q) : result Q :=
  if Qeq_bool b 0 then Raise ZeroDivisionError else Ok (a / b)%Q.

Definition np_exp (a : float) : R := exp (Q2R (float_val a)).

(** [x ** n] for an exponent [n] of integer value (as [max(a, 0.0)] is):
    the exact power, where the code's floating-point power is rounded.
    Nothing below relies on an identity between powers that rounding
    breaks. *)
Definition pypow (x : Q) (n : Z) : Q := Qpower x n.

(** [str(n)] for an int. *)
Definition str (n : Z) : string := pretty n.

(** [sep.join(l)]. *)
Definition join (sep : string) (l : list string) : string :=
  String.concat sep l.

Fixpoint ends_with_slash (s : string) : bool :=
  match s with
  | EmptyString => false
  | String c EmptyString => if Ascii.eqb c "/"%char then true else false
  | String _ rest => ends_with_slash rest
  end.

(** [os.path.join(a, b)] (posixpath); [a] is [None] for a flag that was
    not given, and joining [None] raises. *)
Definition os_path_join (a : option string) (b : string) : result string :=
  match a with
  | None => Raise TypeError
  | Some a =>
      Ok (if String.prefix "/" b then b
          else if (String.eqb a "" || ends_with_slash a)%bool then a +:+ b
          else a +:+ "/" +:+ b)
  end.

(** Generators: what successive [next()] calls give. *)
Inductive gen (A : Type) :=
| GStop
| GYield (a : A) (rest : gen A)
| GRaise (e : exn).
Arguments GStop {A}.
Arguments GYield {A} a rest.
Arguments GRaise {A} e.

Fixpoint gen_items {A} (g : gen A) : list A :=
  match g with
  | GYield a rest => a :: gen_items rest
  | _ => []
  end.

(** What a loop body hands back: go on, or [break]. *)
Inductive ctl (S : Type) :=
| Continue (s : S)
| Break (s : S).
Arguments Continue {S} s.
Arguments Break {S} s.

(** ** numpy: the array functions the script calls *)

Abbreviation matrix A := (list (list A)).

(** [np.ones(n)]: negative dimensions are refused. *)
Definition np_ones (n : Z) : result (list Q) :=
  if n <? 0 then Raise (ValueError "negative dimensions are not allowed")
  else Ok (repeat 1%Q (Z.to_nat n)).

(** [np.zeros((r, c))], fed to integer placeholders. *)
Definition np_zeros (r c : nat) : matrix Z := repeat (repeat 0 c) r.

(** Index of the first maximum of a row, scanning from index [i]. *)
Fixpoint argmax_from (best : Q) (best_i : Z) (i : Z) (row : list Q) : Z :=
  match row with
  | [] => best_i
  | v :: rest =>
      if Qlt_le_dec best v then argmax_from v i (i + 1) rest
      else argmax_from best best_i (i + 1) rest
  end.

Definition argmax_row (row : list Q) : result Z :=
  match row with
  | [] => Raise (ValueError "attempt to get argmax of an empty sequence")
  | v :: rest => Ok (argmax_from v 0 1 rest)
  end.

Fixpoint result_map {A B} (f : A → result B) (l : list A) : result (list B) :=
  match l with
  | [] => Ok []
  | a :: rest =>
      result_bind (f a) (λ b,
      result_bind (result_map f rest) (λ bs, Ok (b :: bs)))
  end.

(** [np.argmax(probs, 1)]. *)
Definition np_argmax_1 (probs : matrix Q) : result (list Z) :=
  result_map argmax_row probs.

(** [a[-1]]. *)
Definition index_last {A} (a : list A) : result A :=
  match last a with
  | Some x => Ok x
  | None => Raise IndexError
  end.

(** [a[0]]. *)
Definition index_first {A} (a : list A) : result A :=
  match a with
  | x :: _ => Ok x
  | [] => Raise IndexError
  end.

(** ** json: objects with scalar members *)

Inductive jvalue :=
| JInt (n : Z)
| JStr (s : string).

(** [json.dump] of a dict: every key becomes a string ([str(k)] for an int
    key), the values stay. *)
Definition json_dump {K V} `{Countable K}
    (key : K → string) (val : V → jvalue) (d : gmap K V) : gmap string jvalue :=
  kmap key (val <$> d).

(** [" ".join(sentence)] on loaded values: every item must be a string. *)
Fixpoint as_strings (l : list jvalue) : result (list string) :=
  match l with
  | [] => Ok []
  | JStr s :: rest => result_bind (as_strings rest) (λ ss, Ok (s :: ss))
  | JInt _ :: _ => Raise TypeError
  end.

(** ** TensorFlow: graph elements

    Graph construction is symbolic: a tensor is the term that says how it
    is computed.  A variable is named by the path of its scopes (outermost
    first) followed by its own name; TensorFlow joins the path with
    slashes. *)

Module tf.

Abbreviation name := (list string).

Inductive dtype := int32 | float32.

Inductive cell :=
| BasicLSTMCell (num_units : Z) (forget_bias : Q)
| DropoutWrapper (c : cell) (output_keep_prob : Q)
| MultiRNNCell (cells : list cell).

Inductive tensor :=
| placeholder (dt : dtype) (shape : list Z)
| variable_ref (v : name) (shape : list Z)
| zero_state (c : cell) (batch_size : Z) (dt : dtype)
| embedding_lookup (params ids : tensor)
| dropout (x : tensor) (keep_prob : Q)
| time_slice (x : tensor) (time_step : Z)
| state_slice (state : tensor) (layer : Z)
| lstm_h (matrix bias : tensor) (num_units : Z) (forget_bias : Q)
         (input state : tensor)
| lstm_state (matrix bias : tensor) (num_units : Z) (forget_bias : Q)
             (input state : tensor)
| concat (dim : Z) (values : list tensor)
| reshape (x : tensor) (shape : list Z)
| matmul (a b : tensor)
| add (a b : tensor)
| sequence_loss_by_example (logits targets weights : list tensor)
| reduce_sum (x : tensor)
| div (x : tensor) (n : Z)
| softmax (x : tensor)
| gradient (y x : tensor)
| clipped (t : tensor) (t_list : list tensor) (clip_norm : Z)
| global_norm (t_list : list tensor).

(** [tf.gradients(ys, xs)]: one gradient per [x]. *)
Definition gradients (y : tensor) (xs : list tensor) : list tensor :=
  map (gradient y) xs.

(** [tf.clip_by_global_norm(t_list, clip_norm)]: the clipped list and the
    global norm. *)
Definition clip_by_global_norm (t_list : list tensor) (clip_norm : Z)
  : list tensor * tensor :=
  (map (λ t, clipped t t_list clip_norm) t_list, global_norm t_list).

Inductive optimizer :=
| GradientDescentOptimizer (learning_rate : tensor).

Inductive op :=
| no_op
| apply_gradients (o : optimizer) (grads_and_vars : list (tensor * tensor))
| assign (ref : tensor) (value : Q)
| initialize_all_variables (vars : list name).

(** What [session.run] can be asked for. *)
Inductive fetch :=
| Ft (t : tensor)
| Fo (o : op).

(** How a variable gets its first value: from the initializer of the
    scope it was created in (the bounds of [random_uniform_initializer],
    or the framework's default), or from a constant. *)
Inductive init :=
| scope_init (bounds : option (Q * Q))
| const_init (initial_value : Q).

(** A variable of the graph. *)
Record var := {
  var_name : name;
  var_shape : list Z;
  var_trainable : bool;
  var_init : init;
}.

(** An open variable scope. *)
Record scope := {
  scope_name : string;
  scope_reuse : bool;
  scope_initializer : option (Q * Q);
}.

(** The default graph, as far as the script reads it back: the stack of
    open variable scopes (innermost first) and the variables created so
    far.  The operations of the graph (placeholders, states, the nodes of
    the computation) are not recorded: a tensor is the expression that
    denotes it, and making one leaves this record as it is.  So a statement
    on [g_vars] speaks of the variables of the graph, not of its nodes. *)
Record graph := {
  g_scopes : list scope;
  g_vars : list var;
}.

Definition empty_graph : graph := {| g_scopes := []; g_vars := [] |}.

Definition scope_path (g : graph) : name :=
  rev (map scope_name (g_scopes g)).

Definition reuse (g : graph) : bool :=
  match g_scopes g with
  | s :: _ => scope_reuse s
  | [] => false
  end.

Definition initializer (g : graph) : option (Q * Q) :=
  match g_scopes g with
  | s :: _ => scope_initializer s
  | [] => None
  end.

Definition has_var (g : graph) (v : name) : bool :=
  bool_decide (v ∈ map var_name (g_vars g)).

Definition all_variables (g : graph) : list name := map var_name (g_vars g).

Definition trainable_variables (g : graph) : list tensor :=
  map (λ v, variable_ref (var_name v) (var_shape v))
      (filter (λ v, var_trainable v = true) (g_vars g)).

(** A saver remembers the variables it was made for. *)
Record Saver := { saver_vars : list name }.

(** *** Building the graph

    Graph construction is a computation on the default graph that may
    raise. *)

Definition G (A : Type) : Type := graph → result A * graph.

#[global] Instance G_ret : MRet G := λ A a g, (Ok a, g).

#[global] Instance G_bind : MBind G := λ A B k c g,
  match c g with
  | (Ok a, g') => k a g'
  | (Raise e, g') => (Raise e, g')
  end.

Definition fail {A} (e : exn) : G A := λ g, (Raise e, g).

Definition add_var (v : var) (g : graph) : graph :=
  {| g_scopes := g_scopes g; g_vars := g_vars g ++ [v] |}.

(** [tf.get_variable(name, shape)]: in a reusing scope the variable must
    exist already, otherwise it must not.  (That a reused variable has the
    shape asked for is not checked here.) *)
Definition get_variable (nm : string) (shape : list Z) : G tensor := λ g,
  let v := scope_path g ++ [nm] in
  if reuse g then
    if has_var g v then (Ok (variable_ref v shape), g)
    else (Raise (ValueError "Variable does not exist"), g)
  else
    if has_var g v then (Raise (ValueError "Variable already exists"), g)
    else (Ok (variable_ref v shape),
          add_var {| var_name := v; var_shape := shape; var_trainable := true;
                     var_init := scope_init (initializer g) |} g).

(** The first of [base], [base_1], [base_2], ... that names no variable
    yet ([candidates] counts how many are tried). *)
Fixpoint unique_name (g : graph) (base : string) (k : Z) (candidates : nat)
  : name :=
  let nm := scope_path g ++ [if k =? 0 then base else base +:+ "_" +:+ str k] in
  match candidates with
  | O => nm
  | S c => if has_var g nm then unique_name g base (k + 1) c else nm
  end.

(** [tf.Variable(initial_value, trainable=trainable)]. *)
Definition new_Variable (initial_value : Q) (trainable : bool) : G tensor := λ g,
  let v := unique_name g "Variable" 0 (length (g_vars g)) in
  (Ok (variable_ref v []),
   add_var {| var_name := v; var_shape := []; var_trainable := trainable;
              var_init := const_init initial_value |} g).

(** [with tf.variable_scope(name, reuse=..., initializer=...)]: [reuse] and
    [initializer] are inherited unless given; the scope is left when the
    block is, however it ends. *)
Definition variable_scope {A} (nm : string) (reuse_arg : option bool)
    (initializer_arg : option (Q * Q)) (body : G A) : G A := λ g,
  let s := {| scope_name := nm;
              scope_reuse := match reuse_arg with
                             | Some true => true
                             | _ => reuse g
                             end;
              scope_initializer := match initializer_arg with
                                   | Some i => Some i
                                   | None => initializer g
                                   end |} in
  let '(r, g') := body {| g_scopes := s :: g_scopes g; g_vars := g_vars g |} in
  (r, {| g_scopes := g_scopes g; g_vars := g_vars g' |}).

(** [tf.get_variable_scope().reuse_variables()]: marks the innermost open
    scope.  (The root scope, which the script never marks, has no entry.) *)
Definition reuse_variables : G unit := λ g,
  (Ok (),
   {| g_scopes := match g_scopes g with
                  | s :: rest =>
                      {| scope_name := scope_name s; scope_reuse := true;
                         scope_initializer := scope_initializer s |} :: rest
                  | [] => []
                  end;
      g_vars := g_vars g |}).

Definition get_all_variables : G (list name) := λ g, (Ok (all_variables g), g).

Definition get_trainable_variables : G (list tensor) :=
  λ g, (Ok (trainable_variables g), g).

(** [tf.placeholder(dtype, shape)] refuses a negative dimension.  The node
    it adds to the graph is not a variable, and is not recorded. *)
Definition new_placeholder (dt : dtype) (shape : list Z) : G tensor :=
  if forallb (λ d, 0 <=? d) shape then mret (placeholder dt shape)
  else fail (ValueError "Dimension must be >= 0").

(** [tf.nn.rnn_cell.MultiRNNCell(cells)] refuses an empty list. *)
Definition new_MultiRNNCell (cells : list cell) : G cell :=
  match cells with
  | [] => fail (ValueError "Must specify at least one cell for MultiRNNCell.")
  | _ => mret (MultiRNNCell cells)
  end.

(** The loop of a stack of cells over its layers: layer [i] runs in the
    scope [Cell<i>] on the output of the layer below and on its slice of
    the state; [call] is the call of one layer. *)
Definition call_layers (call : cell → tensor → tensor → G (tensor * tensor))
    (state : tensor)
  : list cell → Z → tensor → list tensor → G (tensor * tensor) :=
  fix layers cells i cur_inp new_states :=
    match cells with
    | [] => mret (cur_inp, concat 1 new_states)
    | c :: rest =>
        '(cur_inp, new_state) ←
          variable_scope ("Cell" +:+ str i) None None
            (call c cur_inp (state_slice state i));
        layers rest (i + 1) cur_inp (new_states ++ [new_state])
    end.

(** [cell(inputs, state)]: the output and the new state.  Each kind of cell
    works in a scope of its own name; the LSTM's weights are the variables
    [Linear/Matrix] and [Linear/Bias] (the script's inputs are as wide as
    the cell). *)
Fixpoint call (c : cell) (inputs state : tensor) : G (tensor * tensor) :=
  match c with
  | BasicLSTMCell num_units forget_bias =>
      variable_scope "BasicLSTMCell" None None (
        variable_scope "Linear" None None (
          matrix ← get_variable "Matrix" [2 * num_units; 4 * num_units];
          bias ← get_variable "Bias" [4 * num_units];
          mret (lstm_h matrix bias num_units forget_bias inputs state,
                lstm_state matrix bias num_units forget_bias inputs state)))
  | DropoutWrapper c keep_prob =>
      '(output, new_state) ← call c inputs state;
      mret (dropout output keep_prob, new_state)
  | MultiRNNCell cells =>
      variable_scope "MultiRNNCell" None None
        (call_layers call state cells 0 inputs [])
  end.

End tf.

(** [for i in range(n)] threading the loop's variables, in any monad. *)
Fixpoint for_range_from {Mo : Type → Type} `{MBind Mo, MRet Mo} {S : Type}
    (start : Z) (count : nat) (s : S) (body : Z → S → Mo S) : Mo S :=
  match count with
  | O => mret s
  | Datatypes.S count' =>
      s' ← body start s;
      for_range_from (start + 1) count' s' body
  end.

Definition for_range {Mo : Type → Type} `{MBind Mo, MRet Mo} {S : Type}
    (n : Z) (s : S) (body : Z → S → Mo S) : Mo S :=
  for_range_from 0 (Z.to_nat n) s body.

(** Values fed to a session: arrays the script builds, or arrays a session
    gave back. *)
Inductive fed (ndarray : Type) :=
| FInts (a : matrix Z)
| FFloats (a : list Q)
| FArray (a : ndarray).
Arguments FInts {ndarray} a.
Arguments FFloats {ndarray} a.
Arguments FArray {ndarray} a.

Abbreviation feed_dict ndarray := (list (tf.tensor * fed ndarray)).

(** ** The interfaces of what lies outside the script *)

(** A TensorFlow session and saver.  [item] reads a scalar array, [rows] a
    two-dimensional one.  A run gives one value per fetch. *)
Class TensorFlow := {
  ndarray : Type;
  item : ndarray → Q;
  rows : ndarray → matrix Q;
  Sess : Type;
  Ckpt : Type;
  Session : Sess;
  session_run :
    list tf.fetch → feed_dict ndarray → Sess → result (list ndarray * Sess);
  session_run_length fs fd s vs s' :
    session_run fs fd s = Ok (vs, s') → length vs = length fs;
  saver_save : tf.Saver → Sess → result Ckpt;
  saver_restore : tf.Saver → Ckpt → Sess → result Sess;
}.

(** The repository's [reader] module.  [ptb_raw_data] gives the three
    splits as word ids, the vocabulary size and the two vocabulary
    mappings; [ptb_iterator] generates the [(x, y)] minibatches. *)
Class Reader := {
  ptb_raw_data :
    option string →
    result (list Z * list Z * list Z * Z * gmap string Z * gmap Z string);
  ptb_iterator : list Z → Z → Z → gen (matrix Z * matrix Z);
}.

(** [np.random.choice(n, p=p)] on the global generator. *)
Class NumpyRandom := {
  Rng : Type;
  random_choice : Z → list Q → Rng → result (Z * Rng);
}.

(** Python's built-in [int] applied to a string.  Which literals it takes
    (blanks around the digits, digit separators, digits outside ASCII) is
    the interpreter's business, so the script is read for any such
    function. *)
Class Builtins := {
  int_of_str : string → result Z;
}.

(** ** The script: configurations and the model *)

Record Config := {
  init_scale : Q;
  learning_rate : Q;
  max_grad_norm : Z;
  num_layers : Z;
  num_steps : Z;
  hidden_size : Z;
  max_epoch : Z;
  max_max_epoch : Z;
  keep_prob : Q;
  lr_decay : Q;
  batch_size : Z;
  vocab_size : Z;
}.

Definition SmallConfig : Config := {|
  init_scale := 0.1; learning_rate := 1.0; max_grad_norm := 5;
  num_layers := 2; num_steps := 20; hidden_size := 200;
  max_epoch := 4; max_max_epoch := 13; keep_prob := 1.0; lr_decay := 0.5;
  batch_size := 20; vocab_size := 10002 |}.

Definition MediumConfig : Config := {|
  init_scale := 0.05; learning_rate := 1.0; max_grad_norm := 5;
  num_layers := 2; num_steps := 35; hidden_size := 650;
  max_epoch := 6; max_max_epoch := 39; keep_prob := 0.5; lr_decay := 0.8;
  batch_size := 20; vocab_size := 10002 |}.

Definition LargeConfig : Config := {|
  init_scale := 0.04; learning_rate := 1.0; max_grad_norm := 10;
  num_layers := 2; num_steps := 35; hidden_size := 1500;
  max_epoch := 14; max_max_epoch := 55; keep_prob := 0.35;
  lr_decay := 1 / 1.15;
  batch_size := 20; vocab_size := 10002 |}.

Definition TestConfig : Config := {|
  init_scale := 0.1; learning_rate := 1.0; max_grad_norm := 1;
  num_layers := 1; num_steps := 2; hidden_size := 2;
  max_epoch := 1; max_max_epoch := 1; keep_prob := 1.0; lr_decay := 0.5;
  batch_size := 20; vocab_size := 10002 |}.

(** [config.batch_size = n] and [config.num_steps = n] on an instance. *)
Definition set_batch_size (c : Config) (n : Z) : Config := {|
  init_scale := init_scale c; learning_rate := learning_rate c;
  max_grad_norm := max_grad_norm c; num_layers := num_layers c;
  num_steps := num_steps c; hidden_size := hidden_size c;
  max_epoch := max_epoch c; max_max_epoch := max_max_epoch c;
  keep_prob := keep_prob c; lr_decay := lr_decay c;
  batch_size := n; vocab_size := vocab_size c |}.

Definition set_num_steps (c : Config) (n : Z) : Config := {|
  init_scale := init_scale c; learning_rate := learning_rate c;
  max_grad_norm := max_grad_norm c; num_layers := num_layers c;
  num_steps := n; hidden_size := hidden_size c;
  max_epoch := max_epoch c; max_max_epoch := max_max_epoch c;
  keep_prob := keep_prob c; lr_decay := lr_decay c;
  batch_size := batch_size c; vocab_size := vocab_size c |}.

(** [a < b] on floats. *)
Definition Qltb (a b : Q) : bool := if Qlt_le_dec a b then true else false.

(** The attributes of a [PTBModel] instance; [_lr] and [_train_op] are set
    in training mode only. *)
Record PTBModel := {
  m_batch_size : Z;
  m_num_steps : Z;
  _input_data : tf.tensor;
  _targets : tf.tensor;
  _weights : tf.tensor;
  _initial_state : tf.tensor;
  _cost : tf.tensor;
  _final_state : tf.tensor;
  _logits : tf.tensor;
  _probs : tf.tensor;
  saver : tf.Saver;
  _lr : option tf.tensor;
  _train_op : option tf.op;
}.

(** The LSTM cell of one layer. *)
Definition lstm_cell_of (is_training : bool) (config : Config) : tf.cell :=
  let lstm_cell := tf.BasicLSTMCell (hidden_size config) 0 in
  if (is_training && Qltb (keep_prob config) 1)%bool
  then tf.DropoutWrapper lstm_cell (keep_prob config)
  else lstm_cell.

(** One pass of the loop that unrolls the cell. *)
Definition unroll_step (cell : tf.cell) (inputs : tf.tensor) (time_step : Z)
    (acc : list tf.tensor * tf.tensor) : tf.G (list tf.tensor * tf.tensor) :=
  let '(outputs, state) := acc in
  (if 0 <? time_step then tf.reuse_variables else mret ());;
  '(cell_output, state) ← tf.call cell (tf.time_slice inputs time_step) state;
  mret (outputs ++ [cell_output], state).

(** [PTBModel.__init__(self, is_training, config)].  (The device placement
    of the embedding has no counterpart here.) *)
Definition PTBModel_init (is_training : bool) (config : Config)
  : tf.G PTBModel :=
  let batch_size := batch_size config in
  let num_steps := num_steps config in
  let size := hidden_size config in
  let vocab_size := vocab_size config in
  input_data ← tf.new_placeholder tf.int32 [batch_size; num_steps];
  targets ← tf.new_placeholder tf.int32 [batch_size; num_steps];
  weights ← tf.new_placeholder tf.float32 [batch_size * num_steps];
  let lstm_cell := lstm_cell_of is_training config in
  cell ← tf.new_MultiRNNCell (repeat lstm_cell (Z.to_nat (num_layers config)));
  let initial_state := tf.zero_state cell batch_size tf.float32 in
  embedding ← tf.get_variable "embedding" [vocab_size; size];
  let inputs := tf.embedding_lookup embedding input_data in
  let inputs :=
    if (is_training && Qltb (keep_prob config) 1)%bool
    then tf.dropout inputs (keep_prob config) else inputs in
  '(outputs, state) ←
    tf.variable_scope "RNN" None None
      (for_range num_steps ([], initial_state) (unroll_step cell inputs));
  let output := tf.reshape (tf.concat 1 outputs) [-1; size] in
  softmax_w ← tf.get_variable "softmax_w" [size; vocab_size];
  softmax_b ← tf.get_variable "softmax_b" [vocab_size];
  let logits := tf.add (tf.matmul output softmax_w) softmax_b in
  let loss :=
    tf.sequence_loss_by_example
      [logits] [tf.reshape targets [-1]] [weights] in
  let cost := tf.div (tf.reduce_sum loss) batch_size in
  all_variables ← tf.get_all_variables;
  let self lr train_op := {|
    m_batch_size := batch_size; m_num_steps := num_steps;
    _input_data := input_data; _targets := targets; _weights := weights;
    _initial_state := initial_state; _cost := cost; _final_state := state;
    _logits := logits; _probs := tf.softmax logits;
    saver := {| tf.saver_vars := all_variables |};
    _lr := lr; _train_op := train_op |} in
  if negb is_training then mret (self None None)
  else
    lr ← tf.new_Variable 0 false;
    tvars ← tf.get_trainable_variables;
    let '(grads, _) :=
      tf.clip_by_global_norm (tf.gradients cost tvars) (max_grad_norm config) in
    let optimizer := tf.GradientDescentOptimizer lr in
    let train_op := tf.apply_gradients optimizer (zip grads tvars) in
    mret (self (Some lr) (Some train_op)).

(** The terms [tf.call_layers] builds, given those of one layer. *)
Definition layers_terms
    (cell_terms : tf.name → tf.cell → tf.tensor → tf.tensor →
                  tf.tensor * tf.tensor)
    (path : tf.name) (state : tf.tensor)
  : list tf.cell → Z → tf.tensor → list tf.tensor → tf.tensor * tf.tensor :=
  fix layers cells i cur_inp new_states :=
    match cells with
    | [] => (cur_inp, tf.concat 1 new_states)
    | c :: rest =>
        let '(cur_inp, new_state) :=
          cell_terms (path ++ ["Cell" +:+ str i]) c cur_inp
            (tf.state_slice state i) in
        layers rest (i + 1) cur_inp (new_states ++ [new_state])
    end.

(** The output and the state a call of the cell builds in the scope
    [path]: the terms of [tf.call], without the graph. *)
Fixpoint cell_terms (path : tf.name) (c : tf.cell) (inputs state : tf.tensor)
  : tf.tensor * tf.tensor :=
  match c with
  | tf.BasicLSTMCell num_units forget_bias =>
      let matrix :=
        tf.variable_ref (path ++ ["BasicLSTMCell"; "Linear"; "Matrix"])
          [2 * num_units; 4 * num_units] in
      let bias :=
        tf.variable_ref (path ++ ["BasicLSTMCell"; "Linear"; "Bias"])
          [4 * num_units] in
      (tf.lstm_h matrix bias num_units forget_bias inputs state,
       tf.lstm_state matrix bias num_units forget_bias inputs state)
  | tf.DropoutWrapper c keep_prob =>
      let '(output, new_state) := cell_terms path c inputs state in
      (tf.dropout output keep_prob, new_state)
  | tf.MultiRNNCell cells =>
      layers_terms cell_terms (path ++ ["MultiRNNCell"]) state cells 0 inputs []
  end.

(** The cell applied to [count] successive time steps from [start]: the
    outputs so far and the state. *)
Fixpoint unroll_terms (path : tf.name) (cell : tf.cell) (inputs : tf.tensor)
    (start : Z) (count : nat) (acc : list tf.tensor * tf.tensor)
  : list tf.tensor * tf.tensor :=
  match count with
  | O => acc
  | S count' =>
      let '(cell_output, state) :=
        cell_terms path cell (tf.time_slice inputs start) (snd acc) in
      unroll_terms path cell inputs (start + 1) count'
        (fst acc ++ [cell_output], state)
  end.

(** The inputs of the recurrent core: the embedded words, under dropout in
    training when [keep_prob < 1]. *)
Definition model_inputs (is_training : bool) (config : Config)
    (path : tf.name) : tf.tensor :=
  let inputs :=
    tf.embedding_lookup
      (tf.variable_ref (path ++ ["embedding"])
         [vocab_size config; hidden_size config])
      (tf.placeholder tf.int32 [batch_size config; num_steps config]) in
  if (is_training && Qltb (keep_prob config) 1)%bool
  then tf.dropout inputs (keep_prob config) else inputs.

(** The recurrent core of a model: the stack of cells, and the stack
    unrolled over the time steps from the zero state, under the scope
    [path] the model is built in. *)
Definition model_cell (is_training : bool) (config : Config) : tf.cell :=
  tf.MultiRNNCell
    (repeat (lstm_cell_of is_training config) (Z.to_nat (num_layers config))).

Definition model_unrolled (is_training : bool) (config : Config)
    (path : tf.name) : list tf.tensor * tf.tensor :=
  unroll_terms (path ++ ["RNN"]) (model_cell is_training config)
    (model_inputs is_training config path) 0 (Z.to_nat (num_steps config))
    ([], tf.zero_state (model_cell is_training config) (batch_size config)
           tf.float32).

(** What a call of a cell does to the graph: the scopes are as before, in
    a reusing scope no variable is added, and the terms returned are
    [cell_terms] under the path of the scope. *)
Definition call_spec (c : tf.cell) : Prop :=
  ∀ inputs state g r g',
    tf.call c inputs state g = (r, g') →
    tf.g_scopes g' = tf.g_scopes g ∧
    (tf.reuse g = true → tf.g_vars g' = tf.g_vars g) ∧
    (∀ t, r = Ok t → t = cell_terms (tf.scope_path g) c inputs state).

(** A construction shares the variables of a reusing scope when, started
    in such a scope, it leaves the variables of the graph as they are
    (and the scope reusing), however it ends. *)
Definition shares {A} (c : tf.G A) : Prop :=
  ∀ g r g', c g = (r, g') → tf.reuse g = true →
    tf.g_vars g' = tf.g_vars g ∧ tf.reuse g' = true.

(** The variable [tf.get_variable(nm, shape)] creates in the scope
    [path] with the initializer [init]. *)
Definition scope_var (path : tf.name) (init : option (Q * Q)) (nm : string)
    (shape : list Z) : tf.var :=
  {| tf.var_name := path ++ [nm]; tf.var_shape := shape;
     tf.var_trainable := true; tf.var_init := tf.scope_init init |}.

(** The variables the first call of a cell creates in the scope [path]:
    the weights of every LSTM layer, in the order of the layers. *)
Definition layers_vars
    (cell_vars : tf.name → option (Q * Q) → tf.cell → list tf.var)
    (path : tf.name) (init : option (Q * Q))
  : list tf.cell → Z → list tf.var :=
  fix layers cells i :=
    match cells with
    | [] => []
    | c :: rest =>
        cell_vars (path ++ ["Cell" +:+ str i]) init c ++ layers rest (i + 1)
    end.

Fixpoint cell_vars (path : tf.name) (init : option (Q * Q)) (c : tf.cell)
  : list tf.var :=
  match c with
  | tf.BasicLSTMCell num_units forget_bias =>
      [scope_var (path ++ ["BasicLSTMCell"; "Linear"]) init "Matrix"
         [2 * num_units; 4 * num_units];
       scope_var (path ++ ["BasicLSTMCell"; "Linear"]) init "Bias"
         [4 * num_units]]
  | tf.DropoutWrapper c keep_prob => cell_vars path init c
  | tf.MultiRNNCell cells =>
      layers_vars cell_vars (path ++ ["MultiRNNCell"]) init cells 0
  end.

(** The variables a model creates in a scope that does not reuse: the
    embedding, the weights of the cell (created at time step 0, if there
    is one), and the weights and the bias of the softmax. *)
Definition model_vars (is_training : bool) (config : Config)
    (path : tf.name) (init : option (Q * Q)) : list tf.var :=
  [scope_var path init "embedding" [vocab_size config; hidden_size config]]
  ++ (if 0 <? num_steps config
      then cell_vars (path ++ ["RNN"]) init (model_cell is_training config)
      else [])
  ++ [scope_var path init "softmax_w" [hidden_size config; vocab_size config];
      scope_var path init "softmax_b" [vocab_size config]].

(** What a call of a cell adds to a graph whose scope does not reuse. *)
Definition call_vars_spec (c : tf.cell) : Prop :=
  ∀ inputs state g t g',
    tf.call c inputs state g = (Ok t, g') → tf.reuse g = false →
    tf.g_vars g'
    = tf.g_vars g ++ cell_vars (tf.scope_path g) (tf.initializer g) c.

(** Whether the computation of a tensor goes through a dropout. *)
Fixpoint uses_dropout (t : tf.tensor) : bool :=
  match t with
  | tf.placeholder _ _ | tf.variable_ref _ _ | tf.zero_state _ _ _ => false
  | tf.dropout _ _ => true
  | tf.time_slice x _ | tf.state_slice x _ | tf.reshape x _
  | tf.reduce_sum x | tf.div x _ | tf.softmax x => uses_dropout x
  | tf.embedding_lookup a b | tf.matmul a b | tf.add a b | tf.gradient a b =>
      uses_dropout a || uses_dropout b
  | tf.lstm_h matrix bias _ _ input state
  | tf.lstm_state matrix bias _ _ input state =>
      uses_dropout matrix || uses_dropout bias || uses_dropout input
      || uses_dropout state
  | tf.concat _ values | tf.global_norm values => existsb uses_dropout values
  | tf.sequence_loss_by_example logits targets weights =>
      existsb uses_dropout logits || existsb uses_dropout targets
      || existsb uses_dropout weights
  | tf.clipped t t_list _ => uses_dropout t || existsb uses_dropout t_list
  end.

(** A cell without dropout builds no dropout of its own. *)
Definition plain_spec (c : tf.cell) : Prop :=
  ∀ path inputs state,
    uses_dropout inputs = false → uses_dropout state = false →
    uses_dropout (fst (cell_terms path c inputs state)) = false ∧
    uses_dropout (snd (cell_terms path c inputs state)) = false.

(** The read-only properties of the class. *)
Definition input_data (m : PTBModel) : tf.tensor := _input_data m.
Definition targets (m : PTBModel) : tf.tensor := _targets m.
Definition probs (m : PTBModel) : tf.tensor := _probs m.
Definition logits (m : PTBModel) : tf.tensor := _logits m.
Definition weights (m : PTBModel) : tf.tensor := _weights m.
Definition initial_state (m : PTBModel) : tf.tensor := _initial_state m.
Definition cost (m : PTBModel) : tf.tensor := _cost m.
Definition final_state (m : PTBModel) : tf.tensor := _final_state m.

Definition lr (m : PTBModel) : result tf.tensor :=
  match _lr m with
  | Some t => Ok t
  | None => Raise (AttributeError "_lr")
  end.

Definition train_op (m : PTBModel) : result tf.op :=
  match _train_op m with
  | Some o => Ok o
  | None => Raise (AttributeError "_train_op")
  end.

(** The command-line flags.  [generate] is declared as a string flag whose
    default is [False]; [data_path] and [model_path_prefix] default to
    [None]. *)
Module Flags.

Inductive value := False_ | Str (s : string).

Record t := {
  model : string;
  data_path : option string;
  generate : value;
  model_path_prefix : option string;
}.

End Flags.

(** Truth of a flag value: [False], [None] and the empty string are false. *)
Definition truthy (v : Flags.value) : bool :=
  match v with
  | Flags.False_ => false
  | Flags.Str s => negb (String.eqb s "")
  end.

Definition truthy_opt (v : option string) : bool :=
  match v with
  | None => false
  | Some s => negb (String.eqb s "")
  end.

(** ** The world the script runs in *)

#[global] Instance result_ret : MRet result := λ A a, Ok a.
#[global] Instance result_mbind : MBind result := λ A B k r, result_bind r k.

(** [len(l)]. *)
Definition len {A} (l : list A) : Z := Z.of_nat (length l).

(** [d[k]] on a dict loaded from JSON. *)
Definition getitem (d : gmap string jvalue) (k : string) : result jvalue :=
  match d !! k with
  | Some v => Ok v
  | None => Raise (KeyError k)
  end.

(** [int(v)] on a loaded value. *)
Definition py_int `{!Builtins} (v : jvalue) : result Z :=
  match v with
  | JInt n => Ok n
  | JStr s => int_of_str s
  end.

(** What [print] is given: a format and its arguments. *)
Inductive parg :=
| PInt (n : Z)
| PFloat (q : Q)
| PReal (r : R)
| PStr (s : string)
| PVal (v : jvalue)
| PObj (repr : string).

Record line := Line { fmt : string; args : list parg }.

(** [final_chosen_word]: the empty string, or a word id. *)
Inductive word :=
| NoWord
| Word (id : Z).

Section Script.
Context `{!TensorFlow, !Reader, !NumpyRandom, !Builtins}.

Inductive file :=
| FEmpty
| FJson (doc : gmap string jvalue)
| FCkpt (c : Ckpt).

(** What the script does to the outside, in order. *)
Inductive event :=
| EvRawData (data_path : option string)
| EvOpen (path : string) (mode : string)
| EvJsonDump (path : string) (doc : gmap string jvalue)
| EvJsonLoad (path : string)
| EvRun (fetches : list tf.fetch) (feed : feed_dict ndarray)
        (values : list ndarray)
| EvSave (sv : tf.Saver) (path : string) (c : Ckpt)
| EvRestore (sv : tf.Saver) (path : string) (c : Ckpt)
| EvChoice (n : Z) (p : list Q) (chosen : Z).

(** The file system (the JSON and checkpoint files; the corpus is the
    reader's), standard output, the log of events, the clock ([w_clock k] is
    what the [k]-th call of [time.time()] returns), numpy's generator, the
    default graph and the state of the session. *)
Record world := {
  w_fs : gmap string file;
  w_stdout : list line;
  w_log : list event;
  w_clock : nat → Q;
  w_ticks : nat;
  w_rng : Rng;
  w_graph : tf.graph;
  w_sess : Sess;
}.

Definition set_fs (f : gmap string file → gmap string file) (w : world) := {|
  w_fs := f (w_fs w); w_stdout := w_stdout w; w_log := w_log w;
  w_clock := w_clock w; w_ticks := w_ticks w; w_rng := w_rng w;
  w_graph := w_graph w; w_sess := w_sess w |}.

Definition set_stdout (f : list line → list line) (w : world) := {|
  w_fs := w_fs w; w_stdout := f (w_stdout w); w_log := w_log w;
  w_clock := w_clock w; w_ticks := w_ticks w; w_rng := w_rng w;
  w_graph := w_graph w; w_sess := w_sess w |}.

Definition set_log (f : list event → list event) (w : world) := {|
  w_fs := w_fs w; w_stdout := w_stdout w; w_log := f (w_log w);
  w_clock := w_clock w; w_ticks := w_ticks w; w_rng := w_rng w;
  w_graph := w_graph w; w_sess := w_sess w |}.

Definition set_ticks (n : nat) (w : world) := {|
  w_fs := w_fs w; w_stdout := w_stdout w; w_log := w_log w;
  w_clock := w_clock w; w_ticks := n; w_rng := w_rng w;
  w_graph := w_graph w; w_sess := w_sess w |}.

Definition set_rng (r : Rng) (w : world) := {|
  w_fs := w_fs w; w_stdout := w_stdout w; w_log := w_log w;
  w_clock := w_clock w; w_ticks := w_ticks w; w_rng := r;
  w_graph := w_graph w; w_sess := w_sess w |}.

Definition set_graph (g : tf.graph) (w : world) := {|
  w_fs := w_fs w; w_stdout := w_stdout w; w_log := w_log w;
  w_clock := w_clock w; w_ticks := w_ticks w; w_rng := w_rng w;
  w_graph := g; w_sess := w_sess w |}.

Definition set_sess (s : Sess) (w : world) := {|
  w_fs := w_fs w; w_stdout := w_stdout w; w_log := w_log w;
  w_clock := w_clock w; w_ticks := w_ticks w; w_rng := w_rng w;
  w_graph := w_graph w; w_sess := s |}.

(** Statements: they change the world and return or raise. *)
Definition M (A : Type) : Type := world → result A * world.

#[global] Instance M_ret : MRet M := λ A a w, (Ok a, w).

#[global] Instance M_bind : MBind M := λ A B k c w,
  match c w with
  | (Ok a, w') => k a w'
  | (Raise e, w') => (Raise e, w')
  end.

Definition raise {A} (e : exn) : M A := λ w, (Raise e, w).

Definition lift {A} (r : result A) : M A := λ w, (r, w).

Definition modify (f : world → world) : M unit := λ w, (Ok (), f w).

Definition log (e : event) : M unit := modify (set_log (λ l, l ++ [e])).

Definition print (fmt : string) (args : list parg) : M unit :=
  modify (set_stdout (λ l, l ++ [Line fmt args])).

(** [time.time()]. *)
Definition time_time : M Q :=
  λ w, (Ok (w_clock w (w_ticks w)), set_ticks (S (w_ticks w)) w).

(** Graph construction acts on the default graph. *)
Definition in_graph {A} (c : tf.G A) : M A := λ w,
  let '(r, g) := c (w_graph w) in (r, set_graph g w).

(** [with tf.Graph().as_default(), tf.Session() as session]: a new default
    graph and a new session for the block. *)
Definition with_graph_session {A} (body : M A) : M A := λ w,
  body (set_sess Session (set_graph tf.empty_graph w)).

(** [session.run(fetches, feed_dict)]. *)
Definition run (fetches : list tf.fetch) (feed : feed_dict ndarray)
  : M (list ndarray) := λ w,
  match session_run fetches feed (w_sess w) with
  | Ok (values, s) =>
      (Ok values, set_log (λ l, l ++ [EvRun fetches feed values]) (set_sess s w))
  | Raise e => (Raise e, w)
  end.

(** [session.run(t)], [t.eval()] and [op.run()]: a single fetch gives a
    single value. *)
Definition run1 (f : tf.fetch) : M ndarray :=
  values ← run [f] [];
  match values with
  | [v] => mret v
  | _ => raise (FrameworkError "one fetch, one value")
  end.

(** [open(path, mode)] for the modes ["w"] and ["r"]; the handle is the
    path.  Opening for writing empties the file. *)
Definition open (path : string) (mode : string) : M string :=
  if String.eqb mode "w" then
    log (EvOpen path mode);;
    modify (set_fs (insert path FEmpty));;
    mret path
  else
    λ w, match w_fs w !! path with
         | Some _ => (Ok path, set_log (λ l, l ++ [EvOpen path mode]) w)
         | None => (Raise (IOError path), w)
         end.

(** [json.dump(obj, fp)], given the JSON object [obj] becomes. *)
Definition json_dump_to (doc : gmap string jvalue) (fp : string) : M unit :=
  log (EvJsonDump fp doc);;
  modify (set_fs (insert fp (FJson doc))).

(** [json.load(fp)]. *)
Definition json_load (fp : string) : M (gmap string jvalue) := λ w,
  match w_fs w !! fp with
  | Some (FJson doc) => (Ok doc, set_log (λ l, l ++ [EvJsonLoad fp]) w)
  | _ => (Raise (ValueError "No JSON object could be decoded"), w)
  end.

(** [saver.save(session, path)] and [saver.restore(session, path)].  Of
    what [save] writes, the checkpoint at [path] is modelled, which is what
    [restore] reads; the files the framework keeps beside it (the
    [checkpoint] state file of the directory, a graph description) are
    not. *)
Definition save (sv : tf.Saver) (path : string) : M unit := λ w,
  match saver_save sv (w_sess w) with
  | Ok c =>
      (Ok (),
       set_log (λ l, l ++ [EvSave sv path c])
         (set_fs (insert path (FCkpt c)) w))
  | Raise e => (Raise e, w)
  end.

Definition restore (sv : tf.Saver) (path : string) : M unit := λ w,
  match w_fs w !! path with
  | Some (FCkpt c) =>
      match saver_restore sv c (w_sess w) with
      | Ok s =>
          (Ok (), set_log (λ l, l ++ [EvRestore sv path c]) (set_sess s w))
      | Raise e => (Raise e, w)
      end
  | _ => (Raise (FrameworkError "not a checkpoint"), w)
  end.

(** [np.random.choice(n, p=p)]. *)
Definition np_random_choice (n : Z) (p : list Q) : M Z := λ w,
  match random_choice n p (w_rng w) with
  | Ok (k, r) => (Ok k, set_log (λ l, l ++ [EvChoice n p k]) (set_rng r w))
  | Raise e => (Raise e, w)
  end.

(** [reader.ptb_raw_data(data_path)]. *)
Definition reader_ptb_raw_data (data_path : option string)
  : M (list Z * list Z * list Z * Z * gmap string Z * gmap Z string) :=
  log (EvRawData data_path);;
  lift (ptb_raw_data data_path).

(** [for step, a in enumerate(g)], threading the loop's variables; the body
    says whether to go on or to break. *)
Fixpoint for_enumerate {A S} (g : gen A) (step : Z) (s : S)
    (body : Z → A → S → M (ctl S)) : M S :=
  match g with
  | GStop => mret s
  | GRaise e => raise e
  | GYield a rest =>
      c ← body step a s;
      match c with
      | Continue s' => for_enumerate rest (step + 1) s' body
      | Break s' => mret s'
      end
  end.

(** ** The script: running, training and sampling *)

Variable FLAGS : Flags.t.

(** [verbose and step % (epoch_size // 10) == 10]. *)
Definition report_due (verbose : bool) (step epoch_size : Z) : result bool :=
  if verbose then
    tenth ← floordiv epoch_size 10;
    r ← pymod step tenth;
    mret (r =? 10)
  else mret false.

(** The block under that condition: the progress line, and the word
    chosen. *)
Definition report_progress (m : PTBModel) (step epoch_size : Z)
    (start_time : Q) (costs : float) (iters : Z) (probs : ndarray) : M unit :=
  progress ← lift (pydiv (inject_Z step * 1.0) (inject_Z epoch_size));
  avg ← lift (truediv costs iters);
  now ← time_time;
  speed ← lift (pydiv (inject_Z (iters * m_batch_size m)) (now - start_time));
  print "%.3f perplexity: %.3f speed: %.0f wps"
        [PFloat progress; PReal (np_exp avg); PFloat speed];;
  chosen_word ← lift (np_argmax_1 (rows probs));
  chosen_word ← lift (index_last chosen_word);
  mret ().

(** The body of the loop of [run_epoch]; the loop's variables are [costs],
    [iters], [state] and [final_chosen_word]. *)
Definition run_epoch_body (m : PTBModel) (eval_op : tf.op) (verbose : bool)
    (epoch_size : Z) (start_time : Q)
    (step : Z) (xy : matrix Z * matrix Z) (vars : float * Z * ndarray * word)
  : M (ctl (float * Z * ndarray * word)) :=
  let '(x, y) := xy in
  let '(costs, iters, state, final_chosen_word) := vars in
  ones ← lift (np_ones (m_batch_size m * m_num_steps m));
  values ←
    run [tf.Ft (cost m); tf.Ft (final_state m); tf.Ft (logits m);
         tf.Ft (probs m); tf.Fo eval_op]
        [(input_data m, FInts x);
         (targets m, FInts y);
         (initial_state m, FArray state);
         (weights m, FFloats ones)];
  match values with
  | [cost; state; logits; probs; _] =>
      let costs := float_add_np costs (item cost) in
      let iters := iters + m_num_steps m in
      report ← lift (report_due verbose step epoch_size);
      (if report : bool
       then report_progress m step epoch_size start_time costs iters probs
       else mret ());;
      chosen_word ← lift (np_argmax_1 (rows probs));
      chosen_word ← lift (index_last chosen_word);
      let final_chosen_word := Word chosen_word in
      mret (Break (costs, iters, state, final_chosen_word))
  | _ => raise (ValueError "wrong number of values to unpack")
  end.

(** [((len(data) // m.batch_size) - 1) // m.num_steps]. *)
Definition epoch_size_of (m : PTBModel) (data : list Z) : result Z :=
  batch_len ← floordiv (len data) (m_batch_size m);
  floordiv (batch_len - 1) (m_num_steps m).

(** The loop of [run_epoch], from the values its variables have before
    it. *)
Definition run_epoch_loop (m : PTBModel) (data : list Z) (eval_op : tf.op)
    (verbose : bool) (epoch_size : Z) (start_time : Q)
    (vars : float * Z * ndarray * word) : M (float * Z * ndarray * word) :=
  for_enumerate (ptb_iterator data (m_batch_size m) (m_num_steps m)) 0 vars
    (run_epoch_body m eval_op verbose epoch_size start_time).

(** [run_epoch(session, m, data, eval_op, verbose=False)]; the session is
    the world's. *)
Definition run_epoch (m : PTBModel) (data : list Z) (eval_op : tf.op)
    (verbose : bool) : M (R * word) :=
  epoch_size ← lift (epoch_size_of m data);
  start_time ← time_time;
  let costs := PyFloat 0.0 in
  let iters := 0 in
  state ← run1 (tf.Ft (initial_state m));
  let final_chosen_word := NoWord in
  print "batch size: %s" [PInt (m_batch_size m)];;
  '(costs, iters, state, final_chosen_word) ←
    run_epoch_loop m data eval_op verbose epoch_size start_time
      (costs, iters, state, final_chosen_word);
  avg ← lift (truediv costs iters);
  mret (np_exp avg, final_chosen_word).

Definition get_config : result Config :=
  if String.eqb (Flags.model FLAGS) "small" then Ok SmallConfig
  else if String.eqb (Flags.model FLAGS) "medium" then Ok MediumConfig
  else if String.eqb (Flags.model FLAGS) "large" then Ok LargeConfig
  else if String.eqb (Flags.model FLAGS) "test" then Ok TestConfig
  else Raise (ValueError "Invalid model: %s").

(** [m.assign_lr(session, lr_value)]. *)
Definition assign_lr (m : PTBModel) (lr_value : Q) : M unit :=
  lr ← lift (lr m);
  run1 (tf.Fo (tf.assign lr lr_value));;
  mret ().

(** One pass of the loop over the epochs in [train]. *)
Definition train_epoch (config : Config) (m mvalid : PTBModel)
    (train_data valid_data : list Z) (i : Z) (_ : unit) : M unit :=
  let lr_decay := pypow (lr_decay config) (Z.max (i - max_epoch config) 0) in
  assign_lr m (learning_rate config * lr_decay);;
  lr_t ← lift (lr m);
  lr_now ← run1 (tf.Ft lr_t);
  print "Epoch: %d Learning rate: %.3f" [PInt (i + 1); PFloat (item lr_now)];;
  train_op ← lift (train_op m);
  '(train_perplexity, _) ← run_epoch m train_data train_op true;
  print "Epoch: %d Train Perplexity: %.3f" [PInt (i + 1); PReal train_perplexity];;
  '(valid_perplexity, _) ← run_epoch mvalid valid_data tf.no_op false;
  print "Epoch: %d Valid Perplexity: %.3f" [PInt (i + 1); PReal valid_perplexity];;
  path ← lift (os_path_join (Flags.model_path_prefix FLAGS) "ptb.ckpt");
  save (saver m) path.

Definition train : M unit :=
  config ← lift get_config;
  eval_config ← lift get_config;
  let eval_config := set_batch_size eval_config 1 in
  let eval_config := set_num_steps eval_config 1 in
  raw_data ← reader_ptb_raw_data (Flags.data_path FLAGS);
  let '(train_data, valid_data, test_data, vocab, word_to_id, id_to_word) :=
    raw_data in
  print "Size of vocabulary: %d" [PInt vocab];;
  path ← lift (os_path_join (Flags.model_path_prefix FLAGS) "word_to_id.json");
  word_to_id_f ← open path "w";
  json_dump_to (json_dump (λ k, k) JInt word_to_id) word_to_id_f;;
  path ← lift (os_path_join (Flags.model_path_prefix FLAGS) "id_to_word.json");
  id_to_word_f ← open path "w";
  json_dump_to (json_dump str JStr id_to_word) id_to_word_f;;
  with_graph_session (
    let initializer := Some (- init_scale config, init_scale config)%Q in
    m ← in_graph (tf.variable_scope "model" None initializer
                    (PTBModel_init true config));
    '(mvalid, mtest) ←
      in_graph (tf.variable_scope "model" (Some true) initializer
                  (mvalid ← PTBModel_init false config;
                   mtest ← PTBModel_init false eval_config;
                   mret (mvalid, mtest)));
    all_variables ← in_graph tf.get_all_variables;
    run1 (tf.Fo (tf.initialize_all_variables all_variables));;
    for_range (max_max_epoch config) ()
      (train_epoch config m mvalid train_data valid_data);;
    print "test model" [];;
    print "%s" [PObj "mtest"];;
    '(test_perplexity, _) ← run_epoch mtest test_data tf.no_op false;
    print "Test Perplexity: %.3f" [PReal test_perplexity]).

(** One pass of the loop of [generate]; the loop's variables are
    [next_word], [final_state] and [sentence] ([fetches] is the list
    [[m.probs, m.final_state, tf.no_op()]] of the call of [session.run]). *)
Definition generate_step (m : PTBModel) (id_to_word : gmap string jvalue)
    (i : Z) (vars : Z * ndarray * list jvalue) : M (Z * ndarray * list jvalue) :=
  let fetches := [tf.Ft (probs m); tf.Ft (final_state m); tf.Fo tf.no_op] in
  let '(next_word, final_state, sentence) := vars in
  print "---" [];;
  print "using input next_word: %d" [PInt next_word];;
  print "shapes for: targets / init state / weights:" [];;
  print "%s" [PObj "np.zeros((1,1)).shape"];;
  print "%s" [PObj "final_state.shape"];;
  print "%s" [PObj "np.ones(1).shape"];;
  print "shapes for probs / final_state" [];;
  print "%s" [PObj "m.probs.get_shape()"];;
  print "%s" [PObj "m.final_state.get_shape()"];;
  print "%s" [PObj "tf.no_op()"];;
  ones ← lift (np_ones 1);
  values ←
    run fetches
        [(input_data m, FInts [[next_word]]);
         (targets m, FInts (np_zeros 1 1));
         (initial_state m, FArray final_state);
         (weights m, FFloats ones)];
  match values with
  | [probs; final_state; _] =>
      p ← lift (index_first (rows probs));
      next_word ← np_random_choice 10002 p;
      print "next_word=%d" [PInt next_word];;
      print "%s" [PObj "type(next_word)"];;
      w ← lift (getitem id_to_word (str next_word));
      print "word: %s" [PVal w];;
      print "next initial state shape:" [];;
      print "%s" [PObj "final_state.shape"];;
      print "probs shape: " [];;
      print "%s" [PObj "probs.shape"];;
      w ← lift (getitem id_to_word (str next_word));
      mret (next_word, final_state, sentence ++ [w])
  | _ => raise (ValueError "wrong number of values to unpack")
  end.

Definition generate (word_to_id id_to_word : gmap string jvalue) : M unit :=
  config ← lift get_config;
  let config := set_num_steps config 1 in
  let config := set_batch_size config 1 in
  with_graph_session (
    m ← in_graph (tf.variable_scope "model" None None
                    (PTBModel_init false config));
    path ← lift (os_path_join (Flags.model_path_prefix FLAGS) "ptb.ckpt");
    f ← open path "r";
    print "opened checkpoint file" [];;
    path ← lift (os_path_join (Flags.model_path_prefix FLAGS) "ptb.ckpt");
    restore (saver m) path;;
    state ← run1 (tf.Ft (initial_state m));
    ones ← lift (np_ones 1);
    values ←
      run [tf.Ft (probs m); tf.Ft (final_state m); tf.Fo tf.no_op]
          [(input_data m, FInts (np_zeros 1 1));
           (targets m, FInts (np_zeros 1 1));
           (initial_state m, FArray state);
           (weights m, FFloats ones)];
    match values with
    | [probs; final_state; _] =>
        print "probs shape: " [];;
        print "%s" [PObj "probs.shape"];;
        print "initial state shape:" [];;
        print "%s" [PObj "final_state.shape"];;
        bos ← lift (getitem word_to_id "<bos>");
        next_word ← lift (py_int bos);
        let sentence := [] in
        '(next_word, final_state, sentence) ←
          for_range 30 (next_word, final_state, sentence)
            (generate_step m id_to_word);
        print "SENTENCE:" [];;
        words ← lift (as_strings sentence);
        print "%s" [PStr (join " " words)]
    | _ => raise (ValueError "wrong number of values to unpack")
    end).

Definition main : M unit :=
  if (negb (truthy_opt (Flags.data_path FLAGS))
      && negb (truthy (Flags.generate FLAGS)))%bool
  then raise (ValueError "Must set --data_path to PTB data directory")
  else if negb (truthy (Flags.generate FLAGS)) then train
  else
    path ← lift (os_path_join (Flags.model_path_prefix FLAGS) "word_to_id.json");
    word_to_id_f ← open path "r";
    path ← lift (os_path_join (Flags.model_path_prefix FLAGS) "id_to_word.json");
    id_to_word_f ← open path "r";
    word_to_id ← json_load word_to_id_f;
    id_to_word ← json_load id_to_word_f;
    generate word_to_id id_to_word.

(** ** What the claims speak of *)

(** The fetches and the feeds of the run in [run_epoch]. *)
Definition epoch_fetches (m : PTBModel) (eval_op : tf.op) : list tf.fetch :=
  [tf.Ft (cost m); tf.Ft (final_state m); tf.Ft (logits m); tf.Ft (probs m);
   tf.Fo eval_op].

Definition epoch_feed (m : PTBModel) (x y : matrix Z) (state : ndarray)
  : feed_dict ndarray :=
  [(input_data m, FInts x);
   (targets m, FInts y);
   (initial_state m, FArray state);
   (weights m, FFloats (repeat 1%Q (Z.to_nat (m_batch_size m * m_num_steps m))))].

(** The minibatch a run of the model is fed, if the event is such a run. *)
Definition fed_batch (e : event) : option (matrix Z * matrix Z) :=
  match e with
  | EvRun _ [(_, FInts x); (_, FInts y); _; _] _ => Some (x, y)
  | _ => None
  end.

Definition minibatches (evs : list event) : list (matrix Z * matrix Z) :=
  omap fed_batch evs.

(** The file an event writes, and the file system after a list of
    events. *)
Definition written (e : event) : option (string * file) :=
  match e with
  | EvOpen path mode =>
      if String.eqb mode "w" then Some (path, FEmpty) else None
  | EvJsonDump path doc => Some (path, FJson doc)
  | EvSave _ path c => Some (path, FCkpt c)
  | _ => None
  end.

Definition fs_after (evs : list event) (fs : gmap string file)
  : gmap string file :=
  fold_left (λ fs e, match written e with
                     | Some (path, f) => <[path := f]> fs
                     | None => fs
                     end) evs fs.

(** The checkpoints a list of events saves, with their paths. *)
Definition saved (e : event) : option (string * Ckpt) :=
  match e with
  | EvSave _ path c => Some (path, c)
  | _ => None
  end.

Definition saves (evs : list event) : list (string * Ckpt) := omap saved evs.

(** An event that concerns neither the session nor numpy's generator. *)
Definition outside (e : event) : bool :=
  match e with
  | EvRawData _ | EvOpen _ _ | EvJsonDump _ _ | EvJsonLoad _ => true
  | _ => false
  end.

(** The session and the generator along a list of events.  Every run is
    a run of the session in the state the events before it left, and gave
    the values logged; every save is the snapshot its saver takes of that
    state; a restore puts the session in the state its saver makes of the
    checkpoint; every choice is the draw of the generator in the state the
    draws before it left. *)
Inductive replays : Sess → Rng → list event → Sess → Rng → Prop :=
| replays_nil s r : replays s r [] s r
| replays_run s r fetches feed values s1 evs s' r' :
    session_run fetches feed s = Ok (values, s1) →
    replays s1 r evs s' r' →
    replays s r (EvRun fetches feed values :: evs) s' r'
| replays_save s r sv path c evs s' r' :
    saver_save sv s = Ok c →
    replays s r evs s' r' →
    replays s r (EvSave sv path c :: evs) s' r'
| replays_restore s r sv path c s1 evs s' r' :
    saver_restore sv c s = Ok s1 →
    replays s1 r evs s' r' →
    replays s r (EvRestore sv path c :: evs) s' r'
| replays_choice s r n p k r1 evs s' r' :
    random_choice n p r = Ok (k, r1) →
    replays s r1 evs s' r' →
    replays s r (EvChoice n p k :: evs) s' r'
| replays_outside s r e evs s' r' :
    outside e = true →
    replays s r evs s' r' →
    replays s r (e :: evs) s' r'.

(** From [w] to [w'] the script logged the events [evs], the files
    changed as these events say, and the session, from the state [s], and
    the generator went along them. *)
Definition steps_from (s : Sess) (w w' : world) (evs : list event) : Prop :=
  w_log w' = w_log w ++ evs ∧ w_fs w' = fs_after evs (w_fs w) ∧
  replays s (w_rng w) evs (w_sess w') (w_rng w').

Definition steps (w w' : world) (evs : list event) : Prop :=
  steps_from (w_sess w) w w' evs.

(** The events of a call of [run_epoch] that returns: the initial state is
    evaluated, and the model is run on the first minibatch of the data. *)
Definition epoch_run (m : PTBModel) (data : list Z) (eval_op : tf.op)
    (evs : list event) : Prop :=
  ∃ x y rest state cost state' logits probs o,
    ptb_iterator data (m_batch_size m) (m_num_steps m) = GYield (x, y) rest ∧
    evs = [EvRun [tf.Ft (initial_state m)] [] [state];
           EvRun (epoch_fetches m eval_op) (epoch_feed m x y state)
                 [cost; state'; logits; probs; o]].

(** The learning rate of epoch [i]. *)
Definition epoch_lr (config : Config) (i : Z) : Q :=
  learning_rate config * pypow (lr_decay config) (Z.max (i - max_epoch config) 0).

(** The events of pass [i] of the loop of [train]: the learning rate is
    assigned and read back, one epoch is run on the training data with the
    training op, one on the validation data with a no-op, and a checkpoint
    is saved at [path]. *)
Definition epoch_events (config : Config) (m mvalid : PTBModel)
    (train_data valid_data : list Z) (path : string) (i : Z)
    (evs : list event) : Prop :=
  ∃ lr_t train_op assigned lr_now evs_train evs_valid c,
    _lr m = Some lr_t ∧ _train_op m = Some train_op ∧
    epoch_run m train_data train_op evs_train ∧
    epoch_run mvalid valid_data tf.no_op evs_valid ∧
    evs = [EvRun [tf.Fo (tf.assign lr_t (epoch_lr config i))] [] [assigned];
           EvRun [tf.Ft lr_t] [] [lr_now]]
          ++ evs_train ++ evs_valid ++ [EvSave (saver m) path c].

(** The events of the sampling loop of [generate] from the word [word] and
    the state [state], and the sentence they add: each pass runs the model
    on the current word and the previous final state, samples the next
    word among 10002 ids with the probabilities of the first row, and
    decodes it with its string as the key. *)
Inductive sampling (m : PTBModel) (id_to_word : gmap string jvalue)
  : Z → ndarray → list event → list jvalue → Prop :=
| sampling_done word state : sampling m id_to_word word state [] []
| sampling_step word state probs_v state' o p next_word decoded evs sentence :
    index_first (rows probs_v) = Ok p →
    getitem id_to_word (str next_word) = Ok decoded →
    sampling m id_to_word next_word state' evs sentence →
    sampling m id_to_word word state
      (EvRun [tf.Ft (probs m); tf.Ft (final_state m); tf.Fo tf.no_op]
             [(input_data m, FInts [[word]]);
              (targets m, FInts (np_zeros 1 1));
              (initial_state m, FArray state);
              (weights m, FFloats [1%Q])]
             [probs_v; state'; o]
       :: EvChoice 10002 p next_word :: evs)
      (decoded :: sentence).

(** A statement is quiet when it neither logs an event nor touches the
    file system or the session. *)
Definition quiet {A} (c : M A) : Prop :=
  ∀ w r w', c w = (r, w') →
    w_log w' = w_log w ∧ w_fs w' = w_fs w ∧ w_sess w' = w_sess w.

(** [chosen_word = np.argmax(probs, 1); chosen_word[-1]]. *)
Definition last_argmax (probs : ndarray) : result Z :=
  chosen_word ← np_argmax_1 (rows probs);
  index_last chosen_word.

(** The perplexity of the model on all of the data, as the specification
    words it: every minibatch adds its cost to [costs] and [m.num_steps] to
    [iters], and the result is [np.exp(costs / iters)].  The loop is that of
    [run_epoch] with every pass going on to the next minibatch. *)
Definition spec_epoch_body (m : PTBModel) (eval_op : tf.op)
    (step : Z) (xy : matrix Z * matrix Z) (vars : float * Z * ndarray * word)
  : M (ctl (float * Z * ndarray * word)) :=
  c ← run_epoch_body m eval_op false 0 0 step xy vars;
  match c with
  | Continue vars' | Break vars' => mret (Continue vars')
  end.

Definition spec_perplexity (m : PTBModel) (data : list Z) (eval_op : tf.op)
  : M R :=
  state ← run1 (tf.Ft (initial_state m));
  '(costs, iters, _, _) ←
    for_enumerate (ptb_iterator data (m_batch_size m) (m_num_steps m)) 0
      (PyFloat 0.0, 0, state, NoWord) (spec_epoch_body m eval_op);
  avg ← lift (truediv costs iters);
  mret (np_exp avg).

(** A statement keeps the generator when it draws nothing from it, however
    it ends. *)
Definition keeps_rng {A} (c : M A) : Prop :=
  ∀ w r w', c w = (r, w') → w_rng w' = w_rng w.

(** A statement keeps the files when it leaves the file system as it is,
    however it ends. *)
Definition keeps_files {A} (c : M A) : Prop :=
  ∀ w r w', c w = (r, w') → w_fs w' = w_fs w.

(** An event that reads what an earlier run of the script left in the
    model directory. *)
Definition reads_back (e : event) : bool :=
  match e with
  | EvOpen _ mode => negb (String.eqb mode "w")
  | EvJsonLoad _ | EvRestore _ _ _ => true
  | _ => false
  end.

End Script.

(** ** A small instance of the interfaces, to run the script on *)

Module Toy.

(** An array that is read as a scalar or as a matrix. *)
Record arr := { arr_item : Q; arr_rows : matrix Q }.

Definition sum_ints (a : matrix Z) : Z :=
  fold_right Z.add 0 (map (fold_right Z.add 0) a).

(** The sum of the integer arrays that are fed. *)
Fixpoint fed_sum (feed : feed_dict arr) : Z :=
  match feed with
  | [] => 0
  | (_, FInts a) :: rest => sum_ints a + fed_sum rest
  | _ :: rest => fed_sum rest
  end.

(** Every fetched value is the scalar [fed_sum feed + s], with the same
    two rows of probabilities; an [apply_gradients] makes one step, an
    [assign] none. *)
Definition toy_value (feed : feed_dict arr) (s : Z) (f : tf.fetch) : arr :=
  {| arr_item := inject_Z (fed_sum feed + s);
     arr_rows := [[1 # 4; 3 # 4]; [3 # 4; 1 # 4]]%Q |}.

Definition toy_step (s : Z) (f : tf.fetch) : Z :=
  match f with
  | tf.Fo (tf.apply_gradients _ _) => s + 1
  | _ => s
  end.

Definition toy_run (fetches : list tf.fetch) (feed : feed_dict arr) (s : Z)
  : result (list arr * Z) :=
  Ok (map (toy_value feed s) fetches, fold_left toy_step fetches s).

(** A run gives one value per fetch. *)
Definition toy_run_length fs fd s vs s'
    (Hrun : toy_run fs fd s = Ok (vs, s')) : length vs = length fs :=
  eq_trans
    (eq_sym (f_equal (λ r, match r with
                           | Ok (values, _) => length values
                           | Raise _ => O
                           end) Hrun))
    (List.length_map (toy_value fd s) fs).

#[global] Instance toy_tf : TensorFlow := {|
  ndarray := arr;
  item := arr_item;
  rows := arr_rows;
  Sess := Z;
  Ckpt := Z;
  Session := 0;
  session_run := toy_run;
  session_run_length := toy_run_length;
  saver_save := λ _ s, Ok s;
  saver_restore := λ _ c _, Ok c;
|}.

(** A reader whose iterator yields one minibatch per word of the data. *)
Fixpoint toy_iterator (data : list Z) : gen (matrix Z * matrix Z) :=
  match data with
  | [] => GStop
  | d :: rest => GYield ([[d]], [[d]]) (toy_iterator rest)
  end.

Definition toy_vocab : gmap string Z := {[ "<bos>" := 0; "the" := 1 ]}.
Definition toy_words : gmap Z string := {[ 0 := "<bos>"; 1 := "the" ]}.

#[global] Instance toy_reader : Reader := {|
  ptb_raw_data := λ data_path,
    match data_path with
    | Some _ => Ok ([1; 3; 5], [2; 4], [7], 2, toy_vocab, toy_words)
    | None => Raise TypeError
    end;
  ptb_iterator := λ data _ _, toy_iterator data;
|}.

(** Decimal literals. *)
Definition digit_of (c : ascii) : option Z :=
  let n := Z.of_N (Ascii.N_of_ascii c) in
  if ((48 <=? n) && (n <=? 57))%bool then Some (n - 48) else None.

Fixpoint parse_digits (acc : Z) (s : string) : option Z :=
  match s with
  | EmptyString => Some acc
  | String c rest =>
      match digit_of c with
      | Some d => parse_digits (10 * acc + d) rest
      | None => None
      end
  end.

(** A small [int] for strings: an optional sign and decimal digits. *)
Definition int_of_string (s : string) : result Z :=
  let bad := Raise (ValueError "invalid literal for int()") in
  let digits (t : string) :=
    match t with
    | EmptyString => None
    | _ => parse_digits 0 t
    end in
  match s with
  | String "-" t => match digits t with Some n => Ok (- n) | None => bad end
  | String "+" t => match digits t with Some n => Ok n | None => bad end
  | _ => match digits s with Some n => Ok n | None => bad end
  end.

#[global] Instance toy_builtins : Builtins := {|
  int_of_str := int_of_string;
|}.

(** A sampler that alternates between the ids 1 and 0. *)
#[global] Instance toy_random : NumpyRandom := {|
  Rng := Z;
  random_choice := λ n p r, Ok ((r + 1) mod 2, r + 1);
|}.

Definition toy_world : world := {|
  w_fs := ∅; w_stdout := []; w_log := []; w_clock := λ k, inject_Z (Z.of_nat k);
  w_ticks := 0; w_rng := 0; w_graph := tf.empty_graph; w_sess := 0 |}.

Definition toy_flags (generate : Flags.value) : Flags.t := {|
  Flags.model := "test";
  Flags.data_path := Some "simple-examples/data/";
  Flags.generate := generate;
  Flags.model_path_prefix := Some "out" |}.

(** The model [generate] and the final evaluation of [train] use. *)
Definition toy_model : PTBModel :=
  match tf.variable_scope "model" None None
          (PTBModel_init true (set_batch_size (set_num_steps TestConfig 1) 1))
          tf.empty_graph with
  | (Ok m, _) => m
  | (Raise _, _) =>
      {| m_batch_size := 1; m_num_steps := 1;
         _input_data := tf.placeholder tf.int32 [];
         _targets := tf.placeholder tf.int32 [];
         _weights := tf.placeholder tf.float32 [];
         _initial_state := tf.placeholder tf.float32 [];
         _cost := tf.placeholder tf.float32 [];
         _final_state := tf.placeholder tf.float32 [];
         _logits := tf.placeholder tf.float32 [];
         _probs := tf.placeholder tf.float32 [];
         saver := {| tf.saver_vars := [] |};
         _lr := None; _train_op := None |}
  end.

(** A model of the test configuration: minibatches of 20 by 2. *)
Definition test_model : PTBModel :=
  match tf.variable_scope "model" None None (PTBModel_init true TestConfig)
          tf.empty_graph with
  | (Ok m, _) => m
  | (Raise _, _) => toy_model
  end.

Definition test_graph : tf.graph :=
  snd (PTBModel_init true TestConfig tf.empty_graph).

(** A model for minibatches of no sentence at all. *)
Definition empty_model : PTBModel :=
  match tf.variable_scope "model" None None
          (PTBModel_init false (set_batch_size TestConfig 0))
          tf.empty_graph with
  | (Ok m, _) => m
  | (Raise _, _) => toy_model
  end.

(** The graph once the training model of [train] is built, and the two
    evaluation models of [train] built on it. *)
Definition model_graph : tf.graph :=
  snd (tf.variable_scope "model" None None (PTBModel_init true TestConfig)
         tf.empty_graph).

Definition evaluation_models : result (PTBModel * PTBModel) * tf.graph :=
  tf.variable_scope "model" (Some true) None
    (mvalid ← PTBModel_init false TestConfig;
     mtest ← PTBModel_init false (set_num_steps (set_batch_size TestConfig 1) 1);
     mret (mvalid, mtest)) model_graph.

(** Flags without a model directory. *)
Definition bare_flags : Flags.t := {|
  Flags.model := "test";
  Flags.data_path := Some "simple-examples/data/";
  Flags.generate := Flags.False_;
  Flags.model_path_prefix := None |}.

(** The world after training, and the vocabulary as it is loaded. *)
Definition trained_world : world :=
  snd (train (toy_flags Flags.False_) toy_world).

Definition loaded_vocab : gmap string jvalue :=
  json_dump (λ k, k) JInt toy_vocab.

Definition loaded_words : gmap string jvalue := json_dump str JStr toy_words.

Definition sampled_world : world :=
  snd (generate (toy_flags (Flags.Str "1")) loaded_vocab loaded_words
         trained_world).

End Toy.

(** * Properties *)

Section Proofs.
Context `{!TensorFlow, !Reader, !NumpyRandom, !Builtins}.
Implicit Types (w : world) (m : PTBModel).

(** ** Stepping through statements *)

Lemma bind_inv {A B} (c : M A) (k : A → M B) w r w' :
  (c ≫= k) w = (r, w') →
  (∃ a w1, c w = (Ok a, w1) ∧ k a w1 = (r, w')) ∨
  (∃ e, c w = (Raise e, w') ∧ r = Raise e).
Proof.
  unfold mbind, M_bind. destruct (c w) as [[a|e] w1]; intros Hk.
  - left. eauto.
  - right. injection Hk as <- <-. eauto.
Qed.

Lemma bind_ok_inv {A B} (c : M A) (k : A → M B) w b w' :
  (c ≫= k) w = (Ok b, w') →
  ∃ a w1, c w = (Ok a, w1) ∧ k a w1 = (Ok b, w').
Proof.
  intros Hk. apply bind_inv in Hk as [Hk|(e & _ & [=])]. exact Hk.
Qed.

Lemma lift_inv {A} (r : result A) w r' w' :
  lift r w = (r', w') → r = r' ∧ w' = w.
Proof. by intros [= <- <-]. Qed.

Lemma modify_inv f w r w' :
  modify f w = (r, w') → r = Ok () ∧ w' = f w.
Proof. by intros [= <- <-]. Qed.

Lemma run_inv fetches feed w r w' :
  run fetches feed w = (r, w') →
  (∃ values s, session_run fetches feed (w_sess w) = Ok (values, s) ∧
     r = Ok values ∧
     w' = set_log (λ l, l ++ [EvRun fetches feed values]) (set_sess s w)) ∨
  (∃ e, r = Raise e ∧ w' = w).
Proof.
  unfold run. destruct (session_run _ _ _) as [[values s]|e]; intros [= <- <-].
  - left. eauto.
  - right. eauto.
Qed.

Lemma run1_inv f w r w' :
  run1 f w = (r, w') →
  (∃ v s, session_run [f] [] (w_sess w) = Ok ([v], s) ∧ r = Ok v ∧
     w' = set_log (λ l, l ++ [EvRun [f] [] [v]]) (set_sess s w)) ∨
  (∃ e, r = Raise e ∧ w_log w' = w_log w ∧ w_fs w' = w_fs w).
Proof.
  unfold run1. intros Hr.
  apply bind_inv in Hr as [(values & w1 & Hrun & Hk)|(e & Hrun & ->)].
  - apply run_inv in Hrun as [(vs & s & Hs & Hvs & ->)|(e & [=] & _)].
    injection Hvs as ->.
    pose proof (session_run_length _ _ _ _ _ Hs) as Hlen.
    destruct vs as [|v [|]]; try discriminate Hlen.
    injection Hk as <- <-. left. eauto.
  - apply run_inv in Hrun as [(vs & s & Hs & [=] & _)|(e' & _ & ->)].
    right. eauto.
Qed.

(** ** Quiet statements *)

Lemma quiet_ret {A} (a : A) : quiet (mret a).
Proof. by intros w r w' [= <- <-]. Qed.

Lemma quiet_raise {A} e : quiet (raise e : M A).
Proof. by intros w r w' [= <- <-]. Qed.

Lemma quiet_lift {A} (r : result A) : quiet (lift r).
Proof. by intros w r' w' [= <- <-]. Qed.

Lemma quiet_print fmt args : quiet (print fmt args).
Proof. by intros w r w' [= <- <-]. Qed.

Lemma quiet_time : quiet time_time.
Proof. by intros w r w' [= <- <-]. Qed.

Lemma quiet_in_graph {A} (c : tf.G A) : quiet (in_graph c).
Proof.
  intros w r w'. unfold in_graph. destruct (c (w_graph w)). by intros [= <- <-].
Qed.

Lemma quiet_bind {A B} (c : M A) (k : A → M B) :
  quiet c → (∀ a, quiet (k a)) → quiet (c ≫= k).
Proof.
  intros Hc Hk w r w' Hr.
  apply bind_inv in Hr as [(a & w1 & Ha & Hb)|(e & Ha & _)].
  - apply Hc in Ha as (Ha1 & Ha2 & Ha3). apply Hk in Hb as (Hb1 & Hb2 & Hb3).
    by rewrite Hb1, Hb2, Hb3.
  - by apply Hc in Ha.
Qed.

Create HintDb quiet.
#[local] Hint Resolve quiet_ret quiet_raise quiet_lift quiet_print quiet_time
  quiet_in_graph : quiet.

Ltac quiet_steps :=
  repeat first
    [ apply quiet_bind; [ | intros ? ]
    | progress auto with quiet ].

Lemma quiet_report_progress m step epoch_size start_time costs iters probs :
  quiet (report_progress m step epoch_size start_time costs iters probs).
Proof. unfold report_progress. quiet_steps. Qed.

(** ** The loop of [run_epoch] *)

(** One pass of the loop: it feeds the minibatch to one run, and when it
    completes it breaks, with the cost of that run added to [costs] and
    [m.num_steps] to [iters]. *)
Lemma run_epoch_body_inv m eval_op verbose epoch_size start_time step x y
    costs iters state fcw w r w' :
  run_epoch_body m eval_op verbose epoch_size start_time step (x, y)
    (costs, iters, state, fcw) w = (r, w') →
  (∃ e, r = Raise e ∧ w_log w' = w_log w ∧ w_fs w' = w_fs w) ∨
  (∃ cost state' logits probs o,
     session_run (epoch_fetches m eval_op) (epoch_feed m x y state) (w_sess w)
       = Ok ([cost; state'; logits; probs; o], w_sess w') ∧
     w_log w' = w_log w ++ [EvRun (epoch_fetches m eval_op)
                              (epoch_feed m x y state)
                              [cost; state'; logits; probs; o]] ∧
     w_fs w' = w_fs w ∧
     ((∃ e, r = Raise e) ∨
      (∃ chosen_word report,
         report_due verbose step epoch_size = Ok report ∧
         last_argmax probs = Ok chosen_word ∧
         r = Ok (Break (float_add_np costs (item cost), iters + m_num_steps m,
                        state', Word chosen_word))))).
Proof.
  unfold run_epoch_body. intros Hr.
  apply bind_inv in Hr as [(ones & w1 & Hones & Hr)|(e & Hones & ->)];
    apply lift_inv in Hones as [Hones ->]; [|left; eauto].
  assert (ones = repeat 1%Q (Z.to_nat (m_batch_size m * m_num_steps m))) as ->.
  { unfold np_ones in Hones. by destruct (_ <? 0); simplify_eq. }
  apply bind_inv in Hr as [(values & w1 & Hrun & Hr)|(e & Hrun & ->)];
    apply run_inv in Hrun as [(vs & s & Hs & Hvs & ->)|(e' & He' & ->)];
    simplify_eq; [|left; eauto].
  pose proof (session_run_length _ _ _ _ _ Hs) as Hlen.
  destruct vs as [|cost [|state' [|logits [|probs [|o [|]]]]]];
    try discriminate Hlen.
  right. exists cost, state', logits, probs, o.
  set (w1 := set_log _ _) in Hr.
  assert (w_log w' = w_log w1 ∧ w_fs w' = w_fs w1 ∧ w_sess w' = w_sess w1 ∧
          ((∃ e, r = Raise e) ∨
           (∃ chosen_word report,
              report_due verbose step epoch_size = Ok report ∧
              last_argmax probs = Ok chosen_word ∧
              r = Ok (Break (float_add_np costs (item cost),
                             iters + m_num_steps m, state', Word chosen_word)))))
    as (-> & -> & -> & Hcases); [|split; [exact Hs|by repeat split]].
  clearbody w1. clear Hs Hlen.
  apply bind_inv in Hr as [(report & w2 & Hdue & Hr)|(e & Hdue & ->)];
    apply lift_inv in Hdue as [Hdue ->]; [|by eauto 10].
  apply bind_inv in Hr as [([] & w2 & Hrep & Hr)|(e & Hrep & ->)].
  2:{ assert (quiet (if report
                     then report_progress m step epoch_size start_time
                            (float_add_np costs (item cost))
                            (iters + m_num_steps m) probs
                     else mret ())) as Hq
        by (destruct report; auto using quiet_report_progress with quiet).
      apply Hq in Hrep as (-> & -> & ->). eauto 10. }
  assert (w_log w2 = w_log w1 ∧ w_fs w2 = w_fs w1 ∧ w_sess w2 = w_sess w1)
    as (<- & <- & <-).
  { destruct report; [by apply quiet_report_progress in Hrep|].
    by injection Hrep as <-. }
  clear Hrep.
  apply bind_inv in Hr as [(ws & w3 & Hws & Hr)|(e & Hws & ->)];
    apply lift_inv in Hws as [Hws ->]; [|by eauto 10].
  apply bind_inv in Hr as [(k & w3 & Hk & Hr)|(e & Hk & ->)];
    apply lift_inv in Hk as [Hk ->]; [|by eauto 10].
  injection Hr as <- <-. repeat split. right. exists k, report.
  repeat split; [done|]. unfold last_argmax. by rewrite Hws.
Qed.

Lemma run_epoch_loop_inv m data eval_op verbose epoch_size start_time
    costs iters state fcw w r w' :
  run_epoch_loop m data eval_op verbose epoch_size start_time
    (costs, iters, state, fcw) w = (r, w') →
  match ptb_iterator data (m_batch_size m) (m_num_steps m) with
  | GStop => r = Ok (costs, iters, state, fcw) ∧ w' = w
  | GRaise e => r = Raise e ∧ w' = w
  | GYield (x, y) rest =>
      (∃ e, r = Raise e ∧ w_log w' = w_log w ∧ w_fs w' = w_fs w) ∨
      (∃ cost state' logits probs o,
         session_run (epoch_fetches m eval_op) (epoch_feed m x y state)
           (w_sess w) = Ok ([cost; state'; logits; probs; o], w_sess w') ∧
         w_log w' = w_log w ++ [EvRun (epoch_fetches m eval_op)
                                  (epoch_feed m x y state)
                                  [cost; state'; logits; probs; o]] ∧
         w_fs w' = w_fs w ∧
         ((∃ e, r = Raise e) ∨
          (∃ chosen_word report,
             report_due verbose 0 epoch_size = Ok report ∧
             last_argmax probs = Ok chosen_word ∧
             r = Ok (float_add_np costs (item cost), iters + m_num_steps m,
                     state', Word chosen_word))))
  end.
Proof.
  unfold run_epoch_loop.
  destruct (ptb_iterator _ _ _) as [|[x y] rest|e]; cbn [for_enumerate].
  - by intros [= <- <-].
  - intros Hr.
    apply bind_inv in Hr as [(c & w1 & Hbody & Hr)|(e & Hbody & ->)].
    + apply run_epoch_body_inv in Hbody
        as [(e' & [=] & _)
           |(cost & state' & logits & probs & o & Hs & Hlog & Hfs &
             [(e & [=])|(k & report & Hdue & Hk & [= ->])])].
      injection Hr as <- <-. right.
      exists cost, state', logits, probs, o. repeat split; [done..|].
      right. by exists k, report.
    + apply run_epoch_body_inv in Hbody
        as [(e' & _ & Hlog & Hfs)
           |(cost & state' & logits & probs & o & Hs & Hlog & Hfs & _)].
      * left. by exists e.
      * right. exists cost, state', logits, probs, o. repeat split; [done..|].
        left. by exists e.
  - by intros [= <- <-].
Qed.

Lemma Q2R_first_cost (c : Q) (n : Z) :
  Q2R ((0.0 + c) / inject_Z n) = Q2R (c / inject_Z n).
Proof.
  apply Qeq_eqR. assert (0.0 == 0)%Q as -> by reflexivity. by rewrite Qplus_0_l.
Qed.

(** On the first pass the progress report is never due: the condition is
    false, or its modulus divides by zero. *)
Lemma report_due_first verbose epoch_size :
  report_due verbose 0 epoch_size
  = if (verbose && (epoch_size / 10 =? 0))%bool
    then Raise ZeroDivisionError else Ok false.
Proof.
  unfold report_due, floordiv, pymod. destruct verbose; [|done]. simpl.
  destruct (epoch_size / 10 =? 0) eqn:Htenth; [done|].
  by rewrite Zmod_0_l.
Qed.

(** Every way a call of [run_epoch] can end. *)
Lemma run_epoch_inv m data eval_op verbose w r w' :
  run_epoch m data eval_op verbose w = (r, w') →
  ∃ evs, w_log w' = w_log w ++ evs ∧ w_fs w' = w_fs w ∧
    (length (minibatches evs) ≤ 1)%nat ∧
    ∀ perplexity final_chosen_word,
      r = Ok (perplexity, final_chosen_word) →
      ∃ x y rest state cost state' logits probs o chosen_word
        epoch_size start_time w1 w2 costs s1,
        epoch_size_of m data = Ok epoch_size ∧
        (verbose && (epoch_size / 10 =? 0))%bool = false ∧
        session_run [tf.Ft (initial_state m)] [] (w_sess w)
          = Ok ([state], s1) ∧
        session_run (epoch_fetches m eval_op) (epoch_feed m x y state) s1
          = Ok ([cost; state'; logits; probs; o], w_sess w') ∧
        ptb_iterator data (m_batch_size m) (m_num_steps m)
          = GYield (x, y) rest ∧
        evs = [EvRun [tf.Ft (initial_state m)] [] [state];
               EvRun (epoch_fetches m eval_op) (epoch_feed m x y state)
                     [cost; state'; logits; probs; o]] ∧
        run_epoch_loop m data eval_op verbose epoch_size start_time
          (PyFloat 0.0, 0, state, NoWord) w1
          = (Ok (costs, m_num_steps m, state', Word chosen_word), w2) ∧
        (float_val costs == item cost)%Q ∧
        perplexity = exp (Q2R (item cost / inject_Z (m_num_steps m))) ∧
        last_argmax probs = Ok chosen_word ∧
        final_chosen_word = Word chosen_word.
Proof.
  unfold run_epoch. intros Hr.
  apply bind_inv in Hr as [(epoch_size & w1 & Hes & Hr)|(e & Hes & ->)];
    apply lift_inv in Hes as [Hes ->].
  2:{ exists []. rewrite app_nil_r. repeat split; [simpl; lia|done]. }
  apply bind_inv in Hr as [(start_time & w1 & Ht & Hr)|(e & [=] & _)].
  injection Ht as <- <-.
  apply bind_inv in Hr as [(state & w1 & Hst & Hr)|(e & Hst & ->)].
  2:{ apply run1_inv in Hst as [(v & s & _ & [=] & _)|(e' & _ & Hlog & Hfs)].
      exists []. rewrite app_nil_r. repeat split; [done..|simpl; lia|done]. }
  apply run1_inv in Hst as [(v & s & Hs & [= ->] & ->)|(e' & [=] & _)].
  apply bind_inv in Hr as [([] & w1 & Hp & Hr)|(e & [=] & _)].
  injection Hp as <-.
  set (w1 := set_stdout _ _) in Hr.
  assert (w_log w1 = w_log w ++ [EvRun [tf.Ft (initial_state m)] [] [v]])
    as Hlog1 by done.
  assert (w_fs w1 = w_fs w) as Hfs1 by done.
  assert (w_sess w1 = s) as Hsess1 by done.
  clearbody w1.
  apply bind_inv in Hr as [([[[costs iters] state'] fcw] & w2 & Hloop & Hr)
                          |(e & Hloop & ->)].
  - assert (w' = w2 ∧ ∀ p fw, r = Ok (p, fw) →
              ∃ avg, truediv costs iters = Ok avg ∧ p = np_exp avg ∧ fw = fcw)
      as [-> Hret].
    { apply bind_inv in Hr as [(avg & w3 & Havg & Hr)|(e & Havg & ->)];
        apply lift_inv in Havg as [Havg ->].
      - injection Hr as <- <-. split; [done|]. intros p fw [= <- <-]. eauto.
      - split; [done|]. by intros ?? [=]. }
    clear Hr. pose proof Hloop as Hloop'. apply run_epoch_loop_inv in Hloop'.
    destruct (ptb_iterator _ _ _) as [|[x y] rest|e] eqn:Hg.
    + destruct Hloop' as [[= -> -> -> ->] ->].
      eexists. split; [exact Hlog1|]. split; [done|]. split; [simpl; lia|].
      intros p fw Hp. by apply Hret in Hp as (avg & [=] & _).
    + destruct Hloop'
        as [(e & [=] & _)|(cost & st' & logits & probs & o & Hrun & Hlog & Hfs &
                           [(e & [=])|(k & report & Hdue & Hk & Hc)])].
      injection Hc as -> -> -> ->.
      eexists. split; [by rewrite Hlog, Hlog1, <- app_assoc|].
      split; [by rewrite Hfs|].
      split; [simpl; lia|]. intros p fw Hp.
      apply Hret in Hp as (avg & [= <-] & -> & ->).
      exists x, y, rest, v, cost, st', logits, probs, o, k.
      eexists epoch_size, _, _, _, _, s.
      split; [done|]. split.
      { rewrite report_due_first in Hdue. by destruct (verbose && _)%bool. }
      split; [done|]. split; [by rewrite <- Hsess1|].
      split; [done|]. split; [done|].
      split; [exact Hloop|]. split; [|split; [|done]].
      * simpl. assert (0.0 == 0)%Q as -> by reflexivity. apply Qplus_0_l.
      * apply (f_equal exp), Q2R_first_cost.
    + by destruct Hloop' as [[=] _].
  - pose proof Hloop as Hloop'. apply run_epoch_loop_inv in Hloop'.
    destruct (ptb_iterator _ _ _) as [|[x y] rest|e'] eqn:Hg.
    + by destruct Hloop' as [[=] _].
    + destruct Hloop'
        as [(e' & _ & Hlog & Hfs)|(cost & st' & logits & probs & o & Hrun &
                                   Hlog & Hfs & _)].
      * eexists. split; [by rewrite Hlog, Hlog1|]. split; [by rewrite Hfs|].
        split; [simpl; lia|done].
      * eexists. split; [by rewrite Hlog, Hlog1, <- app_assoc|].
        split; [by rewrite Hfs|]. split; [simpl; lia|done].
    + destruct Hloop' as [_ ->]. eexists. split; [exact Hlog1|].
      split; [done|]. split; [simpl; lia|done].
Qed.

(** C2.  [run_epoch] feeds the model at most one minibatch, whatever the
    data and however the call ends.  When it returns, the iterator yielded
    a first minibatch, the only run of the model was on it, the loop left
    [costs] at the cost of that run and [iters] at [m.num_steps], the
    perplexity returned is the exponential of that cost over [m.num_steps],
    and [final_chosen_word] is the argmax of the last row of that run's
    probabilities. *)
Theorem run_epoch_first_batch_only m data eval_op verbose w r w' :
  run_epoch m data eval_op verbose w = (r, w') →
  ∃ evs, w_log w' = w_log w ++ evs ∧
    (length (minibatches evs) ≤ 1)%nat ∧
    ∀ perplexity final_chosen_word,
      r = Ok (perplexity, final_chosen_word) →
      ∃ x y rest state cost state' logits probs o chosen_word
        epoch_size start_time w1 w2 costs,
        ptb_iterator data (m_batch_size m) (m_num_steps m)
          = GYield (x, y) rest ∧
        evs = [EvRun [tf.Ft (initial_state m)] [] [state];
               EvRun (epoch_fetches m eval_op) (epoch_feed m x y state)
                     [cost; state'; logits; probs; o]] ∧
        minibatches evs = [(x, y)] ∧
        run_epoch_loop m data eval_op verbose epoch_size start_time
          (PyFloat 0.0, 0, state, NoWord) w1
          = (Ok (costs, m_num_steps m, state', Word chosen_word), w2) ∧
        (float_val costs == item cost)%Q ∧
        perplexity = exp (Q2R (item cost / inject_Z (m_num_steps m))) ∧
        last_argmax probs = Ok chosen_word ∧
        final_chosen_word = Word chosen_word.
Proof.
  intros Hr. apply run_epoch_inv in Hr as (evs & Hlog & _ & Hlen & Hret).
  exists evs. split; [done|]. split; [done|].
  intros p fw Hp.
  apply Hret in Hp
    as (x & y & rest & state & cost & state' & logits & probs & o & k & es &
        start_time & w1 & w2 & costs & s1 & _ & _ & _ & _ & Hg & -> & Hloop &
        Hcosts & -> & Hk & ->).
  exists x, y, rest, state, cost, state', logits, probs, o, k, es, start_time,
    w1, w2, costs.
  by repeat split.
Qed.

(** ** Running statements forward *)

Lemma bind_ok {A B} (c : M A) (k : A → M B) w a w1 :
  c w = (Ok a, w1) → (c ≫= k) w = k a w1.
Proof. unfold mbind, M_bind. by intros ->. Qed.

Lemma bind_raise {A B} (c : M A) (k : A → M B) w e w1 :
  c w = (Raise e, w1) → (c ≫= k) w = (Raise e, w1).
Proof. unfold mbind, M_bind. by intros ->. Qed.

Lemma run_ok fetches feed w values s :
  session_run fetches feed (w_sess w) = Ok (values, s) →
  run fetches feed w
    = (Ok values,
       set_log (λ l, l ++ [EvRun fetches feed values]) (set_sess s w)).
Proof. unfold run. by intros ->. Qed.

Lemma run1_ok f w v s :
  session_run [f] [] (w_sess w) = Ok ([v], s) →
  run1 f w = (Ok v, set_log (λ l, l ++ [EvRun [f] [] [v]]) (set_sess s w)).
Proof. intros Hs. unfold run1. by erewrite bind_ok by by apply run_ok. Qed.

Lemma np_ones_ok n : 0 ≤ n → np_ones n = Ok (repeat 1%Q (Z.to_nat n)).
Proof. intros Hn. unfold np_ones. by destruct (Z.ltb_spec n 0); [lia|]. Qed.

(** The first pass of the loop, when the session runs the minibatch. *)
Lemma run_epoch_body_first m eval_op verbose epoch_size start_time x y
    costs iters state fcw w cost state' logits probs o s :
  0 ≤ m_batch_size m * m_num_steps m →
  session_run (epoch_fetches m eval_op) (epoch_feed m x y state) (w_sess w)
    = Ok ([cost; state'; logits; probs; o], s) →
  run_epoch_body m eval_op verbose epoch_size start_time 0 (x, y)
    (costs, iters, state, fcw) w
  = (if (verbose && (epoch_size / 10 =? 0))%bool
     then Raise ZeroDivisionError
     else match last_argmax probs with
          | Ok chosen_word =>
              Ok (Break (float_add_np costs (item cost), iters + m_num_steps m,
                         state', Word chosen_word))
          | Raise e => Raise e
          end,
     set_log (λ l, l ++ [EvRun (epoch_fetches m eval_op)
                           (epoch_feed m x y state)
                           [cost; state'; logits; probs; o]])
       (set_sess s w)).
Proof.
  intros Hdim Hrun. unfold run_epoch_body.
  erewrite bind_ok by (unfold lift; by rewrite np_ones_ok).
  erewrite bind_ok by (apply run_ok; exact Hrun).
  cbv beta iota. rewrite report_due_first.
  destruct (verbose && _)%bool; [done|].
  unfold last_argmax.
  destruct (np_argmax_1 (rows probs)) as [ws|e]; [|done].
  by destruct (index_last ws) as [k|e] eqn:Hk; unfold mbind, M_bind, lift;
    simpl; rewrite Hk.
Qed.

(** What [run_epoch] does when the iterator yields a minibatch and the
    session runs it. *)
Lemma run_epoch_forward m data eval_op verbose w epoch_size state s1
    x y rest cost state' logits probs o s2 :
  epoch_size_of m data = Ok epoch_size →
  session_run [tf.Ft (initial_state m)] [] (w_sess w) = Ok ([state], s1) →
  ptb_iterator data (m_batch_size m) (m_num_steps m) = GYield (x, y) rest →
  0 ≤ m_batch_size m * m_num_steps m →
  session_run (epoch_fetches m eval_op) (epoch_feed m x y state) s1
    = Ok ([cost; state'; logits; probs; o], s2) →
  ∃ w',
    w_log w' = w_log w ++
               [EvRun [tf.Ft (initial_state m)] [] [state];
                EvRun (epoch_fetches m eval_op) (epoch_feed m x y state)
                      [cost; state'; logits; probs; o]] ∧
    w_fs w' = w_fs w ∧ w_sess w' = s2 ∧
    run_epoch m data eval_op verbose w
    = (if (verbose && (epoch_size / 10 =? 0))%bool
       then Raise ZeroDivisionError
       else match last_argmax probs with
            | Ok chosen_word =>
                Ok (exp (Q2R (item cost / inject_Z (m_num_steps m))),
                    Word chosen_word)
            | Raise e => Raise e
            end,
       w').
Proof.
  intros Hes Hst Hg Hdim Hrun. unfold run_epoch.
  erewrite bind_ok by (unfold lift; by rewrite Hes).
  erewrite bind_ok by reflexivity.
  erewrite bind_ok by by apply run1_ok.
  erewrite bind_ok by reflexivity.
  set (w1 := set_stdout _ _).
  assert (run_epoch_loop m data eval_op verbose epoch_size
            (w_clock w (w_ticks w)) (PyFloat 0.0, 0, state, NoWord) w1
          = (if (verbose && (epoch_size / 10 =? 0))%bool
             then Raise ZeroDivisionError
             else match last_argmax probs with
                  | Ok chosen_word =>
                      Ok (float_add_np (PyFloat 0.0) (item cost),
                          0 + m_num_steps m, state', Word chosen_word)
                  | Raise e => Raise e
                  end,
             set_log (λ l, l ++ [EvRun (epoch_fetches m eval_op)
                                   (epoch_feed m x y state)
                                   [cost; state'; logits; probs; o]])
               (set_sess s2 w1))) as Hloop.
  { unfold run_epoch_loop. rewrite Hg. cbn [for_enumerate].
    unfold mbind at 1, M_bind at 1.
    erewrite run_epoch_body_first by done.
    destruct (verbose && _)%bool; [done|].
    by destruct (last_argmax probs). }
  eexists. split; [|split; [|split]]; last first.
  - unfold mbind at 1, M_bind at 1. rewrite Hloop.
    destruct (verbose && _)%bool; [reflexivity|].
    destruct (last_argmax probs) as [k|e]; [|reflexivity].
    unfold mbind, M_bind, lift, mret, M_ret. simpl.
    do 3 f_equal. apply (f_equal exp), Q2R_first_cost.
  - done.
  - done.
  - simpl. by rewrite <- app_assoc.
Qed.

Lemma tenth_zero_iff (epoch_size : Z) :
  (epoch_size / 10 =? 0) = true ↔ 0 ≤ epoch_size < 10.
Proof.
  rewrite Z.eqb_eq, Z.div_small_iff by lia. lia.
Qed.


(** ** Building the graph *)

Lemma G_bind_inv {A B} (c : tf.G A) (k : A → tf.G B) g r g' :
  (c ≫= k) g = (r, g') →
  (∃ a g1, c g = (Ok a, g1) ∧ k a g1 = (r, g')) ∨
  (∃ e, c g = (Raise e, g') ∧ r = Raise e).
Proof.
  unfold mbind, tf.G_bind. destruct (c g) as [[a|e] g1]; intros Hk.
  - left. eauto.
  - right. injection Hk as <- <-. eauto.
Qed.

Lemma G_bind_ok_inv {A B} (c : tf.G A) (k : A → tf.G B) g b g' :
  (c ≫= k) g = (Ok b, g') →
  ∃ a g1, c g = (Ok a, g1) ∧ k a g1 = (Ok b, g').
Proof.
  intros Hk. apply G_bind_inv in Hk as [Hk|(e & _ & [=])]. exact Hk.
Qed.

Lemma get_variable_inv nm shape g r g' :
  tf.get_variable nm shape g = (r, g') →
  tf.g_scopes g' = tf.g_scopes g ∧
  (tf.reuse g = true → tf.g_vars g' = tf.g_vars g) ∧
  (∀ t, r = Ok t → t = tf.variable_ref (tf.scope_path g ++ [nm]) shape).
Proof.
  unfold tf.get_variable.
  destruct (tf.reuse g), (tf.has_var g _); intros [= <- <-];
    repeat split; try done; by intros t [= <-].
Qed.

(** Inside a scope the path is one longer; outside, the scopes are as
    before. *)
Lemma variable_scope_inv {A} nm reuse_arg initializer_arg (body : tf.G A)
    g r g' :
  tf.variable_scope nm reuse_arg initializer_arg body g = (r, g') →
  ∃ g_in g_out,
    body g_in = (r, g_out) ∧
    tf.scope_path g_in = tf.scope_path g ++ [nm] ∧
    tf.g_vars g_in = tf.g_vars g ∧
    tf.reuse g_in = match reuse_arg with
                    | Some true => true
                    | _ => tf.reuse g
                    end ∧
    tf.g_scopes g' = tf.g_scopes g ∧
    tf.g_vars g' = tf.g_vars g_out.
Proof.
  unfold tf.variable_scope.
  match goal with |- context [body ?gi] => set (g_in := gi) end.
  destruct (body g_in) as [r0 g_out] eqn:Hbody. intros [= <- <-].
  exists g_in, g_out. by repeat split.
Qed.

Lemma cell_ind_nested (P : tf.cell → Prop) :
  (∀ num_units forget_bias, P (tf.BasicLSTMCell num_units forget_bias)) →
  (∀ c keep_prob, P c → P (tf.DropoutWrapper c keep_prob)) →
  (∀ cells, Forall P cells → P (tf.MultiRNNCell cells)) →
  ∀ c, P c.
Proof.
  intros Hbasic Hdrop Hmulti. fix IH 1. intros [n fb|c kp|cells].
  - apply Hbasic.
  - apply Hdrop, IH.
  - apply Hmulti. revert cells. fix IHcells 1. intros [|c cells].
    + constructor.
    + constructor; [apply IH|apply IHcells].
Qed.

Lemma call_layers_inv cells :
  Forall call_spec cells →
  ∀ state i cur_inp new_states g r g',
    tf.call_layers tf.call state cells i cur_inp new_states g = (r, g') →
    tf.g_scopes g' = tf.g_scopes g ∧
    (tf.reuse g = true → tf.g_vars g' = tf.g_vars g) ∧
    (∀ t, r = Ok t →
       t = layers_terms cell_terms (tf.scope_path g) state cells i cur_inp
             new_states).
Proof.
  induction 1 as [|c cells Hc _ IH]; intros state i cur_inp new_states g r g'.
  - simpl. intros [= <- <-]. repeat split; try done. by intros t [= <-].
  - cbn [tf.call_layers layers_terms]. intros Hr.
    apply G_bind_inv in Hr as [([o s] & g1 & Hcall & Hr)|(e & Hcall & ->)];
      apply variable_scope_inv in Hcall
        as (g_in & g_out & Hbody & Hpath & Hvars & Hreuse & Hscopes & Hvars');
      apply Hc in Hbody as (Hsc & Hre & Hterms).
    + apply IH in Hr as (Hsc' & Hre' & Hterms').
      assert (tf.scope_path g1 = tf.scope_path g) as Hpath1
        by (unfold tf.scope_path; by rewrite Hscopes).
      assert (tf.reuse g1 = tf.reuse g) as Hreuse1
        by (unfold tf.reuse; by rewrite Hscopes).
      split; [by rewrite Hsc'|]. split.
      * intros Hg. rewrite Hre' by by rewrite Hreuse1.
        rewrite Hvars', Hre by by rewrite Hreuse. done.
      * intros t Ht. rewrite (Hterms' t Ht), Hpath1.
        by rewrite <- Hpath, <- (Hterms (o, s) eq_refl).
    + split; [done|]. split; [|done].
      intros Hg. rewrite Hvars', Hre by by rewrite Hreuse. done.
Qed.

Lemma call_inv c : call_spec c.
Proof.
  induction c as [n fb|c kp IH|cells IH] using cell_ind_nested;
    intros inputs state g r g'; cbn [tf.call cell_terms]; intros Hr.
  - apply variable_scope_inv in Hr
      as (g1 & g1' & Hr & Hpath1 & Hvars1 & Hreuse1 & Hscopes & Hvars).
    apply variable_scope_inv in Hr
      as (g2 & g2' & Hr & Hpath2 & Hvars2 & Hreuse2 & Hscopes' & Hvars').
    rewrite Hpath1 in Hpath2. rewrite Hreuse1 in Hreuse2.
    rewrite <- app_assoc in Hpath2. simpl in Hpath2.
    split; [done|].
    apply G_bind_inv in Hr as [(matrix & g3 & Hm & Hr)|(e & Hm & ->)];
      apply get_variable_inv in Hm as (Hsc3 & Hre3 & Ht3).
    + assert (tf.scope_path g3 = tf.scope_path g2) as Hpath3
        by (unfold tf.scope_path; by rewrite Hsc3).
      assert (tf.reuse g3 = tf.reuse g2) as Hreuse3
        by (unfold tf.reuse; by rewrite Hsc3).
      apply G_bind_inv in Hr as [(bias & g4 & Hb & Hr)|(e & Hb & ->)];
        apply get_variable_inv in Hb as (Hsc4 & Hre4 & Ht4).
      * injection Hr as <- <-. split.
        -- intros Hg. rewrite Hvars, Hvars', Hre4, Hre3, Hvars2, Hvars1;
             congruence.
        -- intros t [= <-]. rewrite (Ht3 _ eq_refl), (Ht4 _ eq_refl).
           rewrite Hpath3, Hpath2, <- !app_assoc. done.
      * split; [|done]. intros Hg.
        rewrite Hvars, Hvars', Hre4, Hre3, Hvars2, Hvars1; congruence.
    + split; [|done]. intros Hg.
      rewrite Hvars, Hvars', Hre3, Hvars2, Hvars1; congruence.
  - apply G_bind_inv in Hr as [([o s] & g1 & Hcall & Hr)|(e & Hcall & ->)];
      apply IH in Hcall as (Hsc & Hre & Hterms).
    + injection Hr as <- <-. repeat split; try done.
      intros t [= <-]. by rewrite <- (Hterms (o, s) eq_refl).
    + by repeat split.
  - apply variable_scope_inv in Hr
      as (g1 & g1' & Hr & Hpath1 & Hvars1 & Hreuse1 & Hscopes & Hvars).
    apply call_layers_inv in Hr as (Hsc & Hre & Hterms); [|done].
    split; [done|]. split.
    + intros Hg. rewrite Hvars, Hre, Hvars1; congruence.
    + intros t Ht. by rewrite (Hterms t Ht), Hpath1.
Qed.

Lemma same_scopes_path g g' :
  tf.g_scopes g' = tf.g_scopes g → tf.scope_path g' = tf.scope_path g.
Proof. unfold tf.scope_path. by intros ->. Qed.

Lemma same_scopes_reuse g g' :
  tf.g_scopes g' = tf.g_scopes g → tf.reuse g' = tf.reuse g.
Proof. unfold tf.reuse. by intros ->. Qed.

Lemma reuse_variables_inv g r g' :
  tf.reuse_variables g = (r, g') →
  r = Ok () ∧ tf.scope_path g' = tf.scope_path g ∧
  tf.g_vars g' = tf.g_vars g ∧
  (tf.g_scopes g ≠ [] → tf.reuse g' = true) ∧
  (tf.reuse g = true → tf.reuse g' = true).
Proof.
  unfold tf.reuse_variables. intros [= <- <-].
  unfold tf.scope_path, tf.reuse. simpl.
  by destruct (tf.g_scopes g) as [|s rest].
Qed.

(** One pass of the unrolling loop: the path of the scope stays, the pass
    adds the cell's output for its time step, and after the first time
    step (in an open scope) it adds no variable to the graph. *)
Lemma unroll_step_inv cell inputs time_step outputs state g r g' :
  unroll_step cell inputs time_step (outputs, state) g = (r, g') →
  tf.scope_path g' = tf.scope_path g ∧
  (tf.reuse g = true → tf.reuse g' = true ∧ tf.g_vars g' = tf.g_vars g) ∧
  (0 < time_step → tf.g_scopes g ≠ [] →
   tf.reuse g' = true ∧ tf.g_vars g' = tf.g_vars g) ∧
  (∀ acc, r = Ok acc →
     acc = (outputs ++ [fst (cell_terms (tf.scope_path g) cell
                               (tf.time_slice inputs time_step) state)],
            snd (cell_terms (tf.scope_path g) cell
                   (tf.time_slice inputs time_step) state))).
Proof.
  unfold unroll_step. intros Hr.
  apply G_bind_inv in Hr as [([] & g1 & Hre & Hr)|(e & Hre & ->)].
  2:{ destruct (0 <? time_step); [|done].
      by apply reuse_variables_inv in Hre as [[=] _]. }
  assert (tf.scope_path g1 = tf.scope_path g ∧ tf.g_vars g1 = tf.g_vars g ∧
          (tf.reuse g = true → tf.reuse g1 = true) ∧
          (0 < time_step → tf.g_scopes g ≠ [] → tf.reuse g1 = true))
    as (Hpath1 & Hvars1 & Hkeep & Hset).
  { destruct (Z.ltb_spec 0 time_step).
    - apply reuse_variables_inv in Hre as (_ & ? & ? & ? & ?). by repeat split.
    - injection Hre as <-. repeat split; try done. lia. }
  clear Hre.
  assert (tf.g_scopes g' = tf.g_scopes g1 ∧
          (tf.reuse g1 = true → tf.g_vars g' = tf.g_vars g1) ∧
          ∀ acc, r = Ok acc →
            acc = (outputs ++ [fst (cell_terms (tf.scope_path g1) cell
                                      (tf.time_slice inputs time_step) state)],
                   snd (cell_terms (tf.scope_path g1) cell
                          (tf.time_slice inputs time_step) state)))
    as (Hsc & Hre & Hterms).
  { apply G_bind_inv in Hr as [([o s] & g2 & Hcall & Hr)|(e & Hcall & ->)];
      apply call_inv in Hcall as (Hsc & Hre & Hterms).
    - injection Hr as <- <-. repeat split; try done.
      intros acc [= <-]. by rewrite <- (Hterms (o, s) eq_refl).
    - by repeat split. }
  rewrite Hpath1 in Hterms.
  split; [by rewrite (same_scopes_path _ _ Hsc)|].
  rewrite (same_scopes_reuse _ _ Hsc).
  split; [|split; [|done]].
  - intros Hg. split; [by apply Hkeep|]. rewrite Hre by by apply Hkeep. done.
  - intros Ht Hopen. split; [by apply Hset|]. rewrite Hre by by apply Hset.
    done.
Qed.

Lemma scope_path_nonempty g nm path :
  tf.scope_path g = path ++ [nm] → tf.g_scopes g ≠ [].
Proof.
  unfold tf.scope_path. intros Hp Hg. rewrite Hg in Hp. simpl in Hp.
  by destruct path.
Qed.

(** The loop: its result is [unroll_terms], and every pass but the one for
    time step 0 leaves the variables of the graph as they are. *)
Lemma unroll_loop_inv cell inputs count :
  ∀ start acc g acc' g',
    0 ≤ start → tf.g_scopes g ≠ [] →
    for_range_from start count acc (unroll_step cell inputs) g
      = (Ok acc', g') →
    acc' = unroll_terms (tf.scope_path g) cell inputs start count acc ∧
    tf.scope_path g' = tf.scope_path g ∧
    (0 < start ∨ tf.reuse g = true → tf.g_vars g' = tf.g_vars g).
Proof.
  induction count as [|count IH]; intros start [outputs state] g acc' g'
    Hstart Hopen; cbn [for_range_from unroll_terms].
  - by intros [= <- <-].
  - intros Hr. apply G_bind_ok_inv in Hr as ([outputs' state'] & g1 & Hstep & Hr).
    apply unroll_step_inv in Hstep as (Hpath & Hkeep & Hset & Hterms).
    specialize (Hterms _ eq_refl). injection Hterms as -> ->.
    assert (tf.g_scopes g1 ≠ []) as Hopen1.
    { intros Hg1. apply Hopen. unfold tf.scope_path in Hpath.
      rewrite Hg1 in Hpath. simpl in Hpath.
      destruct (tf.g_scopes g); [done|]. simpl in Hpath.
      by apply app_cons_not_nil in Hpath. }
    apply IH in Hr as (-> & Hpath' & Hvars'); [|lia|done].
    rewrite Hpath. simpl.
    destruct (cell_terms _ _ _ _) as [o s]. simpl.
    split; [done|]. split; [by rewrite Hpath'|].
    intros [Hpos|Hre].
    + destruct (Hset Hpos Hopen) as [Hre1 Hv1].
      rewrite Hvars' by lia. done.
    + destruct (Hkeep Hre) as [Hre1 Hv1]. rewrite Hvars' by lia. done.
Qed.

Lemma unroll_terms_length path cell inputs count :
  ∀ start acc,
    length (fst (unroll_terms path cell inputs start count acc))
    = (length (fst acc) + count)%nat.
Proof.
  induction count as [|count IH]; intros start [outputs state]; simpl.
  - lia.
  - destruct (cell_terms _ _ _ _) as [o s]. rewrite IH. simpl.
    rewrite length_app. simpl. lia.
Qed.

Lemma new_placeholder_inv dt shape g t g' :
  tf.new_placeholder dt shape g = (Ok t, g') →
  t = tf.placeholder dt shape ∧ g' = g ∧
  forallb (λ d, 0 <=? d) shape = true.
Proof.
  unfold tf.new_placeholder. destruct (forallb _ _); [|done].
  by intros [= <- <-].
Qed.

(** What a successful construction of a model has built. *)
Lemma PTBModel_init_inv is_training config g m g' :
  PTBModel_init is_training config g = (Ok m, g') →
  let path := tf.scope_path g in
  let cell := model_cell is_training config in
  let unrolled := model_unrolled is_training config path in
  1 ≤ num_layers config ∧
  0 ≤ batch_size config ∧
  0 ≤ num_steps config ∧
  m_batch_size m = batch_size config ∧
  m_num_steps m = num_steps config ∧
  _input_data m
    = tf.placeholder tf.int32 [batch_size config; num_steps config] ∧
  _targets m
    = tf.placeholder tf.int32 [batch_size config; num_steps config] ∧
  _weights m
    = tf.placeholder tf.float32 [batch_size config * num_steps config] ∧
  _initial_state m = tf.zero_state cell (batch_size config) tf.float32 ∧
  _final_state m = snd unrolled ∧
  _logits m
    = tf.add
        (tf.matmul
           (tf.reshape (tf.concat 1 (fst unrolled)) [-1; hidden_size config])
           (tf.variable_ref (path ++ ["softmax_w"])
              [hidden_size config; vocab_size config]))
        (tf.variable_ref (path ++ ["softmax_b"]) [vocab_size config]) ∧
  _cost m
    = tf.div
        (tf.reduce_sum
           (tf.sequence_loss_by_example
              [_logits m] [tf.reshape (_targets m) [-1]] [_weights m]))
        (batch_size config) ∧
  _probs m = tf.softmax (_logits m) ∧
  tf.g_scopes g' = tf.g_scopes g ∧
  (tf.reuse g = true → tf.saver_vars (saver m) = tf.all_variables g) ∧
  if is_training then
    ∃ vars lr_name,
      _lr m = Some (tf.variable_ref lr_name []) ∧
      _train_op m
        = Some (tf.apply_gradients
                  (tf.GradientDescentOptimizer (tf.variable_ref lr_name []))
                  (zip (fst (tf.clip_by_global_norm
                               (tf.gradients (_cost m)
                                  (tf.trainable_variables g'))
                               (max_grad_norm config)))
                       (tf.trainable_variables g'))) ∧
      tf.saver_vars (saver m) = map tf.var_name vars ∧
      tf.g_vars g'
        = vars ++ [{| tf.var_name := lr_name; tf.var_shape := [];
                      tf.var_trainable := false;
                      tf.var_init := tf.const_init 0 |}]
  else
    _lr m = None ∧ _train_op m = None ∧
    tf.saver_vars (saver m) = tf.all_variables g'.
Proof.
  unfold PTBModel_init. intros Hr.
  apply G_bind_ok_inv in Hr as (input_data & g1 & Hph & Hr).
  apply new_placeholder_inv in Hph as (-> & -> & Hdims).
  apply G_bind_ok_inv in Hr as (targets & g1 & Hph & Hr).
  apply new_placeholder_inv in Hph as (-> & -> & _).
  apply G_bind_ok_inv in Hr as (weights & g1 & Hph & Hr).
  apply new_placeholder_inv in Hph as (-> & -> & _).
  assert (0 ≤ batch_size config ∧ 0 ≤ num_steps config) as [Hbs Hns].
  { simpl in Hdims. apply andb_prop in Hdims as [Hbs Hns].
    apply andb_prop in Hns as [Hns _]. lia. }
  clear Hdims.
  apply G_bind_ok_inv in Hr as (cell & g1 & Hcell & Hr).
  assert (1 ≤ num_layers config ∧ cell = model_cell is_training config ∧ g1 = g)
    as (Hlayers & -> & ->).
  { unfold tf.new_MultiRNNCell, model_cell in *.
    destruct (Z.to_nat (num_layers config)) as [|n] eqn:Hn; simpl in Hcell.
    - discriminate Hcell.
    - injection Hcell as <- <-. split; [lia|done]. }
  clear Hcell.
  apply G_bind_ok_inv in Hr as (embedding & g1 & Hemb & Hr).
  apply get_variable_inv in Hemb as (Hsc1 & Hre1 & Hemb).
  specialize (Hemb _ eq_refl) as ->.
  apply G_bind_ok_inv in Hr as ([outputs state] & g2 & Hrnn & Hr).
  apply variable_scope_inv in Hrnn
    as (g_in & g_out & Hloop & Hpath & Hvars & Hreuse & Hsc2 & Hvars2).
  rewrite (same_scopes_path _ _ Hsc1) in Hpath.
  apply unroll_loop_inv in Hloop as (Hterms & _ & Hkeep);
    [|done|by eapply scope_path_nonempty].
  rewrite Hpath in Hterms.
  apply G_bind_ok_inv in Hr as (softmax_w & g3 & Hw & Hr).
  apply get_variable_inv in Hw as (Hsc3 & Hre3 & Hw).
  specialize (Hw _ eq_refl) as ->.
  apply G_bind_ok_inv in Hr as (softmax_b & g4 & Hb & Hr).
  apply get_variable_inv in Hb as (Hsc4 & Hre4 & Hb).
  specialize (Hb _ eq_refl) as ->.
  apply G_bind_ok_inv in Hr as (all_variables & g5 & Hall & Hr).
  injection Hall as <- <-.
  assert (tf.g_scopes g4 = tf.g_scopes g) as Hsc by congruence.
  assert (tf.scope_path g2 = tf.scope_path g) as Hpath2
    by (apply same_scopes_path; congruence).
  assert (tf.scope_path g3 = tf.scope_path g) as Hpath3
    by (apply same_scopes_path; congruence).
  rewrite Hpath2, Hpath3 in Hr.
  assert ((outputs, state) = model_unrolled is_training config (tf.scope_path g))
    as Hunrolled by done.
  assert (tf.reuse g = true → tf.all_variables g4 = tf.all_variables g)
    as Hsaver.
  { intros Hg. unfold tf.all_variables.
    assert (tf.reuse g1 = true) as Hg1
      by by rewrite (same_scopes_reuse _ _ Hsc1).
    assert (tf.reuse g2 = true) as Hg2
      by by rewrite (same_scopes_reuse _ _ Hsc2).
    assert (tf.reuse g3 = true) as Hg3
      by by rewrite (same_scopes_reuse _ _ Hsc3).
    rewrite (Hre4 Hg3), (Hre3 Hg2), Hvars2, Hkeep, Hvars, (Hre1 Hg);
      [done|]. right. by rewrite Hreuse. }
  destruct is_training; simpl in Hr.
  - apply G_bind_ok_inv in Hr as (lr_t & g5 & Hlr & Hr).
    injection Hlr as <- <-.
    apply G_bind_ok_inv in Hr as (tvars & g6 & Htv & Hr).
    injection Htv as <- <-.
    injection Hr as <- <-. simpl. rewrite <- Hunrolled.
    repeat split; try done.
    eexists (tf.g_vars g4), _. by repeat split.
  - injection Hr as <- <-. simpl. rewrite <- Hunrolled.
    by repeat split.
Qed.

(** C6.  Gradient clipping is applied exactly in training mode.  A model
    built with [is_training=True] has a training op that applies, by a
    gradient-descent optimizer on the learning-rate variable, the gradients
    of the cost with respect to all trainable variables of the graph, each
    clipped by the global norm of them all with threshold
    [config.max_grad_norm]; the learning-rate variable is not trainable and
    is the only variable created after the saver.  A model built with
    [is_training=False] has neither [_lr] nor [_train_op], reading either
    property raises, and no variable was created after the saver. *)
Theorem gradient_clipping_in_training_only is_training config g m g' :
  PTBModel_init is_training config g = (Ok m, g') →
  if is_training then
    ∃ lr_t tvars vars lr_name,
      tvars = tf.trainable_variables g' ∧
      lr_t = tf.variable_ref lr_name [] ∧
      _lr m = Some lr_t ∧
      _train_op m
        = Some (tf.apply_gradients (tf.GradientDescentOptimizer lr_t)
                  (zip (map (λ v, tf.clipped (tf.gradient (cost m) v)
                                    (tf.gradients (cost m) tvars)
                                    (max_grad_norm config)) tvars)
                       tvars)) ∧
      tf.saver_vars (saver m) = map tf.var_name vars ∧
      tf.g_vars g'
        = vars ++ [{| tf.var_name := lr_name; tf.var_shape := [];
                      tf.var_trainable := false;
                      tf.var_init := tf.const_init 0 |}]
  else
    _lr m = None ∧ _train_op m = None ∧
    lr m = Raise (AttributeError "_lr") ∧
    train_op m = Raise (AttributeError "_train_op") ∧
    tf.all_variables g' = tf.saver_vars (saver m).
Proof.
  intros Hm. apply PTBModel_init_inv in Hm.
  destruct Hm as (_ & _ & _ & _ & _ & _ & _ & _ & _ & _ & _ & _ & _ & _ & _ &
                  Hmode).
  destruct is_training.
  - destruct Hmode as (vars & lr_name & Hlr & Hop & Hsaver & Hvars).
    exists (tf.variable_ref lr_name []), (tf.trainable_variables g'), vars,
      lr_name.
    repeat split; try done.
    rewrite Hop. unfold tf.clip_by_global_norm, tf.gradients, cost. simpl.
    by rewrite map_map.
  - destruct Hmode as (Hlr & Hop & Hsaver).
    unfold lr, train_op. rewrite Hlr, Hop. by repeat split.
Qed.

(** C9.  The model is a stacked LSTM.  A model that was built has at least
    one layer, and its cell stacks [config.num_layers] LSTM cells of
    [config.hidden_size] units, each wrapped in dropout exactly when
    [is_training and config.keep_prob < 1]; the stack is unrolled from its
    zero state for exactly [config.num_steps] time steps, every step
    building its output from the variables of the same scope; and every
    pass of the unrolling loop after the one for time step 0 marks the
    scope as reusing and adds no variable to the graph. *)
Theorem stacked_lstm_unrolled is_training config g m g' :
  PTBModel_init is_training config g = (Ok m, g') →
  let lstm_cell :=
    if (is_training && Qltb (keep_prob config) 1)%bool
    then tf.DropoutWrapper (tf.BasicLSTMCell (hidden_size config) 0)
           (keep_prob config)
    else tf.BasicLSTMCell (hidden_size config) 0 in
  let cells := repeat lstm_cell (Z.to_nat (num_layers config)) in
  let cell := tf.MultiRNNCell cells in
  let inputs := model_inputs is_training config (tf.scope_path g) in
  let path := tf.scope_path g ++ ["RNN"] in
  1 ≤ num_layers config ∧
  Z.of_nat (length cells) = num_layers config ∧
  (∀ c, c ∈ cells → c = lstm_cell) ∧
  _initial_state m = tf.zero_state cell (batch_size config) tf.float32 ∧
  (∃ outputs,
     unroll_terms path cell inputs 0 (Z.to_nat (num_steps config))
       ([], _initial_state m) = (outputs, _final_state m) ∧
     Z.of_nat (length outputs) = num_steps config ∧
     _logits m
       = tf.add
           (tf.matmul
              (tf.reshape (tf.concat 1 outputs) [-1; hidden_size config])
              (tf.variable_ref (tf.scope_path g ++ ["softmax_w"])
                 [hidden_size config; vocab_size config]))
           (tf.variable_ref (tf.scope_path g ++ ["softmax_b"])
              [vocab_size config])) ∧
  (∀ time_step outputs state g1 r g2,
     0 < time_step → tf.scope_path g1 = path →
     unroll_step cell inputs time_step (outputs, state) g1 = (r, g2) →
     tf.reuse g2 = true ∧ tf.g_vars g2 = tf.g_vars g1 ∧
     ∀ acc, r = Ok acc →
       acc = (outputs ++ [fst (cell_terms path cell
                                 (tf.time_slice inputs time_step) state)],
              snd (cell_terms path cell
                     (tf.time_slice inputs time_step) state))).
Proof.
  intros Hm lstm_cell cells cell inputs path.
  apply PTBModel_init_inv in Hm.
  destruct Hm as (Hlayers & _ & Hsteps & _ & _ & _ & _ & _ & Hinit & Hfinal &
                  Hlogits & _).
  split; [done|]. split; [subst cells; rewrite repeat_length; lia|].
  split; [intros c Hc; by apply list_elem_of_In, repeat_spec in Hc|].
  split; [done|]. split.
  - exists (fst (model_unrolled is_training config (tf.scope_path g))).
    split; [|split; [|done]].
    + rewrite Hinit, Hfinal. unfold model_unrolled.
      by destruct (unroll_terms _ _ _ _ _ _).
    + unfold model_unrolled. rewrite unroll_terms_length. simpl. lia.
  - intros time_step outputs state g1 r g2 Ht Hpath Hstep.
    apply unroll_step_inv in Hstep as (_ & _ & Hset & Hterms).
    destruct (Hset Ht) as [Hre Hvars]; [by eapply scope_path_nonempty|].
    rewrite Hpath in Hterms. by repeat split.
Qed.

(** ** Events and files along a run *)

Lemma fs_after_app evs1 evs2 fs :
  fs_after (evs1 ++ evs2) fs = fs_after evs2 (fs_after evs1 fs).
Proof. unfold fs_after. by rewrite fold_left_app. Qed.

Lemma replays_app s r evs1 s1 r1 evs2 s2 r2 :
  replays s r evs1 s1 r1 → replays s1 r1 evs2 s2 r2 →
  replays s r (evs1 ++ evs2) s2 r2.
Proof.
  induction 1; intros Hevs2; simpl; [done|..]; econstructor; eauto.
Qed.

(** Events outside of the session and the generator leave them alone. *)
Lemma replays_outside_inv evs :
  Forall (λ e, outside e = true) evs →
  ∀ s r s' r', replays s r evs s' r' → s' = s ∧ r' = r.
Proof.
  induction 1 as [|e evs He _ IH]; intros s r s' r' Hr.
  - by inversion Hr.
  - inversion Hr; subst; try discriminate He. by eapply IH.
Qed.

Lemma replays_outside_all evs s r :
  Forall (λ e, outside e = true) evs → replays s r evs s r.
Proof.
  induction 1 as [|e evs He _ IH]; [constructor|].
  by apply replays_outside.
Qed.

Lemma replays_app_inv evs1 :
  ∀ s r evs2 s2 r2,
    replays s r (evs1 ++ evs2) s2 r2 →
    ∃ s1 r1, replays s r evs1 s1 r1 ∧ replays s1 r1 evs2 s2 r2.
Proof.
  induction evs1 as [|e evs1 IH]; intros s r evs2 s2 r2 Hr; simpl in Hr.
  - exists s, r. split; [constructor|done].
  - inversion Hr; subst;
      match goal with H : replays _ _ (evs1 ++ evs2) _ _ |- _ =>
        apply IH in H as (s1' & r1' & Hevs1 & Hevs2)
      end;
      exists s1', r1'; (split; [|done]); econstructor; eauto.
Qed.

Lemma replays_outside_cons e evs s r s' r' :
  outside e = true → replays s r (e :: evs) s' r' → replays s r evs s' r'.
Proof. intros He Hr. by inversion Hr; subst; try discriminate He. Qed.

Lemma replays_save_inv sv path c evs s r s' r' :
  replays s r (EvSave sv path c :: evs) s' r' →
  saver_save sv s = Ok c ∧ replays s r evs s' r'.
Proof. intros Hr. by inversion Hr; subst. Qed.

Lemma replays_restore_inv sv path c evs s r s' r' :
  replays s r (EvRestore sv path c :: evs) s' r' →
  ∃ s1, saver_restore sv c s = Ok s1 ∧ replays s1 r evs s' r'.
Proof. intros Hr. inversion Hr; subst; [eauto|done]. Qed.

Lemma steps_refl w : steps w w [].
Proof. split; [by rewrite app_nil_r|]. split; [done|constructor]. Qed.

Lemma steps_from_trans s w w1 w2 evs1 evs2 :
  steps_from s w w1 evs1 → steps w1 w2 evs2 →
  steps_from s w w2 (evs1 ++ evs2).
Proof.
  intros (Hl1 & Hf1 & Hr1) (Hl2 & Hf2 & Hr2). split; [|split].
  - by rewrite Hl2, Hl1, app_assoc.
  - by rewrite Hf2, Hf1, fs_after_app.
  - by eapply replays_app.
Qed.

Lemma steps_trans w w1 w2 evs1 evs2 :
  steps w w1 evs1 → steps w1 w2 evs2 → steps w w2 (evs1 ++ evs2).
Proof. apply steps_from_trans. Qed.

(** Entering [with tf.Graph().as_default(), tf.Session() as session]
    after events that did not concern the session. *)
Lemma steps_enter w w1 evs g :
  steps w w1 evs → Forall (λ e, outside e = true) evs →
  steps_from Session w (set_sess Session (set_graph g w1)) evs.
Proof.
  intros (Hl & Hf & Hr) Hout.
  destruct (replays_outside_inv _ Hout _ _ _ _ Hr) as [_ Hrng].
  split; [done|]. split; [done|]. simpl. rewrite Hrng.
  by apply replays_outside_all.
Qed.

Lemma keeps_rng_print fmt args : keeps_rng (print fmt args).
Proof. by intros w r w' [= <- <-]. Qed.

Lemma keeps_rng_in_graph {A} (c : tf.G A) : keeps_rng (in_graph c).
Proof.
  intros w r w'. unfold in_graph. destruct (c (w_graph w)). by intros [= <- <-].
Qed.

Lemma steps_quiet {A} (c : M A) w r w' :
  quiet c → keeps_rng c → c w = (r, w') → steps w w' [].
Proof.
  intros Hq Hk Hc. pose proof (Hk _ _ _ Hc) as Hrng.
  apply Hq in Hc as (Hl & Hf & Hs).
  split; [by rewrite app_nil_r|]. split; [done|].
  rewrite Hs, Hrng. constructor.
Qed.

Lemma run_steps fetches feed w values w' :
  run fetches feed w = (Ok values, w') →
  steps w w' [EvRun fetches feed values].
Proof.
  intros Hr.
  apply run_inv in Hr as [(vs & s & Hs & [= ->] & ->)|(e & [=] & _)].
  split; [done|]. split; [done|]. simpl.
  eapply replays_run; [exact Hs|constructor].
Qed.

Lemma run1_steps f w v w' :
  run1 f w = (Ok v, w') → steps w w' [EvRun [f] [] [v]].
Proof.
  intros Hr.
  apply run1_inv in Hr as [(v' & s & Hs & [= ->] & ->)|(e & [=] & _)].
  split; [done|]. split; [done|]. simpl.
  eapply replays_run; [exact Hs|constructor].
Qed.

Lemma open_w_steps path w h w' :
  open path "w" w = (Ok h, w') → h = path ∧ steps w w' [EvOpen path "w"].
Proof.
  unfold open. simpl. intros [= <- <-]. split; [done|].
  split; [done|]. split; [done|]. simpl. by repeat constructor.
Qed.

Lemma open_r_steps path w h w' :
  open path "r" w = (Ok h, w') →
  h = path ∧ is_Some (w_fs w !! path) ∧ steps w w' [EvOpen path "r"].
Proof.
  unfold open. simpl. destruct (w_fs w !! path) as [f|] eqn:Hf; [|done].
  intros [= <- <-]. do 2 (split; [done|]).
  split; [done|]. split; [done|]. simpl. by repeat constructor.
Qed.

Lemma json_dump_to_steps doc fp w r w' :
  json_dump_to doc fp w = (r, w') → r = Ok () ∧ steps w w' [EvJsonDump fp doc].
Proof.
  intros [= <- <-]. split; [done|].
  split; [done|]. split; [done|]. simpl. by repeat constructor.
Qed.

Lemma json_load_steps fp w doc w' :
  json_load fp w = (Ok doc, w') →
  w_fs w !! fp = Some (FJson doc) ∧ steps w w' [EvJsonLoad fp].
Proof.
  unfold json_load. destruct (w_fs w !! fp) as [[|d|c]|]; try done.
  intros [= <- <-]. split; [done|].
  split; [done|]. split; [done|]. simpl. by repeat constructor.
Qed.

Lemma save_steps sv path w w' :
  save sv path w = (Ok (), w') →
  ∃ c, saver_save sv (w_sess w) = Ok c ∧ steps w w' [EvSave sv path c].
Proof.
  unfold save. destruct (saver_save sv (w_sess w)) as [c|e] eqn:Hc; [|done].
  intros [= <-]. exists c. split; [done|].
  split; [done|]. split; [done|]. simpl.
  eapply replays_save; [exact Hc|constructor].
Qed.

Lemma restore_steps sv path w w' :
  restore sv path w = (Ok (), w') →
  ∃ c, w_fs w !! path = Some (FCkpt c) ∧ steps w w' [EvRestore sv path c].
Proof.
  unfold restore. destruct (w_fs w !! path) as [[|d|c]|]; try done.
  destruct (saver_restore sv c (w_sess w)) as [s|e] eqn:Hs; [|done].
  intros [= <-]. exists c. split; [done|].
  split; [done|]. split; [done|]. simpl.
  eapply replays_restore; [exact Hs|constructor].
Qed.

Lemma np_random_choice_steps n p w k w' :
  np_random_choice n p w = (Ok k, w') → steps w w' [EvChoice n p k].
Proof.
  unfold np_random_choice.
  destruct (random_choice n p (w_rng w)) as [[k' r]|e] eqn:Hk; [|done].
  intros [= <- <-]. split; [done|]. split; [done|]. simpl.
  eapply replays_choice; [exact Hk|constructor].
Qed.

Lemma reader_ptb_raw_data_steps data_path w d w' :
  reader_ptb_raw_data data_path w = (Ok d, w') →
  ptb_raw_data data_path = Ok d ∧ steps w w' [EvRawData data_path].
Proof.
  unfold reader_ptb_raw_data. intros [= -> <-]. split; [done|].
  split; [done|]. split; [done|]. simpl. by repeat constructor.
Qed.

Lemma keeps_rng_ret {A} (a : A) : keeps_rng (mret a).
Proof. by intros w r w' [= <- <-]. Qed.

Lemma keeps_rng_raise {A} e : keeps_rng (raise e : M A).
Proof. by intros w r w' [= <- <-]. Qed.

Lemma keeps_rng_lift {A} (r : result A) : keeps_rng (lift r).
Proof. by intros w r' w' [= <- <-]. Qed.

Lemma keeps_rng_time : keeps_rng time_time.
Proof. by intros w r w' [= <- <-]. Qed.

Lemma keeps_rng_run fetches feed : keeps_rng (run fetches feed).
Proof.
  intros w r w' Hr.
  by apply run_inv in Hr as [(vs & s & _ & _ & ->)|(e & _ & ->)].
Qed.

Lemma keeps_rng_bind {A B} (c : M A) (k : A → M B) :
  keeps_rng c → (∀ a, keeps_rng (k a)) → keeps_rng (c ≫= k).
Proof.
  intros Hc Hk w r w' Hr.
  apply bind_inv in Hr as [(a & w1 & Ha & Hb)|(e & Ha & _)].
  - apply Hc in Ha. apply Hk in Hb. congruence.
  - by apply Hc in Ha.
Qed.

Create HintDb keeps_rng.
#[local] Hint Resolve keeps_rng_ret keeps_rng_raise keeps_rng_lift
  keeps_rng_print keeps_rng_time keeps_rng_run keeps_rng_in_graph : keeps_rng.

Ltac keeps_rng_steps :=
  repeat match goal with
         | |- keeps_rng (_ ≫= _) => apply keeps_rng_bind; [ | intros ? ]
         | |- keeps_rng (match ?x with _ => _ end) => destruct x
         | |- keeps_rng _ => progress auto with keeps_rng
         end.

Lemma keeps_rng_for_enumerate {A S} (body : Z → A → S → M (ctl S)) :
  (∀ step a s, keeps_rng (body step a s)) →
  ∀ g step s, keeps_rng (for_enumerate g step s body).
Proof.
  intros Hbody. induction g as [|a rest IH|e]; intros step s;
    cbn [for_enumerate]; keeps_rng_steps.
Qed.

Lemma keeps_rng_run_epoch m data eval_op verbose :
  keeps_rng (run_epoch m data eval_op verbose).
Proof.
  unfold run_epoch. keeps_rng_steps.
  - unfold run1. keeps_rng_steps.
  - unfold run_epoch_loop. apply keeps_rng_for_enumerate.
    intros step [x y] [[[costs iters] state] fcw].
    unfold run_epoch_body, report_progress. keeps_rng_steps.
Qed.

(** The events of a call of [run_epoch] that returns: two runs of the
    session, one after the other. *)
Lemma run_epoch_steps m data eval_op verbose w perplexity fcw w' :
  run_epoch m data eval_op verbose w = (Ok (perplexity, fcw), w') →
  ∃ evs, steps w w' evs ∧ epoch_run m data eval_op evs.
Proof.
  intros Hr. pose proof (keeps_rng_run_epoch _ _ _ _ _ _ _ Hr) as Hrng.
  apply run_epoch_inv in Hr as (evs & Hlog & Hfs & _ & Hret).
  destruct (Hret _ _ eq_refl)
    as (x & y & rest & state & cost & state' & logits & probs & o & k & es &
        start_time & w1 & w2 & costs & s1 & _ & _ & Hs1 & Hs2 & Hg & -> & _).
  eexists. split.
  - split; [done|]. split; [done|]. rewrite Hrng.
    eapply replays_run; [exact Hs1|].
    eapply replays_run; [exact Hs2|constructor].
  - by exists x, y, rest, state, cost, state', logits, probs, o.
Qed.

(** Chains the [steps] facts at hand from the first world of the goal to
    its last. *)
Ltac chain_steps :=
  repeat (eapply steps_trans; [eassumption|]); apply steps_refl.

Lemma print_steps fmt args w r w' :
  print fmt args w = (r, w') → r = Ok () ∧ steps w w' [].
Proof.
  intros Hp. split; [by injection Hp as <- _|].
  eapply steps_quiet; [apply quiet_print|apply keeps_rng_print|exact Hp].
Qed.

Lemma in_graph_steps {A} (c : tf.G A) w r w' :
  in_graph c w = (r, w') → steps w w' [].
Proof.
  apply steps_quiet; [apply quiet_in_graph|apply keeps_rng_in_graph].
Qed.

(** ** Training *)

Section Train.
Variable FLAGS : Flags.t.

Lemma train_epoch_inv config m mvalid train_data valid_data i w w' :
  train_epoch FLAGS config m mvalid train_data valid_data i () w = (Ok (), w') →
  ∃ path evs,
    os_path_join (Flags.model_path_prefix FLAGS) "ptb.ckpt" = Ok path ∧
    steps w w' evs ∧
    epoch_events config m mvalid train_data valid_data path i evs.
Proof.
  unfold train_epoch, assign_lr. intros Hr.
  apply bind_ok_inv in Hr as ([] & w1 & Hassign & Hr).
  apply bind_ok_inv in Hassign as (lr_t & w0 & Hlr & Hassign).
  apply lift_inv in Hlr as [Hlr ->].
  apply bind_ok_inv in Hassign as (assigned & w0 & Hassign & Hret).
  injection Hret as <-. apply run1_steps in Hassign.
  apply bind_ok_inv in Hr as (lr_t' & w2 & Hlr' & Hr).
  apply lift_inv in Hlr' as [Hlr' ->]. rewrite Hlr in Hlr'.
  injection Hlr' as <-.
  apply bind_ok_inv in Hr as (lr_now & w2 & Hnow & Hr).
  apply run1_steps in Hnow.
  apply bind_ok_inv in Hr as ([] & w3 & Hp1 & Hr).
  apply print_steps in Hp1 as [_ Hp1].
  apply bind_ok_inv in Hr as (top & w4 & Htop & Hr).
  apply lift_inv in Htop as [Htop ->].
  apply bind_ok_inv in Hr as ([tp fw] & w4 & Htrain & Hr).
  apply run_epoch_steps in Htrain as (evs_t & Htrain & Hevs_t).
  apply bind_ok_inv in Hr as ([] & w5 & Hp2 & Hr).
  apply print_steps in Hp2 as [_ Hp2].
  apply bind_ok_inv in Hr as ([vp fw'] & w6 & Hvalid & Hr).
  apply run_epoch_steps in Hvalid as (evs_v & Hvalid & Hevs_v).
  apply bind_ok_inv in Hr as ([] & w7 & Hp3 & Hr).
  apply print_steps in Hp3 as [_ Hp3].
  apply bind_ok_inv in Hr as (path & w8 & Hpath & Hr).
  apply lift_inv in Hpath as [Hpath ->].
  apply save_steps in Hr as (c & _ & Hsave).
  exists path. eexists. split; [done|]. split; [chain_steps|].
  unfold lr in Hlr. destruct (_lr m) as [lr_t'|] eqn:Hlrm; [|done].
  injection Hlr as ->.
  unfold train_op in Htop. destruct (_train_op m) as [top'|] eqn:Htopm; [|done].
  injection Htop as ->.
  exists lr_t, top, assigned, lr_now, evs_t, evs_v, c.
  by repeat split.
Qed.

Lemma train_loop_inv config m mvalid train_data valid_data path count :
  os_path_join (Flags.model_path_prefix FLAGS) "ptb.ckpt" = Ok path →
  ∀ start w w',
    for_range_from start count ()
      (train_epoch FLAGS config m mvalid train_data valid_data) w
      = (Ok (), w') →
    ∃ epochs,
      steps w w' (concat epochs) ∧ length epochs = count ∧
      ∀ k evs, epochs !! k = Some evs →
        epoch_events config m mvalid train_data valid_data path
          (start + Z.of_nat k) evs.
Proof.
  intros Hpath. induction count as [|count IH]; intros start w w';
    cbn [for_range_from].
  - intros [= <-]. exists []. split; [apply steps_refl|]. by split.
  - intros Hr. apply bind_ok_inv in Hr as ([] & w1 & Hepoch & Hr).
    apply train_epoch_inv in Hepoch as (path' & evs & Hpath' & Hsteps & Hevs).
    rewrite Hpath in Hpath'. injection Hpath' as <-.
    apply IH in Hr as (epochs & Hsteps' & Hlen & Hepochs).
    exists (evs :: epochs). split; [by eapply steps_trans|].
    split; [by rewrite <- Hlen|].
    intros [|k] evs' Hk; simpl in Hk.
    + injection Hk as <-. by rewrite Z.add_0_r.
    + apply Hepochs in Hk.
      by replace (start + Z.of_nat (S k)) with (start + 1 + Z.of_nat k) by lia.
Qed.

Lemma in_graph_inv {A} (c : tf.G A) w r w' :
  in_graph c w = (r, w') →
  ∃ g, c (w_graph w) = (r, g) ∧ w' = set_graph g w.
Proof.
  unfold in_graph. destruct (c (w_graph w)) as [r0 g]. intros [= <- <-].
  by exists g.
Qed.

(** What a run of [train] that completes has done. *)
Lemma train_inv w w' :
  train FLAGS w = (Ok (), w') →
  ∃ config train_data valid_data test_data vocab word_to_id id_to_word
    p1 p2 path m mvalid mtest g1 g2 inited epochs evs_test,
    get_config FLAGS = Ok config ∧
    ptb_raw_data (Flags.data_path FLAGS)
      = Ok (train_data, valid_data, test_data, vocab, word_to_id, id_to_word) ∧
    os_path_join (Flags.model_path_prefix FLAGS) "word_to_id.json" = Ok p1 ∧
    os_path_join (Flags.model_path_prefix FLAGS) "id_to_word.json" = Ok p2 ∧
    os_path_join (Flags.model_path_prefix FLAGS) "ptb.ckpt" = Ok path ∧
    tf.variable_scope "model" None
      (Some (- init_scale config, init_scale config)%Q)
      (PTBModel_init true config) tf.empty_graph = (Ok m, g1) ∧
    tf.variable_scope "model" (Some true)
      (Some (- init_scale config, init_scale config)%Q)
      (mvalid ← PTBModel_init false config;
       mtest ← PTBModel_init false
                 (set_num_steps (set_batch_size config 1) 1);
       mret (mvalid, mtest)) g1 = (Ok (mvalid, mtest), g2) ∧
    steps_from Session w w'
      ([EvRawData (Flags.data_path FLAGS);
        EvOpen p1 "w";
        EvJsonDump p1 (json_dump (λ k, k) JInt word_to_id);
        EvOpen p2 "w";
        EvJsonDump p2 (json_dump str JStr id_to_word);
        EvRun [tf.Fo (tf.initialize_all_variables (tf.all_variables g2))] []
              [inited]]
       ++ concat epochs ++ evs_test) ∧
    length epochs = Z.to_nat (max_max_epoch config) ∧
    (∀ k evs, epochs !! k = Some evs →
       epoch_events config m mvalid train_data valid_data path
         (Z.of_nat k) evs) ∧
    epoch_run mtest test_data tf.no_op evs_test.
Proof.
  unfold train. intros Hr.
  apply bind_ok_inv in Hr as (config & w0 & Hconfig & Hr).
  apply lift_inv in Hconfig as [Hconfig ->].
  apply bind_ok_inv in Hr as (eval_config & w0 & Hconfig' & Hr).
  apply lift_inv in Hconfig' as [Hconfig' ->].
  rewrite Hconfig in Hconfig'. injection Hconfig' as <-.
  apply bind_ok_inv in Hr as (raw & w1 & Hraw & Hr).
  apply reader_ptb_raw_data_steps in Hraw as [Hraw Hs1].
  destruct raw as [[[[[train_data valid_data] test_data] vocab] word_to_id]
                   id_to_word].
  apply bind_ok_inv in Hr as ([] & w2 & Hp & Hr).
  apply print_steps in Hp as [_ Hs2].
  apply bind_ok_inv in Hr as (p1 & w3 & Hp1 & Hr).
  apply lift_inv in Hp1 as [Hp1 ->].
  apply bind_ok_inv in Hr as (f1 & w3 & Ho1 & Hr).
  apply open_w_steps in Ho1 as [-> Hs3].
  apply bind_ok_inv in Hr as ([] & w4 & Hd1 & Hr).
  apply json_dump_to_steps in Hd1 as [_ Hs4].
  apply bind_ok_inv in Hr as (p2 & w5 & Hp2 & Hr).
  apply lift_inv in Hp2 as [Hp2 ->].
  apply bind_ok_inv in Hr as (f2 & w5 & Ho2 & Hr).
  apply open_w_steps in Ho2 as [-> Hs5].
  apply bind_ok_inv in Hr as ([] & w6 & Hd2 & Hr).
  apply json_dump_to_steps in Hd2 as [_ Hs6].
  unfold with_graph_session in Hr.
  set (w7 := set_sess Session _) in Hr.
  assert (steps_from Session w w7
            ([EvRawData (Flags.data_path FLAGS)] ++ [] ++
             [EvOpen p1 "w"] ++
             [EvJsonDump p1 (json_dump (λ k, k) JInt word_to_id)] ++
             [EvOpen p2 "w"] ++
             [EvJsonDump p2 (json_dump str JStr id_to_word)] ++ [])) as Hs7.
  { apply steps_enter; [chain_steps|]. simpl. by repeat constructor. }
  assert (w_graph w7 = tf.empty_graph) as Hg7 by done.
  clearbody w7.
  apply bind_ok_inv in Hr as (m & w8 & Hm & Hr).
  pose proof (in_graph_steps _ _ _ _ Hm) as Hs8.
  apply in_graph_inv in Hm as (g1 & Hm & Hw8). rewrite Hg7 in Hm.
  assert (w_graph w8 = g1) as Hg8 by by rewrite Hw8.
  clear Hw8.
  apply bind_ok_inv in Hr as ([mvalid mtest] & w9 & Hmv & Hr).
  pose proof (in_graph_steps _ _ _ _ Hmv) as Hs9.
  apply in_graph_inv in Hmv as (g2 & Hmv & Hw9). rewrite Hg8 in Hmv.
  assert (w_graph w9 = g2) as Hg9 by by rewrite Hw9.
  clear Hw9.
  apply bind_ok_inv in Hr as (all_variables & w10 & Hall & Hr).
  pose proof (in_graph_steps _ _ _ _ Hall) as Hs10.
  apply in_graph_inv in Hall as (g3 & Hall & _). rewrite Hg9 in Hall.
  injection Hall as <- _.
  apply bind_ok_inv in Hr as (inited & w11 & Hinit & Hr).
  apply run1_steps in Hinit.
  apply bind_ok_inv in Hr as ([] & w12 & Hloop & Hr).
  assert (∃ path, os_path_join (Flags.model_path_prefix FLAGS) "ptb.ckpt"
                  = Ok path) as [path Hpath].
  { unfold os_path_join in *.
    destruct (Flags.model_path_prefix FLAGS); [eauto|done]. }
  unfold for_range in Hloop.
  apply (train_loop_inv _ _ _ _ _ _ _ Hpath) in Hloop
    as (epochs & Hs12 & Hlen & Hepochs).
  apply bind_ok_inv in Hr as ([] & w13 & Hp13 & Hr).
  apply print_steps in Hp13 as [_ Hs13].
  apply bind_ok_inv in Hr as ([] & w14 & Hp14 & Hr).
  apply print_steps in Hp14 as [_ Hs14].
  apply bind_ok_inv in Hr as ([tp fw] & w15 & Htest & Hr).
  apply run_epoch_steps in Htest as (evs_test & Hs15 & Htest).
  apply print_steps in Hr as [_ Hs16].
  exists config, train_data, valid_data, test_data, vocab, word_to_id,
    id_to_word, p1, p2, path, m, mvalid, mtest, g1, g2, inited, epochs,
    evs_test.
  assert (steps w7 w' ([] ++ [] ++ [] ++
                       [EvRun [tf.Fo (tf.initialize_all_variables
                                        (tf.all_variables g2))] [] [inited]] ++
                       concat epochs ++ [] ++ [] ++ evs_test ++ [] ++ []))
    as Hpost by chain_steps.
  pose proof (steps_from_trans _ _ _ _ _ _ Hs7 Hpost) as Hsteps.
  simpl in Hsteps. rewrite !app_nil_r in Hsteps.
  do 7 (split; [done|]). split; [exact Hsteps|]. split; [done|].
  split; [|done].
  intros k evs Hk. apply Hepochs in Hk. by rewrite Z.add_0_l in Hk.
Qed.


End Train.

(** ** Sampling *)

Section Generate.
Variable FLAGS : Flags.t.


Lemma generate_step_inv m id_to_word i word state sentence w
    word' state' sentence' w' :
  generate_step m id_to_word i (word, state, sentence) w
    = (Ok (word', state', sentence'), w') →
  ∃ probs_v o p decoded,
    steps w w'
      [EvRun [tf.Ft (probs m); tf.Ft (final_state m); tf.Fo tf.no_op]
             [(input_data m, FInts [[word]]);
              (targets m, FInts (np_zeros 1 1));
              (initial_state m, FArray state);
              (weights m, FFloats [1%Q])]
             [probs_v; state'; o];
       EvChoice 10002 p word'] ∧
    index_first (rows probs_v) = Ok p ∧
    getitem id_to_word (str word') = Ok decoded ∧
    sentence' = sentence ++ [decoded].
Proof.
  unfold generate_step. intros Hr.
  do 10 (apply bind_ok_inv in Hr as ([] & ? & ?%print_steps & Hr)).
  apply bind_ok_inv in Hr as (ones & w1 & Hones & Hr).
  apply lift_inv in Hones as [[= <-] ->].
  apply bind_ok_inv in Hr as (values & w2 & Hrun & Hr).
  pose proof Hrun as Hlen.
  apply run_inv in Hlen as [(vs & s & Hlen & [= ->] & _)|(e & [=] & _)].
  apply session_run_length in Hlen.
  destruct vs as [|probs_v [|state'' [|o [|]]]]; try discriminate Hlen.
  clear Hlen. apply run_steps in Hrun.
  apply bind_ok_inv in Hr as (p & w3 & Hp & Hr).
  apply lift_inv in Hp as [Hp ->].
  apply bind_ok_inv in Hr as (k & w3 & Hk & Hr).
  apply np_random_choice_steps in Hk.
  do 2 (apply bind_ok_inv in Hr as ([] & ? & ?%print_steps & Hr)).
  apply bind_ok_inv in Hr as (decoded & w4 & Hdec & Hr).
  apply lift_inv in Hdec as [Hdec ->].
  do 5 (apply bind_ok_inv in Hr as ([] & ? & ?%print_steps & Hr)).
  apply bind_ok_inv in Hr as (decoded' & w5 & Hdec' & Hr).
  apply lift_inv in Hdec' as [Hdec' ->].
  rewrite Hdec in Hdec'. injection Hdec' as <-.
  injection Hr as -> -> <- ->.
  exists probs_v, o, p, decoded. split; [|done].
  repeat match goal with H : _ ∧ steps _ _ _ |- _ => destruct H as [_ H] end.
  assert (steps w w'
            ([] ++ [] ++ [] ++ [] ++ [] ++ [] ++ [] ++ [] ++ [] ++ [] ++
             [EvRun [tf.Ft (probs m); tf.Ft (final_state m); tf.Fo tf.no_op]
                [(input_data m, FInts [[word]]);
                 (targets m, FInts (np_zeros 1 1));
                 (initial_state m, FArray state);
                 (weights m, FFloats [1%Q])]
                [probs_v; state'; o]] ++
             [EvChoice 10002 p word'] ++ [] ++ [] ++ [] ++ [] ++ [] ++ [] ++ [] ++ []))
    as Hsteps by chain_steps.
  exact Hsteps.
Qed.

Lemma generate_loop_inv m id_to_word count :
  ∀ start word state sentence w word' state' sentence' w',
    for_range_from start count (word, state, sentence)
      (generate_step m id_to_word) w
      = (Ok (word', state', sentence'), w') →
    ∃ evs added,
      steps w w' evs ∧
      sampling m id_to_word word state evs added ∧
      sentence' = sentence ++ added ∧ length added = count.
Proof.
  induction count as [|count IH];
    intros start word state sentence w word' state' sentence' w';
    cbn [for_range_from].
  - intros [= <- <- <- <-]. exists [], [].
    split; [apply steps_refl|]. split; [constructor|].
    by rewrite app_nil_r.
  - intros Hr.
    apply bind_ok_inv in Hr as ([[word1 state1] sentence1] & w1 & Hstep & Hr).
    apply generate_step_inv in Hstep
      as (probs_v & o & p & decoded & Hsteps & Hp & Hdec & ->).
    apply IH in Hr as (evs & added & Hsteps' & Hsampling & -> & Hlen).
    eexists _, (decoded :: added).
    split; [by eapply steps_trans|].
    split; [by econstructor|].
    split; [by rewrite <- app_assoc|]. simpl. by rewrite Hlen.
Qed.

(** What a run of [generate] that completes has done. *)
Lemma generate_inv word_to_id id_to_word w w' :
  generate FLAGS word_to_id id_to_word w = (Ok (), w') →
  ∃ config m g path c state probs_v state0 o bos_v bos evs sentence words,
    get_config FLAGS = Ok config ∧
    tf.variable_scope "model" None None
      (PTBModel_init false (set_batch_size (set_num_steps config 1) 1))
      tf.empty_graph = (Ok m, g) ∧
    os_path_join (Flags.model_path_prefix FLAGS) "ptb.ckpt" = Ok path ∧
    w_fs w !! path = Some (FCkpt c) ∧
    steps_from Session w w'
      ([EvOpen path "r"; EvRestore (saver m) path c;
        EvRun [tf.Ft (initial_state m)] [] [state];
        EvRun [tf.Ft (probs m); tf.Ft (final_state m); tf.Fo tf.no_op]
              [(input_data m, FInts (np_zeros 1 1));
               (targets m, FInts (np_zeros 1 1));
               (initial_state m, FArray state);
               (weights m, FFloats [1%Q])]
              [probs_v; state0; o]] ++ evs) ∧
    getitem word_to_id "<bos>" = Ok bos_v ∧ py_int bos_v = Ok bos ∧
    sampling m id_to_word bos state0 evs sentence ∧
    length sentence = 30%nat ∧
    as_strings sentence = Ok words ∧
    last (w_stdout w') = Some (Line "%s" [PStr (join " " words)]).
Proof.
  unfold generate. intros Hr.
  apply bind_ok_inv in Hr as (config & w0 & Hconfig & Hr).
  apply lift_inv in Hconfig as [Hconfig ->].
  unfold with_graph_session in Hr.
  set (w1 := set_sess Session _) in Hr.
  assert (steps_from Session w w1 []) as Hs1.
  { apply steps_enter; [apply steps_refl|constructor]. }
  assert (w_graph w1 = tf.empty_graph) as Hg1 by done.
  assert (w_fs w1 = w_fs w) as Hfs1 by done.
  clearbody w1.
  apply bind_ok_inv in Hr as (m & w2 & Hm & Hr).
  pose proof (in_graph_steps _ _ _ _ Hm) as Hs2.
  apply in_graph_inv in Hm as (g & Hm & _). rewrite Hg1 in Hm.
  apply bind_ok_inv in Hr as (path & w3 & Hpath & Hr).
  apply lift_inv in Hpath as [Hpath ->].
  apply bind_ok_inv in Hr as (f & w3 & Hopen & Hr).
  apply open_r_steps in Hopen as (-> & _ & Hs3).
  apply bind_ok_inv in Hr as ([] & w4 & [_ Hs4]%print_steps & Hr).
  apply bind_ok_inv in Hr as (path' & w5 & Hpath' & Hr).
  apply lift_inv in Hpath' as [Hpath' ->].
  rewrite Hpath in Hpath'. injection Hpath' as <-.
  apply bind_ok_inv in Hr as ([] & w5 & Hrestore & Hr).
  apply restore_steps in Hrestore as (c & Hc & Hs5).
  assert (w_fs w !! path = Some (FCkpt c)) as Hfile.
  { destruct Hs4 as (_ & Hf4 & _). destruct Hs3 as (_ & Hf3 & _).
    destruct Hs2 as (_ & Hf2 & _). by rewrite Hf4, Hf3, Hf2, Hfs1 in Hc. }
  apply bind_ok_inv in Hr as (state & w6 & Hs6 & Hr).
  apply run1_steps in Hs6.
  apply bind_ok_inv in Hr as (ones & w7 & Hones & Hr).
  apply lift_inv in Hones as [[= <-] ->].
  apply bind_ok_inv in Hr as (values & w7 & Hrun & Hr).
  pose proof Hrun as Hlen.
  apply run_inv in Hlen as [(vs & s & Hlen & [= ->] & _)|(e & [=] & _)].
  apply session_run_length in Hlen.
  destruct vs as [|probs_v [|state0 [|o [|]]]]; try discriminate Hlen.
  clear Hlen. apply run_steps in Hrun as Hs7.
  do 4 (apply bind_ok_inv in Hr as ([] & ? & [_ ?]%print_steps & Hr)).
  apply bind_ok_inv in Hr as (bos_v & w8 & Hbos & Hr).
  apply lift_inv in Hbos as [Hbos ->].
  apply bind_ok_inv in Hr as (bos & w8 & Hint & Hr).
  apply lift_inv in Hint as [Hint ->].
  apply bind_ok_inv in Hr as ([[word' state'] sentence] & w9 & Hloop & Hr).
  unfold for_range in Hloop.
  apply generate_loop_inv in Hloop
    as (evs & added & Hs9 & Hsampling & -> & Hadded).
  apply bind_ok_inv in Hr as ([] & w10 & [_ Hs10]%print_steps & Hr).
  apply bind_ok_inv in Hr as (words & w11 & Hwords & Hr).
  apply lift_inv in Hwords as [Hwords ->].
  assert (last (w_stdout w') = Some (Line "%s" [PStr (join " " words)]))
    as Hlast.
  { injection Hr as <-. simpl. apply last_snoc. }
  apply print_steps in Hr as [_ Hs11].
  exists config, m, g, path, c, state, probs_v, state0, o, bos_v, bos, evs,
    added, words.
  do 4 (split; [done|]). split; [|done].
  assert (steps w1 w'
            ([] ++ [EvOpen path "r"] ++ [] ++ [EvRestore (saver m) path c] ++
             [EvRun [tf.Ft (initial_state m)] [] [state]] ++
             [EvRun [tf.Ft (probs m); tf.Ft (final_state m); tf.Fo tf.no_op]
                [(input_data m, FInts (np_zeros 1 1));
                 (targets m, FInts (np_zeros 1 1));
                 (initial_state m, FArray state);
                 (weights m, FFloats [1%Q])]
                [probs_v; state0; o]] ++
             [] ++ [] ++ [] ++ [] ++ evs ++ [] ++ [] ++ []))
    as Hpost by chain_steps.
  pose proof (steps_from_trans _ _ _ _ _ _ Hs1 Hpost) as Hsteps.
  simpl in Hsteps. by rewrite !app_nil_r in Hsteps.
Qed.

Lemma as_strings_length sentence :
  ∀ words, as_strings sentence = Ok words → length words = length sentence.
Proof.
  induction sentence as [|[n|s] sentence IH]; intros words; simpl.
  - by intros [= <-].
  - done.
  - destruct (as_strings sentence) as [ss|e]; [|done].
    intros [= <-]. simpl. by rewrite (IH ss).
Qed.

Lemma sampling_reads_back m id_to_word word state evs sentence :
  sampling m id_to_word word state evs sentence →
  ∀ e, e ∈ evs → reads_back e = false.
Proof.
  induction 1 as [|word state probs_v state' o p next_word decoded evs
                   sentence _ _ _ IH]; intros e Hin.
  - by apply elem_of_nil in Hin.
  - apply elem_of_cons in Hin as [->|Hin]; [done|].
    apply elem_of_cons in Hin as [->|Hin]; [done|]. by apply IH.
Qed.

(** C5.  A run of [generate] that completes builds the model of the
    configuration for minibatches of one word, restores it from the
    checkpoint in a new session, and then produces exactly 30 words.  It
    starts from the id of ["<bos>"] in [word_to_id]; each of the 30 passes
    feeds the current word id and the previous final state to the model,
    samples the next word id from the first row of the model's softmax
    probabilities among 10002 ids, and appends the word
    [id_to_word[str(next_word)]] to the sentence ([sampling]); the last line
    printed is the 30 words joined by spaces.  Every run is a run of the
    session from the restored state on, and every sample is the draw of
    numpy's generator ([replays]). *)
Theorem generate_samples_thirty_words word_to_id id_to_word w w' :
  generate FLAGS word_to_id id_to_word w = (Ok (), w') →
  ∃ config m g path c s0 state probs_v state0 o bos_v bos evs sentence words,
    get_config FLAGS = Ok config ∧
    tf.variable_scope "model" None None
      (PTBModel_init false (set_batch_size (set_num_steps config 1) 1))
      tf.empty_graph = (Ok m, g) ∧
    probs m = tf.softmax (logits m) ∧
    os_path_join (Flags.model_path_prefix FLAGS) "ptb.ckpt" = Ok path ∧
    w_fs w !! path = Some (FCkpt c) ∧
    saver_restore (saver m) c Session = Ok s0 ∧
    w_log w' =
      w_log w ++
      [EvOpen path "r"; EvRestore (saver m) path c;
       EvRun [tf.Ft (initial_state m)] [] [state];
       EvRun [tf.Ft (probs m); tf.Ft (final_state m); tf.Fo tf.no_op]
             [(input_data m, FInts (np_zeros 1 1));
              (targets m, FInts (np_zeros 1 1));
              (initial_state m, FArray state);
              (weights m, FFloats [1%Q])]
             [probs_v; state0; o]] ++ evs ∧
    replays s0 (w_rng w)
      ([EvRun [tf.Ft (initial_state m)] [] [state];
        EvRun [tf.Ft (probs m); tf.Ft (final_state m); tf.Fo tf.no_op]
              [(input_data m, FInts (np_zeros 1 1));
               (targets m, FInts (np_zeros 1 1));
               (initial_state m, FArray state);
               (weights m, FFloats [1%Q])]
              [probs_v; state0; o]] ++ evs)
      (w_sess w') (w_rng w') ∧
    getitem word_to_id "<bos>" = Ok bos_v ∧ py_int bos_v = Ok bos ∧
    sampling m id_to_word bos state0 evs sentence ∧
    length sentence = 30%nat ∧
    as_strings sentence = Ok words ∧
    length words = 30%nat ∧
    last (w_stdout w') = Some (Line "%s" [PStr (join " " words)]).
Proof.
  intros Hr. apply generate_inv in Hr
    as (config & m & g & path & c & state & probs_v & state0 & o & bos_v &
        bos & evs & sentence & words & Hconfig & Hm & Hpath & Hc &
        (Hlog & _ & Hruns) & Hbos & Hint & Hsampling & Hlen & Hwords & Hlast).
  apply replays_outside_cons in Hruns; [|done].
  apply replays_restore_inv in Hruns as (s0 & Hrestore & Hruns).
  exists config, m, g, path, c, s0, state, probs_v, state0, o, bos_v, bos,
    evs, sentence, words.
  do 2 (split; [done|]). split.
  { apply variable_scope_inv in Hm as (g_in & g_out & Hm & _).
    apply PTBModel_init_inv in Hm. unfold probs, logits. apply Hm. }
  do 10 (split; [done|]). split; [|done].
  by rewrite (as_strings_length _ _ Hwords).
Qed.

End Generate.

(** ** The entry point *)

Lemma set_log_set_log evs1 evs2 w :
  set_log (λ l, l ++ evs2) (set_log (λ l, l ++ evs1) w)
  = set_log (λ l, l ++ evs1 ++ evs2) w.
Proof. unfold set_log. simpl. by rewrite app_assoc. Qed.

Lemma open_r_ok path w f :
  w_fs w !! path = Some f →
  open path "r" w = (Ok path, set_log (λ l, l ++ [EvOpen path "r"]) w).
Proof. unfold open. simpl. by intros ->. Qed.

Lemma json_load_ok fp w doc :
  w_fs w !! fp = Some (FJson doc) →
  json_load fp w = (Ok doc, set_log (λ l, l ++ [EvJsonLoad fp]) w).
Proof. unfold json_load. by intros ->. Qed.

Lemma main_generate_mode FLAGS w p1 p2 word_to_id id_to_word :
  truthy (Flags.generate FLAGS) = true →
  os_path_join (Flags.model_path_prefix FLAGS) "word_to_id.json" = Ok p1 →
  os_path_join (Flags.model_path_prefix FLAGS) "id_to_word.json" = Ok p2 →
  w_fs w !! p1 = Some (FJson word_to_id) →
  w_fs w !! p2 = Some (FJson id_to_word) →
  main FLAGS w
  = generate FLAGS word_to_id id_to_word
      (set_log (λ l, l ++ [EvOpen p1 "r"; EvOpen p2 "r";
                           EvJsonLoad p1; EvJsonLoad p2]) w).
Proof.
  unfold main. intros -> Hp1 Hp2 Hf1 Hf2.
  rewrite andb_false_r. simpl.
  erewrite bind_ok by (unfold lift; by rewrite Hp1).
  erewrite bind_ok by by eapply open_r_ok.
  erewrite bind_ok by (unfold lift; by rewrite Hp2).
  erewrite bind_ok by by eapply open_r_ok.
  erewrite bind_ok by by eapply json_load_ok.
  erewrite bind_ok by by eapply json_load_ok.
  by rewrite !set_log_set_log.
Qed.

(** C3.  [main] dispatches between the two modes.  When neither
    [data_path] nor [generate] is set it raises [ValueError] and does
    nothing else; when [generate] is not set (and [data_path] is) it is a
    call of [train]; when [generate] is set it opens and loads
    [word_to_id.json] and [id_to_word.json] under [model_path_prefix] and
    is a call of [generate] on the two loaded mappings.  (A flag is set
    when Python takes it for true.) *)
Theorem main_dispatch FLAGS w :
  (truthy_opt (Flags.data_path FLAGS) = false →
   truthy (Flags.generate FLAGS) = false →
   main FLAGS w
   = (Raise (ValueError "Must set --data_path to PTB data directory"), w)) ∧
  (truthy_opt (Flags.data_path FLAGS) = true →
   truthy (Flags.generate FLAGS) = false →
   main FLAGS w = train FLAGS w) ∧
  (truthy (Flags.generate FLAGS) = true →
   ∀ p1 p2 word_to_id id_to_word,
     os_path_join (Flags.model_path_prefix FLAGS) "word_to_id.json" = Ok p1 →
     os_path_join (Flags.model_path_prefix FLAGS) "id_to_word.json" = Ok p2 →
     w_fs w !! p1 = Some (FJson word_to_id) →
     w_fs w !! p2 = Some (FJson id_to_word) →
     main FLAGS w
     = generate FLAGS word_to_id id_to_word
         (set_log (λ l, l ++ [EvOpen p1 "r"; EvOpen p2 "r";
                              EvJsonLoad p1; EvJsonLoad p2]) w)).
Proof.
  unfold main. split; [|split].
  - by intros -> ->.
  - by intros -> ->.
  - intros Hgenerate p1 p2 word_to_id id_to_word Hp1 Hp2 Hf1 Hf2.
    fold (main FLAGS w). by apply main_generate_mode.
Qed.

(** ** Files across training and sampling *)

Lemma fs_after_not_written evs path :
  ∀ fs,
    (∀ e p f, e ∈ evs → written e = Some (p, f) → p ≠ path) →
    fs_after evs fs !! path = fs !! path.
Proof.
  induction evs as [|e evs IH]; intros fs Hevs; [done|].
  change (e :: evs) with ([e] ++ evs). rewrite fs_after_app.
  rewrite IH by (intros e' p f He'; apply Hevs; by right).
  unfold fs_after. simpl.
  destruct (written e) as [[p f]|] eqn:He; [|done].
  apply lookup_insert_ne. eapply Hevs; [by left|done].
Qed.

Lemma fs_after_snoc evs e path f fs :
  written e = Some (path, f) →
  fs_after (evs ++ [e]) fs !! path = Some f.
Proof.
  intros He. rewrite fs_after_app. unfold fs_after at 1. simpl. rewrite He.
  apply lookup_insert_eq.
Qed.

Lemma epoch_run_written m data eval_op evs :
  epoch_run m data eval_op evs → ∀ e, e ∈ evs → written e = None ∧ saved e = None.
Proof.
  intros (x & y & rest & state & cost & state' & logits & probs & o & _ & ->)
    e He.
  apply elem_of_cons in He as [->|He]; [done|].
  by apply list_elem_of_singleton in He as ->.
Qed.

Lemma epoch_run_saves m data eval_op evs :
  epoch_run m data eval_op evs → saves evs = [].
Proof.
  by intros (x & y & rest & state & cost & state' & logits & probs & o & _ & ->).
Qed.

(** The events of one epoch of training are runs of the session followed
    by the save of the checkpoint. *)
Lemma epoch_events_save config m mvalid train_data valid_data path i evs :
  epoch_events config m mvalid train_data valid_data path i evs →
  ∃ runs c,
    evs = runs ++ [EvSave (saver m) path c] ∧ saves runs = [] ∧
    ∀ e, e ∈ runs → written e = None.
Proof.
  intros (lr_t & top & assigned & lr_now & evs_t & evs_v & c & _ & _ & Ht & Hv &
          ->).
  exists ([EvRun [tf.Fo (tf.assign lr_t (epoch_lr config i))] [] [assigned];
           EvRun [tf.Ft lr_t] [] [lr_now]] ++ evs_t ++ evs_v), c.
  split; [by rewrite <- !app_assoc|]. split.
  - unfold saves. rewrite !omap_app. fold (saves evs_t) (saves evs_v).
    by rewrite (epoch_run_saves _ _ _ _ Ht), (epoch_run_saves _ _ _ _ Hv).
  - intros e He. rewrite !elem_of_app in He.
    destruct He as [He|[He|He]].
    + apply elem_of_cons in He as [->|He]; [done|].
      by apply list_elem_of_singleton in He as ->.
    + by apply (epoch_run_written _ _ _ _ Ht) in He as [He _].
    + by apply (epoch_run_written _ _ _ _ Hv) in He as [He _].
Qed.

Lemma get_config_inv FLAGS config :
  get_config FLAGS = Ok config →
  config ∈ [SmallConfig; MediumConfig; LargeConfig; TestConfig].
Proof.
  unfold get_config.
  repeat (destruct (String.eqb _ _); [intros [= <-]; set_solver|]).
  done.
Qed.

Lemma vocab_size_fixed FLAGS config :
  get_config FLAGS = Ok config →
  vocab_size config = 10002 ∧ 1 ≤ max_max_epoch config.
Proof.
  intros Hc. apply get_config_inv in Hc.
  repeat (apply elem_of_cons in Hc as [->|Hc]; [by split|]).
  by apply elem_of_nil in Hc.
Qed.

(** The three files of a model directory have different paths. *)
Lemma model_paths prefix p1 p2 path :
  os_path_join prefix "word_to_id.json" = Ok p1 →
  os_path_join prefix "id_to_word.json" = Ok p2 →
  os_path_join prefix "ptb.ckpt" = Ok path →
  p1 ≠ p2 ∧ p1 ≠ path ∧ p2 ≠ path.
Proof.
  unfold os_path_join. destruct prefix as [a|]; [|done]. simpl.
  destruct (String.eqb a "" || ends_with_slash a)%bool;
    intros [= <-] [= <-] [= <-]; repeat split; intros Heq.
  all: try (apply (inj (String.app a)) in Heq; discriminate Heq).
  all: apply (inj (String.app a)) in Heq; simpl in Heq; discriminate Heq.
Qed.

Lemma saves_app evs1 evs2 : saves (evs1 ++ evs2) = saves evs1 ++ saves evs2.
Proof. apply omap_app. Qed.

(** The epochs of training write nothing but the checkpoint, and the last
    of them saves last. *)
Lemma epochs_save sv path (epochs : list (list event)) :
  (∀ k evs, epochs !! k = Some evs →
     ∃ runs c, evs = runs ++ [EvSave sv path c] ∧ saves runs = [] ∧
               ∀ e, e ∈ runs → written e = None) →
  (∀ e p f, e ∈ concat epochs → written e = Some (p, f) → p = path) ∧
  (∀ p c, (p, c) ∈ saves (concat epochs) → p = path) ∧
  (epochs ≠ [] →
   ∃ before c, concat epochs = before ++ [EvSave sv path c] ∧
               last (saves (concat epochs)) = Some (path, c)).
Proof.
  induction epochs as [|evs epochs IH] using rev_ind; intros Hepochs.
  - repeat split; try done.
    + intros e p f He. by apply elem_of_nil in He.
    + intros p c Hp. by apply elem_of_nil in Hp.
  - destruct IH as (IHw & IHs & _).
    { intros k evs' Hk. apply (Hepochs k). by apply lookup_app_l_Some. }
    destruct (Hepochs (length epochs) evs) as (runs & c & -> & Hruns & Hnone).
    { by rewrite lookup_app_r, Nat.sub_diag by lia. }
    rewrite concat_app. simpl. rewrite app_nil_r. repeat split.
    + intros e p f He Hw. rewrite !elem_of_app in He.
      destruct He as [He|[He|He]].
      * by eapply IHw.
      * apply Hnone in He. congruence.
      * apply list_elem_of_singleton in He as ->. by injection Hw as <- _.
    + intros p c'. rewrite !saves_app, Hruns, !elem_of_app.
      intros [Hp|[Hp|Hp]].
      * by eapply IHs.
      * by apply elem_of_nil in Hp.
      * apply list_elem_of_singleton in Hp. by injection Hp as -> _.
    + intros _. exists (concat epochs ++ runs), c.
      split; [by rewrite app_assoc|].
      rewrite !saves_app, Hruns. simpl. apply last_snoc.
Qed.

(** The files a run of [train] that completes leaves behind, with the
    events that wrote them. *)
Lemma train_files FLAGS w w1 :
  train FLAGS w = (Ok (), w1) →
  ∃ config train_data valid_data test_data vocab word_to_id id_to_word
    p1 p2 path inited epochs evs_test c,
    let prolog :=
      [EvRawData (Flags.data_path FLAGS);
       EvOpen p1 "w"; EvJsonDump p1 (json_dump (λ k, k) JInt word_to_id);
       EvOpen p2 "w"; EvJsonDump p2 (json_dump str JStr id_to_word);
       inited] in
    get_config FLAGS = Ok config ∧
    ptb_raw_data (Flags.data_path FLAGS)
      = Ok (train_data, valid_data, test_data, vocab, word_to_id, id_to_word) ∧
    os_path_join (Flags.model_path_prefix FLAGS) "word_to_id.json" = Ok p1 ∧
    os_path_join (Flags.model_path_prefix FLAGS) "id_to_word.json" = Ok p2 ∧
    os_path_join (Flags.model_path_prefix FLAGS) "ptb.ckpt" = Ok path ∧
    saved inited = None ∧
    w_log w1 = w_log w ++ prolog ++ concat epochs ++ evs_test ∧
    length epochs = Z.to_nat (max_max_epoch config) ∧
    (∀ k evs, epochs !! k = Some evs →
       ∃ runs sv c', evs = runs ++ [EvSave sv path c'] ∧ saves runs = []) ∧
    saves evs_test = [] ∧
    last (saves (prolog ++ concat epochs ++ evs_test)) = Some (path, c) ∧
    w_fs w1 !! p1 = Some (FJson (json_dump (λ k, k) JInt word_to_id)) ∧
    w_fs w1 !! p2 = Some (FJson (json_dump str JStr id_to_word)) ∧
    w_fs w1 !! path = Some (FCkpt c).
Proof.
  intros Hr. apply train_inv in Hr
    as (config & train_data & valid_data & test_data & vocab & word_to_id &
        id_to_word & p1 & p2 & path & m & mvalid & mtest & g1 & g2 & inited &
        epochs & evs_test & Hconfig & Hraw & Hp1 & Hp2 & Hpath & Hm & Hmv &
        (Hlog & Hfs & _) & Hlen & Hepochs & Htest).
  destruct (model_paths _ _ _ _ Hp1 Hp2 Hpath) as (Hp12 & Hp1c & Hp2c).
  destruct (epochs_save (saver m) path epochs) as (Hwritten & Hsaves & Hlast).
  { intros k evs Hk. by eapply epoch_events_save, Hepochs. }
  destruct Hlast as (before & c & Hbefore & Hlast).
  { intros ->. apply vocab_size_fixed in Hconfig as [_ Hmax].
    simpl in Hlen. lia. }
  set (init_run := EvRun _ _ _) in *.
  exists config, train_data, valid_data, test_data, vocab, word_to_id,
    id_to_word, p1, p2, path, init_run, epochs, evs_test, c.
  intros prolog.
  assert (∀ e p f, e ∈ evs_test → written e = Some (p, f) → p ≠ path)
    as Htest_written.
  { intros e p f He Hw.
    apply (epoch_run_written _ _ _ _ Htest) in He as [He _]. congruence. }
  assert (∀ p', p' ≠ path →
            w_fs w1 !! p' = fs_after prolog (w_fs w) !! p') as Hother.
  { intros p' Hp'. rewrite Hfs. fold prolog. rewrite fs_after_app.
    apply fs_after_not_written. intros e p f He Hw ->.
    apply elem_of_app in He as [He|He].
    - by apply Hp', (Hwritten e _ f).
    - apply (epoch_run_written _ _ _ _ Htest) in He as [He _]. congruence. }
  do 6 (split; [done|]). split; [exact Hlog|]. split; [done|]. split.
  { intros k evs Hk.
    destruct (epoch_events_save _ _ _ _ _ _ _ _ (Hepochs _ _ Hk))
      as (runs & c' & -> & Hruns & _).
    by exists runs, (saver m), c'. }
  split; [by eapply epoch_run_saves|]. split.
  { rewrite !saves_app, (epoch_run_saves _ _ _ _ Htest), app_nil_r.
    change (saves prolog) with (@nil (string * Ckpt)). exact Hlast. }
  split; [|split].
  - rewrite Hother by done. unfold fs_after. simpl.
    rewrite lookup_insert_ne, lookup_insert_ne by done.
    apply lookup_insert_eq.
  - rewrite Hother by done. unfold fs_after. simpl. apply lookup_insert_eq.
  - rewrite Hfs. fold prolog. rewrite app_assoc, fs_after_app.
    rewrite fs_after_not_written by done.
    rewrite Hbefore, app_assoc. by apply fs_after_snoc.
Qed.

(** ** The vocabulary files *)

(** A mapping dumped with injective keys is read back entry by entry. *)
Lemma json_dump_lookup {K V} `{Countable K} (key : K → string)
    (val : V → jvalue) (d : gmap K V) :
  Inj (=) (=) key →
  (∀ k, json_dump key val d !! key k = val <$> d !! k) ∧
  (∀ s v, json_dump key val d !! s = Some v →
     ∃ k x, s = key k ∧ d !! k = Some x ∧ v = val x).
Proof.
  intros Hinj. unfold json_dump. split.
  - intros k. by rewrite lookup_kmap, lookup_fmap.
  - intros s v Hs. apply lookup_kmap_Some in Hs as (k & -> & Hk); [|done].
    rewrite lookup_fmap in Hk. destruct (d !! k) as [x|] eqn:Hx; [|done].
    injection Hk as <-. by exists k, x.
Qed.

Lemma str_inj : Inj (=) (=) str.
Proof. unfold str. apply _. Qed.

(** C8.  The vocabulary round-trips through the JSON files.  When [train]
    completes it has dumped the reader's [word_to_id] and [id_to_word]
    into [word_to_id.json] and [id_to_word.json] under
    [model_path_prefix]; [main] in generate mode, on the same files and
    prefix, loads these two files and calls [generate] on what it loaded.
    The loaded [word_to_id] maps every word as the reader's does; the
    loaded [id_to_word] has the strings of the reader's integer keys as its
    keys, so that looking up [str(n)] gives the reader's word for [n]; and
    each pass of the sampling loop appends the reader's word for the id it
    sampled. *)
Theorem vocabulary_round_trip FLAGS FLAGS' w w1 w2 :
  train FLAGS w = (Ok (), w1) →
  Flags.model_path_prefix FLAGS' = Flags.model_path_prefix FLAGS →
  truthy (Flags.generate FLAGS') = true →
  w_fs w2 = w_fs w1 →
  ∃ train_data valid_data test_data vocab word_to_id id_to_word p1 p2
    loaded_word_to_id loaded_id_to_word evs_train,
    ptb_raw_data (Flags.data_path FLAGS)
      = Ok (train_data, valid_data, test_data, vocab, word_to_id, id_to_word) ∧
    os_path_join (Flags.model_path_prefix FLAGS) "word_to_id.json" = Ok p1 ∧
    os_path_join (Flags.model_path_prefix FLAGS) "id_to_word.json" = Ok p2 ∧
    w_log w1 = w_log w ++ evs_train ∧
    EvJsonDump p1 loaded_word_to_id ∈ evs_train ∧
    EvJsonDump p2 loaded_id_to_word ∈ evs_train ∧
    w_fs w1 !! p1 = Some (FJson loaded_word_to_id) ∧
    w_fs w1 !! p2 = Some (FJson loaded_id_to_word) ∧
    main FLAGS' w2
      = generate FLAGS' loaded_word_to_id loaded_id_to_word
          (set_log (λ l, l ++ [EvOpen p1 "r"; EvOpen p2 "r";
                               EvJsonLoad p1; EvJsonLoad p2]) w2) ∧
    (∀ k, loaded_word_to_id !! k = JInt <$> word_to_id !! k) ∧
    (∀ n, loaded_id_to_word !! str n = JStr <$> id_to_word !! n) ∧
    (∀ s v, loaded_id_to_word !! s = Some v →
       ∃ n word, s = str n ∧ id_to_word !! n = Some word ∧ v = JStr word) ∧
    (∀ m i word state sentence w next_word state' sentence' w',
       generate_step m loaded_id_to_word i (word, state, sentence) w
         = (Ok (next_word, state', sentence'), w') →
       ∃ decoded, id_to_word !! next_word = Some decoded ∧
                  sentence' = sentence ++ [JStr decoded]).
Proof.
  intros Htrain Hprefix Hgen Hfs.
  apply train_files in Htrain
    as (config & train_data & valid_data & test_data & vocab & w2i & i2w & p1 &
        p2 & path & inited & epochs & evs_test & c & Hconfig & Hraw & Hp1 &
        Hp2 & _ & _ & Hlog & _ & _ & _ & _ & Hf1 & Hf2 & _).
  destruct (json_dump_lookup (λ k : string, k) JInt w2i) as [Hw2i _].
  { by intros ???. }
  destruct (json_dump_lookup str JStr i2w str_inj) as [Hi2w Hkeys].
  exists train_data, valid_data, test_data, vocab, w2i, i2w, p1, p2.
  eexists (json_dump (λ k : string, k) JInt w2i), (json_dump str JStr i2w), _.
  split; [done|]. split; [done|]. split; [done|]. split; [exact Hlog|].
  split; [simpl; rewrite !elem_of_cons; eauto 10|].
  split; [simpl; rewrite !elem_of_cons; eauto 10|].
  split; [done|]. split; [done|]. split.
  { apply main_generate_mode; try done; by rewrite ?Hprefix, ?Hfs. }
  split; [done|]. split; [done|]. split.
  { intros s v Hs. apply Hkeys in Hs as (n & word & -> & Hn & ->). eauto. }
  intros m i word state sentence w0 next_word state' sentence' w' Hstep.
  apply generate_step_inv in Hstep as (probs_v & o & p & decoded & _ & _ &
                                       Hdec & ->).
  unfold getitem in Hdec. rewrite Hi2w in Hdec.
  destruct (i2w !! next_word) as [s|]; [|done].
  injection Hdec as <-. by exists s.
Qed.

(** * Further properties of the script *)

(** ** The configurations *)

(** X1. [get_config] knows four models and refuses every other name; what it
    returns has the vocabulary size 10002 that [generate] samples from,
    minibatches of 20, at least one layer and one time step, a first epoch
    of decay within the epochs that are run, and a decay and a keep
    probability that are proper fractions. *)
Theorem get_config_known_models FLAGS :
  (∀ config,
     get_config FLAGS = Ok config →
     (Flags.model FLAGS, config)
       ∈ [("small", SmallConfig); ("medium", MediumConfig);
          ("large", LargeConfig); ("test", TestConfig)] ∧
     vocab_size config = 10002 ∧ batch_size config = 20 ∧
     1 ≤ num_layers config ∧ 1 ≤ num_steps config ∧
     1 ≤ max_epoch config ≤ max_max_epoch config ∧
     (0 < keep_prob config)%Q ∧ (keep_prob config <= 1)%Q ∧
     (0 < lr_decay config)%Q ∧ (lr_decay config < 1)%Q ∧
     (learning_rate config == 1)%Q) ∧
  (Flags.model FLAGS ∈ ["small"; "medium"; "large"; "test"] →
   is_ok (get_config FLAGS) = true) ∧
  (Flags.model FLAGS ∉ ["small"; "medium"; "large"; "test"] →
   get_config FLAGS = Raise (ValueError "Invalid model: %s")).
Proof.
  unfold get_config. split; [|split].
  - intros config.
    destruct (String.eqb_spec (Flags.model FLAGS) "small") as [->|?];
      [|destruct (String.eqb_spec (Flags.model FLAGS) "medium") as [->|?];
        [|destruct (String.eqb_spec (Flags.model FLAGS) "large") as [->|?];
          [|destruct (String.eqb_spec (Flags.model FLAGS) "test") as [->|?];
            [|done]]]].
    all: intros [= <-]; split; [rewrite !elem_of_cons; tauto|].
    all: repeat split; try done; by vm_compute.
  - rewrite !elem_of_cons, elem_of_nil.
    intros [->|[->|[->|[->|[]]]]]; reflexivity.
  - rewrite !elem_of_cons, elem_of_nil. intros Hmodel.
    destruct (String.eqb_spec (Flags.model FLAGS) "small"); [tauto|].
    destruct (String.eqb_spec (Flags.model FLAGS) "medium"); [tauto|].
    destruct (String.eqb_spec (Flags.model FLAGS) "large"); [tauto|].
    destruct (String.eqb_spec (Flags.model FLAGS) "test"); [tauto|].
    done.
Qed.

(** ** The learning rate *)

Lemma config_rates FLAGS config :
  get_config FLAGS = Ok config →
  (0 < lr_decay config)%Q ∧ (lr_decay config < 1)%Q ∧
  (learning_rate config == 1)%Q.
Proof.
  intros Hc. apply get_config_inv in Hc.
  repeat (apply elem_of_cons in Hc as [->|Hc]; [by vm_compute|]).
  by apply elem_of_nil in Hc.
Qed.

Lemma epoch_lr_schedule config i :
  (0 < lr_decay config)%Q → (lr_decay config < 1)%Q →
  (0 < learning_rate config)%Q →
  (i ≤ max_epoch config → (epoch_lr config i == learning_rate config)%Q) ∧
  (max_epoch config ≤ i → (epoch_lr config (i + 1) < epoch_lr config i)%Q).
Proof.
  intros Hpos Hlt Hlr. unfold epoch_lr, pypow. split.
  - intros Hi. rewrite Z.max_r by lia. simpl. apply Qmult_1_r.
  - intros Hi. rewrite !Z.max_l by lia.
    replace (i + 1 - max_epoch config) with (i - max_epoch config + 1) by lia.
    assert (¬ (lr_decay config == 0)%Q) as Hne.
    { intros Heq. rewrite Heq in Hpos. by apply Qlt_irrefl in Hpos. }
    rewrite Qpower_plus by done.
    assert (lr_decay config ^ 1 == lr_decay config)%Q as ->
      by apply Qpower_1_r.
    rewrite Qmult_assoc.
    set (p := (learning_rate config * lr_decay config ^ (i - max_epoch config))%Q).
    assert (0 < p)%Q as Hp.
    { apply Qmult_lt_0_compat; [done|]. by apply Qpower_0_lt. }
    rewrite <- (Qmult_1_r p) at 2. by apply Qmult_lt_l.
Qed.

(** X2. Pass [i] of the loop of [train], with a configuration [get_config]
    gives, first assigns the learning rate [epoch_lr config i]; that rate
    is 1 up to epoch [max_epoch], and from there on it is smaller at each
    epoch that is run than at the one before.  (The rates are the exact
    values of the expression; what rounding does to the power is not
    modelled.) *)
Theorem train_epoch_learning_rate FLAGS config m mvalid train_data valid_data
    i w w' :
  get_config FLAGS = Ok config →
  train_epoch FLAGS config m mvalid train_data valid_data i () w
    = (Ok (), w') →
  ∃ lr_t assigned rest,
    _lr m = Some lr_t ∧
    w_log w' = w_log w
               ++ EvRun [tf.Fo (tf.assign lr_t (epoch_lr config i))] []
                        [assigned] :: rest ∧
    (i ≤ max_epoch config → (epoch_lr config i == 1)%Q) ∧
    (max_epoch config ≤ i → i + 1 < max_max_epoch config →
     (epoch_lr config (i + 1) < epoch_lr config i)%Q).
Proof.
  intros Hconfig Hr.
  apply train_epoch_inv in Hr
    as (path & evs & _ & (Hlog & _) &
        (lr_t & top & assigned & lr_now & evs_t & evs_v & c & Hlr & _ & _ &
         _ & ->)).
  apply config_rates in Hconfig as (Hpos & Hlt & Hone).
  destruct (epoch_lr_schedule config i) as [Hflat Hdecay]; [done|done| |].
  { by rewrite Hone. }
  exists lr_t, assigned. eexists. split; [done|]. split; [exact Hlog|].
  split; [|auto]. intros Hi. by rewrite Hflat.
Qed.

(** X3. [assign_lr] needs a model built for training: on such a model it is
    one run of the session, of the assignment to the model's learning rate;
    on a model built for evaluation the attribute [_lr] is missing and
    nothing is run. *)
Theorem assign_lr_needs_training_model is_training config g m g' lr_value
    w r w' :
  PTBModel_init is_training config g = (Ok m, g') →
  assign_lr m lr_value w = (r, w') →
  if is_training then
    ∃ lr_t,
      _lr m = Some lr_t ∧
      ((∃ assigned s,
          session_run [tf.Fo (tf.assign lr_t lr_value)] [] (w_sess w)
            = Ok ([assigned], s) ∧
          r = Ok () ∧
          w_log w' = w_log w ++ [EvRun [tf.Fo (tf.assign lr_t lr_value)] []
                                       [assigned]]) ∨
       (∃ e, r = Raise e ∧ w_log w' = w_log w))
  else r = Raise (AttributeError "_lr") ∧ w' = w.
Proof.
  intros Hm Hr. apply PTBModel_init_inv in Hm.
  destruct Hm as (_ & _ & _ & _ & _ & _ & _ & _ & _ & _ & _ & _ & _ & _ & _ &
                  Hmode).
  unfold assign_lr, lr in Hr. destruct is_training.
  - destruct Hmode as (vars & lr_name & Hlr & _). rewrite Hlr in Hr.
    eexists. split; [exact Hlr|].
    apply bind_inv in Hr as [(lr_t & w1 & [= <- <-] & Hr)|(e & [=] & _)].
    apply bind_inv in Hr as [(a & w1 & Hrun & [= <- <-])|(e & Hrun & ->)].
    + apply run1_inv in Hrun as [(v & s & Hs & [= <-] & ->)|(e & [=] & _)].
      left. by exists a, s.
    + apply run1_inv in Hrun as [(v & s & _ & [=] & _)|(e' & _ & Hlog & _)].
      right. by exists e.
  - destruct Hmode as (Hlr & _). rewrite Hlr in Hr.
    by injection Hr as <- <-.
Qed.

(** ** Divisions by zero in [run_epoch] *)

(** X4. With a model whose [batch_size] or [num_steps] is 0, [run_epoch]
    raises [ZeroDivisionError] on its first line, before it touches the
    session, the clock or the output. *)
Theorem run_epoch_zero_batch m data eval_op verbose w :
  m_batch_size m = 0 ∨ m_num_steps m = 0 →
  run_epoch m data eval_op verbose w = (Raise ZeroDivisionError, w).
Proof.
  intros Hzero. unfold run_epoch.
  assert (epoch_size_of m data = Raise ZeroDivisionError) as ->; [|done].
  unfold epoch_size_of, floordiv. destruct Hzero as [-> | ->]; [done|].
  by destruct (m_batch_size m =? 0).
Qed.

(** X5. When the iterator yields no minibatch at all, the loop body never
    runs, [iters] is still 0 and [np.exp(costs / iters)] divides the Python
    float [0.0] by zero: [run_epoch] raises [ZeroDivisionError], after it
    has evaluated the initial state and printed the batch size. *)
Theorem run_epoch_no_minibatch m data eval_op verbose w epoch_size state s1 :
  epoch_size_of m data = Ok epoch_size →
  session_run [tf.Ft (initial_state m)] [] (w_sess w) = Ok ([state], s1) →
  ptb_iterator data (m_batch_size m) (m_num_steps m) = GStop →
  ∃ w',
    run_epoch m data eval_op verbose w = (Raise ZeroDivisionError, w') ∧
    w_log w' = w_log w ++ [EvRun [tf.Ft (initial_state m)] [] [state]] ∧
    w_stdout w'
    = w_stdout w ++ [Line "batch size: %s" [PInt (m_batch_size m)]].
Proof.
  intros Hes Hst Hg. unfold run_epoch.
  erewrite bind_ok by (unfold lift; by rewrite Hes).
  erewrite bind_ok by reflexivity.
  erewrite bind_ok by (by apply run1_ok).
  erewrite bind_ok by reflexivity.
  unfold run_epoch_loop. rewrite Hg. simpl.
  eexists. split; [reflexivity|]. done.
Qed.

(** X6. [verbose] has no effect on a call of [run_epoch] whose [epoch_size]
    is outside of [0 .. 9]: the loop is left on its first pass, where [step]
    is 0 and the report is not due, so the progress line is never printed. *)
Theorem run_epoch_verbose_prints_nothing m data eval_op w :
  (∀ epoch_size, epoch_size_of m data = Ok epoch_size →
                 epoch_size < 0 ∨ 10 ≤ epoch_size) →
  run_epoch m data eval_op true w = run_epoch m data eval_op false w.
Proof.
  intros Hsize. unfold run_epoch.
  destruct (epoch_size_of m data) as [es|e] eqn:Hes; [|done].
  assert ((es / 10 =? 0) = false) as Htenth.
  { apply not_true_is_false. rewrite tenth_zero_iff.
    specialize (Hsize es eq_refl). lia. }
  assert (∀ start_time vars w1,
            run_epoch_loop m data eval_op true es start_time vars w1
            = run_epoch_loop m data eval_op false es start_time vars w1)
    as Hloop.
  { intros start_time [[[costs iters] state] fcw] w1. unfold run_epoch_loop.
    destruct (ptb_iterator _ _ _) as [|[x y] rest|e]; [done| |done].
    cbn [for_enumerate].
    assert (∀ xy vars w2,
              run_epoch_body m eval_op true es start_time 0 xy vars w2
              = run_epoch_body m eval_op false es start_time 0 xy vars w2)
      as Hbody.
    { intros [x' y'] [[[c' i'] s'] f'] w2. unfold run_epoch_body.
      rewrite !report_due_first, Htenth. done. }
    unfold mbind, M_bind. rewrite Hbody.
    destruct (run_epoch_body _ _ false _ _ _ _ _ _) as [[[vars|vars]|e] w2]
      eqn:Hb; [|done..].
    apply run_epoch_body_inv in Hb
      as [(e & [=] & _)
         |(? & ? & ? & ? & ? & _ & _ & _ & [(e & [=])|(? & ? & _ & _ & [=])])]. }
  unfold mbind, M_bind. simpl.
  destruct (run1 _ _) as [[state|e] w1]; [|done].
  by rewrite Hloop.
Qed.

(** ** Flags and files that are missing *)

(** X7. Without [--model_path_prefix], [train] fails with the exception that
    [os.path.join(None, "word_to_id.json")] raises; by then it has loaded
    the raw data, and it has written no file. *)
Theorem train_needs_model_path_prefix FLAGS w config raw :
  Flags.model_path_prefix FLAGS = None →
  get_config FLAGS = Ok config →
  ptb_raw_data (Flags.data_path FLAGS) = Ok raw →
  ∃ e w',
    os_path_join None "word_to_id.json" = Raise e ∧
    train FLAGS w = (Raise e, w') ∧
    w_fs w' = w_fs w ∧
    w_log w' = w_log w ++ [EvRawData (Flags.data_path FLAGS)].
Proof.
  intros Hprefix Hconfig Hraw. unfold train.
  erewrite bind_ok by (unfold lift; by rewrite Hconfig).
  erewrite bind_ok by (unfold lift; by rewrite Hconfig).
  erewrite bind_ok
    by (unfold reader_ptb_raw_data; erewrite bind_ok by reflexivity;
        unfold lift; by rewrite Hraw).
  destruct raw as [[[[[train_data valid_data] test_data] vocab] word_to_id]
                   id_to_word].
  erewrite bind_ok by reflexivity.
  erewrite bind_raise by (unfold lift; by rewrite Hprefix).
  eexists _, _. split; [reflexivity|]. split; [reflexivity|]. done.
Qed.

(** X8. In generate mode [main] needs the two vocabulary files: without
    [--model_path_prefix] it fails with the exception that
    [os.path.join(None, "word_to_id.json")] raises; when [word_to_id.json]
    is missing it raises [IOError] for that path, and nothing has happened;
    when only [id_to_word.json] is missing it raises [IOError] for that one,
    after it has opened the first. *)
Theorem main_generate_needs_vocabulary FLAGS w :
  truthy (Flags.generate FLAGS) = true →
  (Flags.model_path_prefix FLAGS = None →
   ∃ e, os_path_join None "word_to_id.json" = Raise e ∧
        main FLAGS w = (Raise e, w)) ∧
  (∀ p1,
     os_path_join (Flags.model_path_prefix FLAGS) "word_to_id.json" = Ok p1 →
     w_fs w !! p1 = None →
     main FLAGS w = (Raise (IOError p1), w)) ∧
  (∀ p1 p2 f,
     os_path_join (Flags.model_path_prefix FLAGS) "word_to_id.json" = Ok p1 →
     os_path_join (Flags.model_path_prefix FLAGS) "id_to_word.json" = Ok p2 →
     w_fs w !! p1 = Some f →
     w_fs w !! p2 = None →
     main FLAGS w
     = (Raise (IOError p2), set_log (λ l, l ++ [EvOpen p1 "r"]) w)).
Proof.
  intros Hgen. unfold main. rewrite Hgen, andb_false_r. simpl.
  split; [|split].
  - intros Hprefix. eexists. split; [reflexivity|].
    by erewrite bind_raise by (unfold lift; by rewrite Hprefix).
  - intros p1 Hp1 Hf1.
    erewrite bind_ok by (unfold lift; by rewrite Hp1).
    erewrite bind_raise; [done|]. unfold open. simpl. by rewrite Hf1.
  - intros p1 p2 f Hp1 Hp2 Hf1 Hf2.
    erewrite bind_ok by (unfold lift; by rewrite Hp1).
    erewrite bind_ok by by eapply open_r_ok.
    erewrite bind_ok by (unfold lift; by rewrite Hp2).
    erewrite bind_raise; [done|]. unfold open. simpl. by rewrite Hf2.
Qed.

(** With any configuration [get_config] gives, the model of [generate]
    gets built. *)
Lemma generate_model_builds FLAGS config :
  get_config FLAGS = Ok config →
  ∃ m g,
    tf.variable_scope "model" None None
      (PTBModel_init false (set_batch_size (set_num_steps config 1) 1))
      tf.empty_graph = (Ok m, g).
Proof.
  intros Hconfig. apply get_config_inv in Hconfig.
  repeat (apply elem_of_cons in Hconfig as [->|Hconfig];
          [eexists _, _; vm_compute; reflexivity|]).
  by apply elem_of_nil in Hconfig.
Qed.

(** X9. When the checkpoint file is missing, [generate] builds its model and
    then fails in [open] with [IOError] for the checkpoint path: the session
    has run nothing, and nothing was printed or written. *)
Theorem generate_needs_checkpoint FLAGS word_to_id id_to_word w config path :
  get_config FLAGS = Ok config →
  os_path_join (Flags.model_path_prefix FLAGS) "ptb.ckpt" = Ok path →
  w_fs w !! path = None →
  ∃ w',
    generate FLAGS word_to_id id_to_word w = (Raise (IOError path), w') ∧
    w_log w' = w_log w ∧ w_fs w' = w_fs w ∧ w_stdout w' = w_stdout w.
Proof.
  intros Hconfig Hpath Hfile.
  destruct (generate_model_builds _ _ Hconfig) as (m & g & Hm).
  unfold generate.
  erewrite bind_ok by (unfold lift; by rewrite Hconfig).
  unfold with_graph_session.
  erewrite bind_ok by (unfold in_graph; simpl; by rewrite Hm).
  erewrite bind_ok by (unfold lift; by rewrite Hpath).
  erewrite bind_raise by (unfold open; simpl; by rewrite Hfile).
  eexists. split; [reflexivity|]. done.
Qed.

(** ** Files that are left alone *)

Lemma quiet_keeps_files {A} (c : M A) : quiet c → keeps_files c.
Proof. intros Hq w r w' Hr. by apply Hq in Hr as (_ & ? & _). Qed.

Lemma keeps_files_bind {A B} (c : M A) (k : A → M B) :
  keeps_files c → (∀ a, keeps_files (k a)) → keeps_files (c ≫= k).
Proof.
  intros Hc Hk w r w' Hr.
  apply bind_inv in Hr as [(a & w1 & Ha & Hb)|(e & Ha & _)].
  - apply Hc in Ha. apply Hk in Hb. congruence.
  - by apply Hc in Ha.
Qed.

Lemma keeps_files_run fetches feed : keeps_files (run fetches feed).
Proof.
  intros w r w' Hr.
  by apply run_inv in Hr as [(vs & s & _ & _ & ->)|(e & _ & ->)].
Qed.

Lemma keeps_files_run1 f : keeps_files (run1 f).
Proof.
  intros w r w' Hr.
  by apply run1_inv in Hr as [(v & s & _ & _ & ->)|(e & _ & _ & ?)].
Qed.

Lemma keeps_files_open_r path : keeps_files (open path "r").
Proof.
  intros w r w'. unfold open. simpl.
  by destruct (w_fs w !! path); intros [= <- <-].
Qed.

Lemma keeps_files_json_load fp : keeps_files (json_load fp).
Proof.
  intros w r w'. unfold json_load.
  by destruct (w_fs w !! fp) as [[]|]; intros [= <- <-].
Qed.

Lemma keeps_files_restore sv path : keeps_files (restore sv path).
Proof.
  intros w r w'. unfold restore.
  destruct (w_fs w !! path) as [[| |c]|]; try by intros [= <- <-].
  by destruct (saver_restore sv c (w_sess w)); intros [= <- <-].
Qed.

Lemma keeps_files_np_random_choice n p : keeps_files (np_random_choice n p).
Proof.
  intros w r w'. unfold np_random_choice.
  by destruct (random_choice n p (w_rng w)) as [[k rng]|]; intros [= <- <-].
Qed.

Lemma keeps_files_with_graph_session {A} (body : M A) :
  keeps_files body → keeps_files (with_graph_session body).
Proof. intros Hbody w r w' Hr. by apply Hbody in Hr. Qed.

Lemma keeps_files_for_range_from {S} (body : Z → S → M S) count :
  (∀ i s, keeps_files (body i s)) →
  ∀ start s, keeps_files (for_range_from start count s body).
Proof.
  intros Hbody. induction count as [|count IH]; intros start s;
    cbn [for_range_from].
  - by intros w r w' [= <- <-].
  - by apply keeps_files_bind.
Qed.

Lemma keeps_files_for_range {S} (body : Z → S → M S) n s :
  (∀ i s, keeps_files (body i s)) → keeps_files (for_range n s body).
Proof. intros Hbody. by apply keeps_files_for_range_from. Qed.

Create HintDb keeps_files.
#[local] Hint Resolve keeps_files_run keeps_files_run1 keeps_files_open_r
  keeps_files_json_load keeps_files_restore keeps_files_np_random_choice
  : keeps_files.
#[local] Hint Extern 1 (keeps_files _) =>
  apply quiet_keeps_files; solve [auto with quiet] : keeps_files.

Ltac keeps_files_steps :=
  repeat match goal with
         | |- keeps_files (for_range _ _ _) =>
             apply keeps_files_for_range; intros ? ?
         | |- keeps_files (_ ≫= _) => apply keeps_files_bind; [ | intros ? ]
         | |- keeps_files (match ?x with _ => _ end) => destruct x
         | |- keeps_files _ => progress auto with keeps_files
         end.

Lemma keeps_files_generate_step m id_to_word i vars :
  keeps_files (generate_step m id_to_word i vars).
Proof.
  destruct vars as [[next_word state] sentence]. unfold generate_step.
  keeps_files_steps.
Qed.

Lemma keeps_files_generate FLAGS word_to_id id_to_word :
  keeps_files (generate FLAGS word_to_id id_to_word).
Proof.
  unfold generate. apply keeps_files_bind; [auto with keeps_files|].
  intros config. apply keeps_files_with_graph_session.
  keeps_files_steps. apply keeps_files_generate_step.
Qed.

(** X10. Sampling writes nothing: however a call of [generate] ends, and
    however [main] ends in generate mode, every file is as it was before. *)
Theorem sampling_keeps_files FLAGS w r w' :
  (∀ word_to_id id_to_word,
     generate FLAGS word_to_id id_to_word w = (r, w') → w_fs w' = w_fs w) ∧
  (truthy (Flags.generate FLAGS) = true →
   main FLAGS w = (r, w') → w_fs w' = w_fs w).
Proof.
  split.
  - intros word_to_id id_to_word. apply keeps_files_generate.
  - intros Hgen. revert w r w'. change (keeps_files (main FLAGS)).
    unfold main. rewrite Hgen, andb_false_r. simpl.
    keeps_files_steps. apply keeps_files_generate.
Qed.

(** X11. The writes of [train] name three paths and no other: in a run
    that completes, every open for writing, every [json.dump] and every
    save of the saver is at [word_to_id.json], [id_to_word.json] or
    [ptb.ckpt] under [model_path_prefix], three different paths, and in
    the end the first two hold the dumped mappings and the third a
    checkpoint.  (What the framework's saver writes beside the file it is
    asked for is its own business.) *)
Theorem train_writes_to_three_paths FLAGS w w' :
  train FLAGS w = (Ok (), w') →
  ∃ p1 p2 path word_to_id id_to_word c evs,
    os_path_join (Flags.model_path_prefix FLAGS) "word_to_id.json" = Ok p1 ∧
    os_path_join (Flags.model_path_prefix FLAGS) "id_to_word.json" = Ok p2 ∧
    os_path_join (Flags.model_path_prefix FLAGS) "ptb.ckpt" = Ok path ∧
    p1 ≠ p2 ∧ p1 ≠ path ∧ p2 ≠ path ∧
    w_log w' = w_log w ++ evs ∧
    (∀ e p f, e ∈ evs → written e = Some (p, f) →
              p = p1 ∨ p = p2 ∨ p = path) ∧
    w_fs w' !! p1 = Some (FJson word_to_id) ∧
    w_fs w' !! p2 = Some (FJson id_to_word) ∧
    w_fs w' !! path = Some (FCkpt c).
Proof.
  intros Hr. pose proof Hr as Hfiles.
  apply train_files in Hfiles
    as (config & train_data & valid_data & test_data & vocab & w2i & i2w &
        p1 & p2 & path & inited & epochs & evs_test & c & _ & Hraw & Hp1 &
        Hp2 & Hpath & _ & _ & _ & _ & _ & _ & Hf1 & Hf2 & Hc).
  apply train_inv in Hr
    as (config' & train_data' & valid_data' & test_data' & vocab' & w2i' &
        i2w' & p1' & p2' & path' & m & mvalid & mtest & g1 & g2 & inited' &
        epochs' & evs_test' & _ & Hraw' & Hp1' & Hp2' & Hpath' & _ & _ &
        (Hlog & _) & _ & Hepochs & Htest).
  rewrite Hp1 in Hp1'. rewrite Hp2 in Hp2'. rewrite Hpath in Hpath'.
  injection Hp1' as <-. injection Hp2' as <-. injection Hpath' as <-.
  destruct (model_paths _ _ _ _ Hp1 Hp2 Hpath) as (Hp12 & Hp1c & Hp2c).
  destruct (epochs_save (saver m) path epochs') as (Hwritten & _).
  { intros k evs Hk. by eapply epoch_events_save, Hepochs. }
  eexists p1, p2, path, _, _, c, _. do 6 (split; [done|]).
  split; [exact Hlog|]. split; [|done].
  intros e q f He Hw. rewrite !elem_of_app in He.
  destruct He as [He|[He|He]].
  - repeat (apply elem_of_cons in He as [->|He];
            [simpl in Hw; simplify_eq; tauto|]).
    by apply elem_of_nil in He.
  - right. right. by apply (Hwritten e _ f).
  - apply (epoch_run_written _ _ _ _ Htest) in He as [He _]. congruence.
Qed.

Lemma epoch_run_reads_back m data eval_op evs :
  epoch_run m data eval_op evs → ∀ e, e ∈ evs → reads_back e = false.
Proof.
  intros (x & y & rest & state & cost & state' & logits & probs & o & _ & ->)
    e He.
  apply elem_of_cons in He as [->|He]; [done|].
  by apply list_elem_of_singleton in He as ->.
Qed.

(** X12. Training never resumes: a run of [train] that completes has opened
    no file for reading, loaded no JSON file and restored no checkpoint, so
    the weights it trains are those [tf.initialize_all_variables] gave. *)
Theorem train_starts_afresh FLAGS w w' :
  train FLAGS w = (Ok (), w') →
  ∃ evs, w_log w' = w_log w ++ evs ∧ ∀ e, e ∈ evs → reads_back e = false.
Proof.
  intros Hr. apply train_inv in Hr
    as (config & train_data & valid_data & test_data & vocab & w2i & i2w &
        p1 & p2 & path & m & mvalid & mtest & g1 & g2 & inited & epochs &
        evs_test & _ & _ & _ & _ & _ & _ & _ & [Hlog _] & _ & Hepochs &
        Htest).
  eexists. split; [exact Hlog|]. intros e He. rewrite !elem_of_app in He.
  destruct He as [He|[He|He]].
  - repeat (apply elem_of_cons in He as [->|He]; [done|]).
    by apply elem_of_nil in He.
  - apply list_elem_of_In, in_concat in He as (evs & Hevs & He).
    apply list_elem_of_In, list_elem_of_lookup in Hevs as [k Hk].
    apply list_elem_of_In in He.
    apply Hepochs in Hk
      as (lr_t & top & assigned & lr_now & evs_t & evs_v & c & _ & _ & Ht &
          Hv & ->).
    rewrite !elem_of_app in He. destruct He as [He|[He|[He|He]]].
    + apply elem_of_cons in He as [->|He]; [done|].
      by apply list_elem_of_singleton in He as ->.
    + by apply (epoch_run_reads_back _ _ _ _ Ht).
    + by apply (epoch_run_reads_back _ _ _ _ Hv).
    + by apply list_elem_of_singleton in He as ->.
  - by apply (epoch_run_reads_back _ _ _ _ Htest).
Qed.

Lemma sampling_choices m id_to_word word state evs sentence :
  sampling m id_to_word word state evs sentence →
  ∀ n p k, EvChoice n p k ∈ evs → n = 10002.
Proof.
  induction 1 as [|word state probs_v state' o p next_word decoded evs
                   sentence _ _ _ IH]; intros n q k Hin.
  - by apply elem_of_nil in Hin.
  - apply elem_of_cons in Hin as [[=]|Hin].
    apply elem_of_cons in Hin as [[= -> _ _]|Hin]; [done|]. by eapply IH.
Qed.

(** X13. The ids [generate] samples among are those of its model.  In a
    run that completes, the model whose probabilities every pass fetches
    is the one built from the configuration for minibatches of one word:
    its input is a placeholder of shape [1, 1], its probabilities are the
    softmax of logits whose weights have [vocab_size] columns, and every
    call of [np.random.choice] draws among that many ids (the 10002 of the
    script is the [vocab_size] of every configuration). *)
Theorem generate_samples_whole_vocabulary FLAGS word_to_id id_to_word w w' :
  generate FLAGS word_to_id id_to_word w = (Ok (), w') →
  ∃ config m g bos state0 pre evs sentence,
    get_config FLAGS = Ok config ∧
    tf.variable_scope "model" None None
      (PTBModel_init false (set_batch_size (set_num_steps config 1) 1))
      tf.empty_graph = (Ok m, g) ∧
    input_data m = tf.placeholder tf.int32 [1; 1] ∧
    probs m = tf.softmax (logits m) ∧
    logits m
    = tf.add
        (tf.matmul
           (tf.reshape
              (tf.concat 1
                 (fst (model_unrolled false
                         (set_batch_size (set_num_steps config 1) 1)
                         ["model"])))
              [-1; hidden_size config])
           (tf.variable_ref ["model"; "softmax_w"]
              [hidden_size config; vocab_size config]))
        (tf.variable_ref ["model"; "softmax_b"] [vocab_size config]) ∧
    w_log w' = w_log w ++ pre ++ evs ∧
    sampling m id_to_word bos state0 evs sentence ∧
    length sentence = 30%nat ∧
    ∀ n p k, EvChoice n p k ∈ pre ++ evs → n = vocab_size config.
Proof.
  intros Hr. apply generate_inv in Hr
    as (config & m & g & path & c & state & probs_v & state0 & o & bos_v &
        bos & evs & sentence & words & Hconfig & Hm & _ & _ & (Hlog & _) & _ &
        _ & Hsampling & Hlen & _).
  pose proof Hm as Hbuilt.
  apply variable_scope_inv in Hbuilt as (g_in & g_out & Hbuilt & Hpath & _).
  apply PTBModel_init_inv in Hbuilt.
  destruct Hbuilt as (_ & _ & _ & _ & _ & Hinput & _ & _ & _ & _ & Hlogits &
                      _ & Hprobs & _).
  exists config, m, g, bos, state0. eexists _, evs, sentence.
  do 2 (split; [done|]). split; [exact Hinput|]. split; [exact Hprobs|].
  split.
  { unfold logits. rewrite Hlogits, Hpath. reflexivity. }
  split; [exact Hlog|]. do 2 (split; [done|]). intros n p k Hin.
  apply vocab_size_fixed in Hconfig as [-> _].
  repeat (apply elem_of_cons in Hin as [[=]|Hin]).
  by eapply sampling_choices.
Qed.

(** ** Variables shared between models *)

Lemma shares_ret {A} (a : A) : shares (mret a : tf.G A).
Proof. by intros g r g' [= <- <-]. Qed.

Lemma shares_fail {A} e : shares (tf.fail e : tf.G A).
Proof. by intros g r g' [= <- <-]. Qed.

Lemma shares_bind {A B} (c : tf.G A) (k : A → tf.G B) :
  shares c → (∀ a, shares (k a)) → shares (c ≫= k).
Proof.
  intros Hc Hk g r g' Hr Hg.
  apply G_bind_inv in Hr as [(a & g1 & Ha & Hb)|(e & Ha & _)].
  - destruct (Hc _ _ _ Ha Hg) as [Hv1 Hg1].
    destruct (Hk _ _ _ _ Hb Hg1) as [Hv2 Hg2]. split; congruence.
  - by apply (Hc _ _ _ Ha).
Qed.

Lemma shares_get_variable nm shape : shares (tf.get_variable nm shape).
Proof.
  intros g r g' Hr Hg. apply get_variable_inv in Hr as (Hsc & Hvars & _).
  split; [by apply Hvars|]. by rewrite (same_scopes_reuse _ _ Hsc).
Qed.

Lemma shares_variable_scope {A} nm reuse_arg initializer_arg (body : tf.G A) :
  shares body → shares (tf.variable_scope nm reuse_arg initializer_arg body).
Proof.
  intros Hbody g r g' Hr Hg.
  apply variable_scope_inv in Hr
    as (g_in & g_out & Hr & _ & Hvars & Hreuse & Hsc & Hvars').
  assert (tf.reuse g_in = true) as Hin
    by (rewrite Hreuse; by destruct reuse_arg as [[]|]).
  destruct (Hbody _ _ _ Hr Hin) as [Hkeep _].
  split; [congruence|]. by rewrite (same_scopes_reuse _ _ Hsc).
Qed.

Lemma shares_call c inputs state : shares (tf.call c inputs state).
Proof.
  intros g r g' Hr Hg. apply call_inv in Hr as (Hsc & Hvars & _).
  split; [by apply Hvars|]. by rewrite (same_scopes_reuse _ _ Hsc).
Qed.

Lemma shares_reuse_variables : shares tf.reuse_variables.
Proof.
  intros g r g' Hr Hg.
  apply reuse_variables_inv in Hr as (_ & _ & Hvars & _ & Hre). auto.
Qed.

Lemma shares_new_placeholder dt shape : shares (tf.new_placeholder dt shape).
Proof.
  unfold tf.new_placeholder.
  destruct (forallb _ _); [apply shares_ret|apply shares_fail].
Qed.

Lemma shares_new_MultiRNNCell cells : shares (tf.new_MultiRNNCell cells).
Proof. destruct cells; [apply shares_fail|apply shares_ret]. Qed.

Lemma shares_get_all_variables : shares tf.get_all_variables.
Proof. by intros g r g' [= <- <-]. Qed.

Lemma shares_for_range_from {S} (body : Z → S → tf.G S) count :
  (∀ i s, shares (body i s)) →
  ∀ start s, shares (for_range_from start count s body).
Proof.
  intros Hbody. induction count as [|count IH]; intros start s;
    cbn [for_range_from].
  - apply shares_ret.
  - by apply shares_bind.
Qed.

Lemma shares_unroll_step cell inputs time_step acc :
  shares (unroll_step cell inputs time_step acc).
Proof.
  destruct acc as [outputs state]. unfold unroll_step.
  apply shares_bind.
  - destruct (0 <? time_step); [apply shares_reuse_variables|apply shares_ret].
  - intros _. apply shares_bind; [apply shares_call|].
    intros [o st]. apply shares_ret.
Qed.

(** A model built for evaluation in a reusing scope uses the variables
    that are there, and adds none. *)
Lemma shares_PTBModel_init config : shares (PTBModel_init false config).
Proof.
  unfold PTBModel_init. cbv zeta.
  do 3 (apply shares_bind; [apply shares_new_placeholder|intros ?]).
  apply shares_bind; [apply shares_new_MultiRNNCell|intros cell].
  apply shares_bind; [apply shares_get_variable|intros embedding].
  apply shares_bind.
  { apply shares_variable_scope, shares_for_range_from.
    intros. apply shares_unroll_step. }
  intros [outputs state].
  do 2 (apply shares_bind; [apply shares_get_variable|intros ?]).
  apply shares_bind; [apply shares_get_all_variables|intros ?].
  apply shares_ret.
Qed.

(** X14. The models [train] builds for validation and for the test, under
    [reuse=True], add no variable to the graph, however their construction
    ends: they work on the weights of the training model. When they are
    built, their savers cover all the variables there are. *)
Theorem evaluation_models_share_variables config eval_config init g r g' :
  tf.variable_scope "model" (Some true) init
    (mvalid ← PTBModel_init false config;
     mtest ← PTBModel_init false eval_config;
     mret (mvalid, mtest)) g = (r, g') →
  tf.g_vars g' = tf.g_vars g ∧ tf.g_scopes g' = tf.g_scopes g ∧
  ∀ mvalid mtest,
    r = Ok (mvalid, mtest) →
    tf.saver_vars (saver mvalid) = tf.all_variables g ∧
    tf.saver_vars (saver mtest) = tf.all_variables g.
Proof.
  intros Hr. apply variable_scope_inv in Hr
    as (g_in & g_out & Hr & _ & Hvars & Hreuse & Hsc & Hvars').
  assert (shares (mvalid ← PTBModel_init false config;
                  mtest ← PTBModel_init false eval_config;
                  mret (mvalid, mtest))) as Hshares.
  { apply shares_bind; [apply shares_PTBModel_init|intros mvalid].
    apply shares_bind; [apply shares_PTBModel_init|intros mtest].
    apply shares_ret. }
  destruct (Hshares _ _ _ Hr Hreuse) as [Hkeep _].
  split; [congruence|]. split; [done|].
  intros mvalid mtest ->.
  apply G_bind_ok_inv in Hr as (mv & g1 & Hmv & Hr).
  apply G_bind_ok_inv in Hr as (mt & g2 & Hmt & Hr).
  injection Hr as <- <- <-.
  destruct (shares_PTBModel_init _ _ _ _ Hmv Hreuse) as [Hv1 Hre1].
  apply PTBModel_init_inv in Hmv, Hmt.
  destruct Hmv as (_ & _ & _ & _ & _ & _ & _ & _ & _ & _ & _ & _ & _ & _ &
                   Hsv & _).
  destruct Hmt as (_ & _ & _ & _ & _ & _ & _ & _ & _ & _ & _ & _ & _ & _ &
                   Hst & _).
  unfold tf.all_variables in *.
  rewrite (Hsv Hreuse), (Hst Hre1), Hv1, Hvars. done.
Qed.

(** ** The variables of a model *)

Lemma same_scopes_initializer g g' :
  tf.g_scopes g' = tf.g_scopes g → tf.initializer g' = tf.initializer g.
Proof. unfold tf.initializer. by intros ->. Qed.

Lemma get_variable_new nm shape g t g' :
  tf.get_variable nm shape g = (Ok t, g') → tf.reuse g = false →
  tf.g_scopes g' = tf.g_scopes g ∧
  tf.g_vars g'
  = tf.g_vars g ++ [scope_var (tf.scope_path g) (tf.initializer g) nm shape].
Proof.
  unfold tf.get_variable. intros Hr Hg. rewrite Hg in Hr.
  destruct (tf.has_var g _); [done|]. by injection Hr as <- <-.
Qed.

Lemma variable_scope_inner {A} nm (body : tf.G A) g r g' :
  tf.variable_scope nm None None body g = (r, g') →
  ∃ g_in g_out,
    body g_in = (r, g_out) ∧
    tf.scope_path g_in = tf.scope_path g ++ [nm] ∧
    tf.g_vars g_in = tf.g_vars g ∧
    tf.reuse g_in = tf.reuse g ∧
    tf.initializer g_in = tf.initializer g ∧
    tf.g_scopes g' = tf.g_scopes g ∧
    tf.g_vars g' = tf.g_vars g_out.
Proof.
  unfold tf.variable_scope.
  match goal with |- context [body ?gi] => set (g_in := gi) end.
  destruct (body g_in) as [r0 g_out] eqn:Hbody. intros [= <- <-].
  exists g_in, g_out. by repeat split.
Qed.

Lemma call_layers_vars cells :
  Forall call_vars_spec cells →
  ∀ state i cur_inp new_states g t g',
    tf.call_layers tf.call state cells i cur_inp new_states g = (Ok t, g') →
    tf.reuse g = false →
    tf.g_vars g'
    = tf.g_vars g
      ++ layers_vars cell_vars (tf.scope_path g) (tf.initializer g) cells i.
Proof.
  induction 1 as [|c cells Hc _ IH]; intros state i cur_inp new_states g t g'.
  - simpl. intros [= <- <-] _. by rewrite app_nil_r.
  - cbn [tf.call_layers layers_vars]. intros Hr Hg.
    apply G_bind_ok_inv in Hr as ([o st] & g1 & Hcall & Hr).
    apply variable_scope_inner in Hcall
      as (g_in & g_out & Hbody & Hpath & Hvars & Hreuse & Hinit & Hsc & Hvars').
    apply (Hc _ _ _ _ _) in Hbody; [|congruence].
    apply IH in Hr; [|by rewrite (same_scopes_reuse _ _ Hsc)].
    rewrite Hr, Hvars', Hbody, Hvars, Hpath, Hinit.
    rewrite (same_scopes_path _ _ Hsc), (same_scopes_initializer _ _ Hsc).
    by rewrite <- app_assoc.
Qed.

(** The first call of a cell, in a scope that does not reuse, creates the
    weights of its layers. *)
Lemma call_vars c : call_vars_spec c.
Proof.
  induction c as [n fb|c kp IH|cells IH] using cell_ind_nested;
    intros inputs state g t g'; cbn [tf.call cell_vars]; intros Hr Hg.
  - apply variable_scope_inner in Hr
      as (g1 & g1' & Hr & Hpath1 & Hvars1 & Hreuse1 & Hinit1 & _ & Hvars).
    apply variable_scope_inner in Hr
      as (g2 & g2' & Hr & Hpath2 & Hvars2 & Hreuse2 & Hinit2 & _ & Hvars').
    apply G_bind_ok_inv in Hr as (matrix & g3 & Hm & Hr).
    apply get_variable_new in Hm as [Hsc3 Hm]; [|congruence].
    apply G_bind_ok_inv in Hr as (bias & g4 & Hb & Hr).
    apply get_variable_new in Hb as [Hsc4 Hb];
      [|rewrite (same_scopes_reuse _ _ Hsc3); congruence].
    injection Hr as _ <-.
    rewrite Hvars, Hvars', Hb, Hm, Hvars2, Hvars1.
    rewrite (same_scopes_path _ _ Hsc3), (same_scopes_initializer _ _ Hsc3).
    rewrite Hpath2, Hpath1, Hinit2, Hinit1, <- !app_assoc. done.
  - apply G_bind_ok_inv in Hr as ([o st] & g1 & Hcall & Hr).
    injection Hr as _ <-. by apply (IH _ _ _ _ _ Hcall).
  - apply variable_scope_inner in Hr
      as (g1 & g1' & Hr & Hpath1 & Hvars1 & Hreuse1 & Hinit1 & _ & Hvars).
    apply (call_layers_vars _ IH) in Hr; [|congruence].
    by rewrite Hvars, Hr, Hvars1, Hpath1, Hinit1.
Qed.

(** The unrolling loop creates the weights of the cell at time step 0,
    and no variable after that. *)
Lemma unroll_loop_vars cell inputs count acc g acc' g' :
  tf.reuse g = false → tf.g_scopes g ≠ [] →
  for_range_from 0 count acc (unroll_step cell inputs) g = (Ok acc', g') →
  tf.g_vars g'
  = tf.g_vars g
    ++ match count with
       | O => []
       | S _ => cell_vars (tf.scope_path g) (tf.initializer g) cell
       end.
Proof.
  intros Hg Hopen. destruct count as [|count]; cbn [for_range_from].
  - intros [= <- <-]. by rewrite app_nil_r.
  - intros Hr. apply G_bind_ok_inv in Hr as (acc1 & g1 & Hstep & Hr).
    destruct acc as [outputs state]. unfold unroll_step in Hstep.
    apply G_bind_ok_inv in Hstep as ([] & g0 & [= <-] & Hstep).
    apply G_bind_ok_inv in Hstep as ([o st] & g2 & Hcall & Hstep).
    injection Hstep as <- <-.
    pose proof (call_inv _ _ _ _ _ _ Hcall) as (Hsc & _).
    apply (call_vars _ _ _ _ _ _) in Hcall; [|done].
    apply unroll_loop_inv in Hr as (_ & _ & Hkeep); [|lia|congruence].
    rewrite Hkeep by (left; lia). done.
Qed.

(** The variable names [tf.Variable] picks are new. *)
Lemma app_self_nil (a b : string) : a = a +:+ b → b = "".
Proof.
  induction a as [|c a IH]; simpl; [done|]. intros [= Heq]. by apply IH.
Qed.

Lemma unique_name_candidates g base :
  ∀ candidates k seen,
    0 ≤ k → NoDup seen →
    (∀ x, x ∈ seen → x ∈ tf.all_variables g) →
    (∀ j, k ≤ j →
       tf.scope_path g ++ [if j =? 0 then base else base +:+ "_" +:+ str j]
       ∉ seen) →
    (length (tf.all_variables g) ≤ length seen + candidates)%nat →
    tf.unique_name g base k candidates ∉ tf.all_variables g.
Proof.
  induction candidates as [|c IH]; intros k seen Hk Hnodup Hsub Hfresh Hlen;
    cbn [tf.unique_name].
  - intros Hin.
    set (nm := tf.scope_path g ++ _) in Hin.
    assert (NoDup (nm :: seen)) as Hnd.
    { constructor; [apply Hfresh; lia|done]. }
    apply NoDup_submseteq with (k := tf.all_variables g) in Hnd.
    + apply submseteq_length in Hnd. simpl in Hnd. lia.
    + intros x. rewrite elem_of_cons. intros [->|Hx]; auto.
  - unfold tf.has_var. fold (tf.all_variables g).
    set (nm := tf.scope_path g ++ _).
    case_bool_decide as Hin; [|done].
    apply (IH (k + 1) (nm :: seen)); [lia| | | |simpl; lia].
    + constructor; [apply Hfresh; lia|done].
    + intros x. rewrite elem_of_cons. intros [->|Hx]; auto.
    + intros j Hj. rewrite not_elem_of_cons. split; [|apply Hfresh; lia].
      unfold nm. intros Heq. apply app_inv_head in Heq.
      injection Heq as Heq.
      destruct (Z.eqb_spec j 0) as [->|Hj0]; [lia|].
      destruct (Z.eqb_spec k 0) as [->|Hk0].
      * symmetry in Heq. by apply app_self_nil in Heq.
      * apply (inj (String.app base)), (inj (String.app "_")) in Heq.
        apply str_inj in Heq. lia.
Qed.

Lemma new_Variable_fresh initial_value trainable g t g' :
  tf.new_Variable initial_value trainable g = (Ok t, g') →
  ∃ nm,
    (nm ∉ tf.all_variables g) ∧ t = tf.variable_ref nm [] ∧
    tf.g_vars g'
    = tf.g_vars g ++ [{| tf.var_name := nm; tf.var_shape := [];
                         tf.var_trainable := trainable;
                         tf.var_init := tf.const_init initial_value |}].
Proof.
  unfold tf.new_Variable. intros [= <- <-]. eexists. split; [|done].
  apply (unique_name_candidates g "Variable" _ 0 []); try done.
  - constructor.
  - intros x Hx. by apply elem_of_nil in Hx.
  - intros j _ Hj. by apply elem_of_nil in Hj.
  - unfold tf.all_variables. rewrite length_map. simpl. lia.
Qed.

(** The variables a successful construction of a model has created in a
    scope that does not reuse, and the variables its saver covers. *)
Lemma PTBModel_init_vars is_training config g m g' :
  PTBModel_init is_training config g = (Ok m, g') → tf.reuse g = false →
  let vars :=
    tf.g_vars g
    ++ model_vars is_training config (tf.scope_path g) (tf.initializer g) in
  tf.saver_vars (saver m) = map tf.var_name vars ∧
  if is_training then
    ∃ lr_name,
      (lr_name ∉ map tf.var_name vars) ∧
      _lr m = Some (tf.variable_ref lr_name []) ∧
      tf.g_vars g'
      = vars ++ [{| tf.var_name := lr_name; tf.var_shape := [];
                    tf.var_trainable := false;
                    tf.var_init := tf.const_init 0 |}]
  else tf.g_vars g' = vars.
Proof.
  unfold PTBModel_init. intros Hr Hg.
  apply G_bind_ok_inv in Hr as (input_data & g1 & Hph & Hr).
  apply new_placeholder_inv in Hph as (-> & -> & Hdims).
  apply G_bind_ok_inv in Hr as (targets & g1 & Hph & Hr).
  apply new_placeholder_inv in Hph as (-> & -> & _).
  apply G_bind_ok_inv in Hr as (weights & g1 & Hph & Hr).
  apply new_placeholder_inv in Hph as (-> & -> & _).
  assert (0 ≤ num_steps config) as Hns.
  { simpl in Hdims. apply andb_prop in Hdims as [_ Hns].
    apply andb_prop in Hns as [Hns _]. lia. }
  clear Hdims.
  apply G_bind_ok_inv in Hr as (cell & g1 & Hcell & Hr).
  assert (cell = model_cell is_training config ∧ g1 = g) as (-> & ->).
  { unfold tf.new_MultiRNNCell, model_cell in *.
    destruct (repeat _ _); [discriminate Hcell|]. by injection Hcell as <- <-. }
  clear Hcell.
  apply G_bind_ok_inv in Hr as (embedding & g1 & Hemb & Hr).
  apply get_variable_new in Hemb as [Hsc1 Hemb]; [|done].
  apply G_bind_ok_inv in Hr as ([outputs state] & g2 & Hrnn & Hr).
  apply variable_scope_inner in Hrnn
    as (g_in & g_out & Hloop & Hpath & Hvars & Hreuse & Hinit & Hsc2 & Hvars2).
  apply unroll_loop_vars in Hloop;
    [|rewrite Hreuse, (same_scopes_reuse _ _ Hsc1); done
     |by eapply scope_path_nonempty].
  assert (tf.g_scopes g2 = tf.g_scopes g) as Hsc2' by congruence.
  apply G_bind_ok_inv in Hr as (softmax_w & g3 & Hw & Hr).
  apply get_variable_new in Hw as [Hsc3 Hw];
    [|by rewrite (same_scopes_reuse _ _ Hsc2')].
  assert (tf.g_scopes g3 = tf.g_scopes g) as Hsc3' by congruence.
  apply G_bind_ok_inv in Hr as (softmax_b & g4 & Hb & Hr).
  apply get_variable_new in Hb as [Hsc4 Hb];
    [|by rewrite (same_scopes_reuse _ _ Hsc3')].
  apply G_bind_ok_inv in Hr as (all_variables & g5 & Hall & Hr).
  injection Hall as <- <-.
  assert (tf.g_vars g4
          = tf.g_vars g
            ++ model_vars is_training config (tf.scope_path g)
                 (tf.initializer g)) as Hvars4.
  { rewrite Hb, Hw, Hvars2, Hloop, Hvars, Hemb.
    rewrite (same_scopes_path _ _ Hsc3'), (same_scopes_initializer _ _ Hsc3').
    rewrite (same_scopes_path _ _ Hsc2'), (same_scopes_initializer _ _ Hsc2').
    rewrite Hpath, Hinit.
    rewrite (same_scopes_path _ _ Hsc1), (same_scopes_initializer _ _ Hsc1).
    unfold model_vars. rewrite <- !app_assoc. do 2 f_equal. simpl. f_equal.
    unfold for_range.
    destruct (Z.ltb_spec 0 (num_steps config)) as [Hpos|Hzero].
    - destruct (Z.to_nat (num_steps config)) eqn:Hn; [lia|done].
    - by replace (num_steps config) with 0 by lia. }
  rewrite <- Hvars4. clear Hvars4.
  destruct is_training; simpl in Hr.
  - apply G_bind_ok_inv in Hr as (lr_t & g5 & Hlr & Hr).
    apply new_Variable_fresh in Hlr as (lr_name & Hfresh & -> & Hvars5).
    apply G_bind_ok_inv in Hr as (tvars & g6 & Htv & Hr).
    injection Htv as <- <-. injection Hr as <- <-. simpl.
    split; [done|]. by exists lr_name.
  - injection Hr as <- <-. by simpl.
Qed.

(** X15. The learning rate stays out of training and out of the checkpoint:
    the variable [_lr] of a model built for training is new in the graph,
    the saver, made before it, does not cover it, and it is not among the
    variables the training op updates. *)
Theorem learning_rate_not_trained_nor_saved config g m g' :
  PTBModel_init true config g = (Ok m, g') → tf.reuse g = false →
  ∃ lr_name grads_and_vars,
    _lr m = Some (tf.variable_ref lr_name []) ∧
    _train_op m
    = Some (tf.apply_gradients
              (tf.GradientDescentOptimizer (tf.variable_ref lr_name []))
              grads_and_vars) ∧
    lr_name ∈ tf.all_variables g' ∧
    (lr_name ∉ tf.all_variables g) ∧
    (lr_name ∉ tf.saver_vars (saver m)) ∧
    ∀ grad v shape,
      (grad, tf.variable_ref v shape) ∈ grads_and_vars → v ≠ lr_name.
Proof.
  intros Hm Hg. pose proof (PTBModel_init_vars _ _ _ _ _ Hm Hg) as Hvars.
  simpl in Hvars. destruct Hvars as (Hsaver & lr_name & Hfresh & Hlr & Hvars).
  apply PTBModel_init_inv in Hm.
  destruct Hm as (_ & _ & _ & _ & _ & _ & _ & _ & _ & _ & _ & _ & _ & _ & _ &
                  (vars' & lr_name' & Hlr' & Hop & _)).
  rewrite Hlr in Hlr'. injection Hlr' as <-.
  exists lr_name. eexists. split; [done|]. split; [exact Hop|].
  split; [|split; [|split]].
  - unfold tf.all_variables. rewrite Hvars, map_app, elem_of_app. right.
    by left.
  - intros Hin. apply Hfresh. rewrite map_app, elem_of_app. by left.
  - by rewrite Hsaver.
  - intros grad v shape Hin ->. apply elem_of_zip_r in Hin.
    unfold tf.trainable_variables in Hin.
    apply list_elem_of_fmap in Hin as (x & [= Hname _] & Hx).
    apply list_elem_of_filter in Hx as [Htrainable Hx].
    rewrite Hvars, elem_of_app in Hx. destruct Hx as [Hx|Hx].
    + apply Hfresh. rewrite Hname. by apply list_elem_of_fmap_2.
    + apply list_elem_of_singleton in Hx as ->. done.
Qed.

(** X16. A second model needs [reuse=True]: once a model has been built
    in a scope that does not reuse, building another one in that scope
    fails at the embedding with [ValueError], before it has created any
    variable.  (The placeholders it has made by then are operations of the
    graph, of which only the variables are recorded here.) *)
Theorem second_model_needs_reuse is_training config g m g1
    is_training' config' :
  PTBModel_init is_training config g = (Ok m, g1) → tf.reuse g = false →
  0 ≤ batch_size config' → 0 ≤ num_steps config' → 1 ≤ num_layers config' →
  ∃ g2,
    PTBModel_init is_training' config' g1
    = (Raise (ValueError "Variable already exists"), g2) ∧
    tf.g_vars g2 = tf.g_vars g1.
Proof.
  intros Hm Hg Hbs Hns Hlayers.
  pose proof (PTBModel_init_vars _ _ _ _ _ Hm Hg) as [_ Hvars].
  apply PTBModel_init_inv in Hm.
  destruct Hm as (_ & _ & _ & _ & _ & _ & _ & _ & _ & _ & _ & _ & _ & Hsc & _).
  assert (tf.has_var g1 (tf.scope_path g1 ++ ["embedding"]) = true) as Hhas.
  { unfold tf.has_var. apply bool_decide_eq_true.
    rewrite (same_scopes_path _ _ Hsc).
    assert (∃ rest, tf.g_vars g1
                    = tf.g_vars g
                      ++ model_vars is_training config (tf.scope_path g)
                           (tf.initializer g) ++ rest) as [rest ->].
    { destruct is_training.
      - destruct Hvars as (lr_name & _ & _ & ->). rewrite <- app_assoc. eauto.
      - exists []. by rewrite app_nil_r. }
    rewrite !map_app, !elem_of_app. right. left.
    unfold model_vars. rewrite map_app, elem_of_app. left. by left. }
  exists g1. split; [|done].
  unfold PTBModel_init, tf.new_placeholder. simpl.
  destruct (Z.leb_spec 0 (batch_size config')); [|lia].
  destruct (Z.leb_spec 0 (num_steps config')); [|lia].
  destruct (Z.leb_spec 0 (batch_size config' * num_steps config')); [|nia].
  simpl. unfold mbind, tf.G_bind, mret, tf.G_ret. simpl.
  destruct (Z.to_nat (num_layers config')) as [|n] eqn:Hn; [lia|]. simpl.
  unfold tf.get_variable.
  by rewrite (same_scopes_reuse _ _ Hsc), Hg, Hhas.
Qed.

Lemma layers_vars_repeat_names path init init' c c' n :
  (∀ p, map tf.var_name (cell_vars p init c)
        = map tf.var_name (cell_vars p init' c')) →
  ∀ i, map tf.var_name (layers_vars cell_vars path init (repeat c n) i)
       = map tf.var_name (layers_vars cell_vars path init' (repeat c' n) i).
Proof.
  intros Hc. induction n as [|n IH]; intros i; simpl; [done|].
  by rewrite !map_app, Hc, IH.
Qed.

Lemma layers_vars_repeat_length path init c n :
  (∀ p, length (cell_vars p init c) = 2%nat) →
  ∀ i, length (layers_vars cell_vars path init (repeat c n) i) = (2 * n)%nat.
Proof.
  intros Hc. induction n as [|n IH]; intros i; simpl; [done|].
  rewrite length_app, Hc, IH. lia.
Qed.

Lemma lstm_cell_vars is_training config path init :
  cell_vars path init (lstm_cell_of is_training config)
  = cell_vars path init (tf.BasicLSTMCell (hidden_size config) 0).
Proof. unfold lstm_cell_of. by destruct (_ && _)%bool. Qed.

(** X17. The checkpoint fits the sampler: the saver of the model [generate]
    builds covers the variables of the same names, in the same order, as the
    saver of the model [train] builds with the same configuration, although
    one is built for minibatches of 1 by 1 without dropout and the other for
    training. They are the embedding, two weights per layer and two for the
    softmax. *)
Theorem generate_restores_what_train_saves config init m g m' g' :
  1 ≤ num_steps config →
  tf.variable_scope "model" None init (PTBModel_init true config)
    tf.empty_graph = (Ok m, g) →
  tf.variable_scope "model" None None
    (PTBModel_init false (set_batch_size (set_num_steps config 1) 1))
    tf.empty_graph = (Ok m', g') →
  tf.saver_vars (saver m') = tf.saver_vars (saver m) ∧
  Z.of_nat (length (tf.saver_vars (saver m))) = 2 * num_layers config + 3 ∧
  ["model"; "embedding"] ∈ tf.saver_vars (saver m) ∧
  ["model"; "softmax_w"] ∈ tf.saver_vars (saver m) ∧
  ["model"; "softmax_b"] ∈ tf.saver_vars (saver m).
Proof.
  intros Hsteps Hm Hm'.
  apply variable_scope_inv in Hm
    as (g_in & g_out & Hm & Hpath & Hvars & Hreuse & _).
  apply variable_scope_inv in Hm'
    as (g_in' & g_out' & Hm' & Hpath' & Hvars' & Hreuse' & _).
  pose proof (PTBModel_init_inv _ _ _ _ _ Hm) as (Hlayers & _).
  apply PTBModel_init_vars in Hm as [Hsaver _]; [|done].
  apply PTBModel_init_vars in Hm' as [Hsaver' _]; [|done].
  rewrite Hsaver, Hsaver', Hvars, Hvars', Hpath, Hpath'. simpl.
  unfold model_vars, model_cell. simpl.
  destruct (Z.ltb_spec 0 (num_steps config)); [|lia].
  rewrite !map_app, !length_app, !length_map. simpl.
  rewrite (layers_vars_repeat_names _ _ (tf.initializer g_in) _
             (lstm_cell_of true config)).
  2:{ intros p. by rewrite !lstm_cell_vars. }
  split; [done|]. split.
  { rewrite (layers_vars_repeat_length _ _ _ _
               (λ p, f_equal length (lstm_cell_vars true config p _))).
    lia. }
  rewrite !elem_of_cons, !elem_of_app, !elem_of_cons. tauto.
Qed.

Lemma savers_agree config init m g m' g' :
  1 ≤ num_steps config →
  tf.variable_scope "model" None init (PTBModel_init true config)
    tf.empty_graph = (Ok m, g) →
  tf.variable_scope "model" None None
    (PTBModel_init false (set_batch_size (set_num_steps config 1) 1))
    tf.empty_graph = (Ok m', g') →
  tf.saver_vars (saver m') = tf.saver_vars (saver m).
Proof.
  intros Hsteps Hm Hm'.
  apply variable_scope_inv in Hm
    as (g_in & g_out & Hm & Hpath & Hvars & Hreuse & _).
  apply variable_scope_inv in Hm'
    as (g_in' & g_out' & Hm' & Hpath' & Hvars' & Hreuse' & _).
  apply PTBModel_init_vars in Hm as [Hsaver _]; [|done].
  apply PTBModel_init_vars in Hm' as [Hsaver' _]; [|done].
  rewrite Hsaver, Hsaver', Hvars, Hvars', Hpath, Hpath'. simpl.
  unfold model_vars, model_cell. simpl.
  destruct (Z.ltb_spec 0 (num_steps config)); [|lia].
  rewrite !map_app. simpl.
  rewrite (layers_vars_repeat_names _ _ (tf.initializer g_in) _
             (lstm_cell_of true config)); [done|].
  intros p. by rewrite !lstm_cell_vars.
Qed.

Lemma get_config_model FLAGS FLAGS' :
  Flags.model FLAGS' = Flags.model FLAGS →
  get_config FLAGS' = get_config FLAGS.
Proof. unfold get_config. by intros ->. Qed.

Lemma config_num_steps FLAGS config :
  get_config FLAGS = Ok config → 1 ≤ num_steps config.
Proof.
  intros Hc. apply get_config_inv in Hc.
  repeat (apply elem_of_cons in Hc as [->|Hc]; [by vm_compute|]).
  by apply elem_of_nil in Hc.
Qed.

(** C7.  Checkpoint save and restore use the same location, and what is
    restored is what was saved last.  When [train] completes, each of its
    [max_max_epoch] epochs has ended with a save, by the saver of the
    training model [m], of the checkpoint at
    [os.path.join(model_path_prefix, "ptb.ckpt")], and nothing else was
    saved; every checkpoint saved is the saver's snapshot of the session
    in the state the steps before it left ([replays]), and the last one,
    [c], is the snapshot of the state [s_last] after the last epoch's
    runs.  A [generate] that then completes on the same files and prefix
    restores from exactly that path, right after opening the file and
    before any run of the session: the saver of its model [m'] makes the
    state [s0] of a new session from [c], every run and every sample after
    that goes on from [s0], and nothing else is restored.  When both use
    the same [--model], the saver of [m'] covers the variables that the
    saver of [m] covers. *)
Theorem checkpoint_round_trip FLAGS FLAGS' w w1 w2 w3 word_to_id id_to_word :
  train FLAGS w = (Ok (), w1) →
  Flags.model_path_prefix FLAGS' = Flags.model_path_prefix FLAGS →
  w_fs w2 = w_fs w1 →
  generate FLAGS' word_to_id id_to_word w2 = (Ok (), w3) →
  ∃ config config' m g1 m' g' path prolog epochs evs_test before
    s_last r_last c s0 after,
    get_config FLAGS = Ok config ∧
    get_config FLAGS' = Ok config' ∧
    tf.variable_scope "model" None
      (Some (- init_scale config, init_scale config)%Q)
      (PTBModel_init true config) tf.empty_graph = (Ok m, g1) ∧
    tf.variable_scope "model" None None
      (PTBModel_init false (set_batch_size (set_num_steps config' 1) 1))
      tf.empty_graph = (Ok m', g') ∧
    (Flags.model FLAGS' = Flags.model FLAGS →
     tf.saver_vars (saver m') = tf.saver_vars (saver m)) ∧
    os_path_join (Flags.model_path_prefix FLAGS) "ptb.ckpt" = Ok path ∧
    w_log w1 = w_log w ++ prolog ++ concat epochs ++ evs_test ∧
    saves prolog = [] ∧ saves evs_test = [] ∧
    Z.of_nat (length epochs) = max_max_epoch config ∧
    (∀ k evs, epochs !! k = Some evs →
       ∃ runs c', evs = runs ++ [EvSave (saver m) path c'] ∧
                  saves runs = []) ∧
    replays Session (w_rng w) (prolog ++ concat epochs ++ evs_test)
      (w_sess w1) (w_rng w1) ∧
    prolog ++ concat epochs = before ++ [EvSave (saver m) path c] ∧
    replays Session (w_rng w) before s_last r_last ∧
    saver_save (saver m) s_last = Ok c ∧
    last (saves (prolog ++ concat epochs ++ evs_test)) = Some (path, c) ∧
    w_fs w1 !! path = Some (FCkpt c) ∧
    w_log w3
    = w_log w2 ++ [EvOpen path "r"; EvRestore (saver m') path c] ++ after ∧
    saver_restore (saver m') c Session = Ok s0 ∧
    replays s0 (w_rng w2) after (w_sess w3) (w_rng w3) ∧
    (∀ e, e ∈ after → reads_back e = false).
Proof.
  intros Htrain Hprefix Hfs Hgen.
  apply train_inv in Htrain
    as (config & train_data & valid_data & test_data & vocab & w2i & i2w &
        p1 & p2 & path & m & mvalid & mtest & g1 & g2 & inited & epochs &
        evs_test & Hconfig & _ & Hp1 & Hp2 & Hpath & Hm & _ &
        (Hlog & Hfs1 & Hruns) & Hlen & Hepochs & Htest).
  set (prolog := [EvRawData _; _; _; _; _; _]) in *.
  destruct (epochs_save (saver m) path epochs) as (Hwritten & Hsaves & Hlast).
  { intros k evs Hk. by eapply epoch_events_save, Hepochs. }
  destruct Hlast as (before & c & Hbefore & Hlast).
  { intros ->. apply vocab_size_fixed in Hconfig as [_ Hmax].
    simpl in Hlen. lia. }
  assert (w_fs w1 !! path = Some (FCkpt c)) as Hc.
  { rewrite Hfs1, app_assoc, fs_after_app.
    rewrite fs_after_not_written.
    - rewrite Hbefore, app_assoc. by apply fs_after_snoc.
    - intros e p f He Hw.
      apply (epoch_run_written _ _ _ _ Htest) in He as [He _]. congruence. }
  pose proof Hruns as Hall.
  rewrite Hbefore, <- app_assoc in Hruns.
  rewrite app_assoc in Hruns.
  apply replays_app_inv in Hruns as (s_last & r_last & Hbefore_runs & Hrest).
  simpl in Hrest. apply replays_save_inv in Hrest as [Hsave _].
  apply generate_inv in Hgen
    as (config' & m' & g' & path' & c' & state & probs_v & state0 & o & bos_v &
        bos & evs & sentence & words & Hconfig' & Hm' & Hpath' & Hc' &
        (Hlog' & _ & Hruns') & _ & _ & Hsampling & _).
  rewrite Hprefix, Hpath in Hpath'. injection Hpath' as <-.
  rewrite Hfs, Hc in Hc'. injection Hc' as <-.
  apply replays_outside_cons in Hruns'; [|done].
  apply replays_restore_inv in Hruns' as (s0 & Hrestore & Hruns').
  exists config, config', m, g1, m', g', path, prolog, epochs, evs_test,
    (prolog ++ before), s_last, r_last, c, s0. eexists.
  do 4 (split; [done|]). split.
  { intros Hmodel. rewrite (get_config_model _ _ Hmodel), Hconfig in Hconfig'.
    injection Hconfig' as <-.
    eapply savers_agree; [|exact Hm|exact Hm'].
    by eapply config_num_steps. }
  split; [done|]. split; [exact Hlog|]. split; [done|].
  split; [by eapply epoch_run_saves|].
  split; [apply vocab_size_fixed in Hconfig; lia|]. split.
  { intros k evs' Hk.
    destruct (epoch_events_save _ _ _ _ _ _ _ _ (Hepochs _ _ Hk))
      as (runs & c' & -> & Hruns0 & _).
    by exists runs, c'. }
  split; [exact Hall|]. split; [by rewrite Hbefore, app_assoc|].
  split; [exact Hbefore_runs|]. split; [exact Hsave|]. split.
  { rewrite !saves_app, (epoch_run_saves _ _ _ _ Htest), app_nil_r.
    change (saves prolog) with (@nil (string * Ckpt)). exact Hlast. }
  split; [exact Hc|]. split; [exact Hlog'|]. split; [exact Hrestore|].
  split; [exact Hruns'|].
  intros e He. apply elem_of_cons in He as [->|He]; [done|].
  apply elem_of_cons in He as [->|He]; [done|].
  by eapply sampling_reads_back.
Qed.

(** ** Dropout *)

Lemma layers_terms_plain cells :
  Forall plain_spec cells →
  ∀ path state i cur_inp new_states,
    uses_dropout state = false → uses_dropout cur_inp = false →
    existsb uses_dropout new_states = false →
    uses_dropout
      (fst (layers_terms cell_terms path state cells i cur_inp new_states))
    = false ∧
    uses_dropout
      (snd (layers_terms cell_terms path state cells i cur_inp new_states))
    = false.
Proof.
  induction 1 as [|c cells Hc _ IH]; intros path state i cur_inp new_states
    Hstate Hcur Hnew; cbn [layers_terms].
  - by split.
  - destruct (Hc (path ++ ["Cell" +:+ str i]) cur_inp (tf.state_slice state i))
      as [Ho Hs]; [done..|].
    destruct (cell_terms _ c _ _) as [o st]. simpl in Ho, Hs.
    apply IH; [done..|]. rewrite existsb_app, Hnew. simpl. by rewrite Hs.
Qed.

Lemma basic_cell_plain num_units forget_bias :
  plain_spec (tf.BasicLSTMCell num_units forget_bias).
Proof. intros path inputs state Hi Hs. simpl. by rewrite Hi, Hs. Qed.

Lemma stack_plain cells :
  Forall plain_spec cells → plain_spec (tf.MultiRNNCell cells).
Proof.
  intros Hcells path inputs state Hi Hs. cbn [cell_terms].
  by apply layers_terms_plain.
Qed.

Lemma unroll_terms_plain path cell inputs count :
  plain_spec cell → uses_dropout inputs = false →
  ∀ start acc,
    existsb uses_dropout (fst acc) = false → uses_dropout (snd acc) = false →
    existsb uses_dropout (fst (unroll_terms path cell inputs start count acc))
    = false ∧
    uses_dropout (snd (unroll_terms path cell inputs start count acc)) = false.
Proof.
  intros Hcell Hinputs. induction count as [|count IH];
    intros start [outputs state] Hout Hstate; cbn [unroll_terms].
  - by split.
  - simpl in Hout, Hstate.
    destruct (Hcell path (tf.time_slice inputs start) state) as [Ho Hs];
      [done..|].
    destruct (cell_terms _ _ _ _) as [o st]. simpl in Ho, Hs.
    apply IH; [|done]. simpl. rewrite existsb_app, Hout. simpl.
    by rewrite Ho.
Qed.

Lemma layers_terms_dropped c keep_prob cells :
  ∀ path state i cur_inp new_states,
    uses_dropout
      (fst (layers_terms cell_terms path state
              (cells ++ [tf.DropoutWrapper c keep_prob]) i cur_inp new_states))
    = true.
Proof.
  induction cells as [|c' cells IH]; intros path state i cur_inp new_states;
    cbn [app layers_terms cell_terms].
  - destruct (cell_terms _ c _ _) as [o st]. done.
  - destruct (cell_terms _ c' _ _) as [o st]. apply IH.
Qed.

Lemma unroll_terms_dropped path cell inputs count :
  ∀ start acc,
    existsb uses_dropout (fst acc) = true →
    existsb uses_dropout (fst (unroll_terms path cell inputs start count acc))
    = true.
Proof.
  induction count as [|count IH]; intros start [outputs state] Hout;
    cbn [unroll_terms]; [done|].
  destruct (cell_terms _ _ _ _) as [o st]. apply IH. simpl.
  rewrite existsb_app. simpl in Hout. by rewrite Hout.
Qed.

Lemma model_unrolled_plain is_training config path :
  (is_training && Qltb (keep_prob config) 1)%bool = false →
  existsb uses_dropout (fst (model_unrolled is_training config path)) = false ∧
  uses_dropout (snd (model_unrolled is_training config path)) = false.
Proof.
  intros Hplain.
  unfold model_unrolled, model_cell, model_inputs, lstm_cell_of.
  rewrite Hplain. apply unroll_terms_plain; try done.
  apply stack_plain, Forall_forall. intros c Hc.
  apply list_elem_of_In, repeat_spec in Hc as ->. apply basic_cell_plain.
Qed.

Lemma model_unrolled_dropped is_training config path :
  (is_training && Qltb (keep_prob config) 1)%bool = true →
  1 ≤ num_layers config → 1 ≤ num_steps config →
  existsb uses_dropout (fst (model_unrolled is_training config path)) = true.
Proof.
  intros Hdrop Hlayers Hsteps.
  unfold model_unrolled, model_cell, lstm_cell_of. rewrite Hdrop.
  destruct (Z.to_nat (num_steps config)) as [|count]  eqn:Hcount; [lia|].
  destruct (Z.to_nat (num_layers config)) as [|layers] eqn:Hn; [lia|].
  cbn [unroll_terms repeat fst snd]. rewrite repeat_cons.
  destruct (cell_terms _ _ _ _) as [o st] eqn:Hcell.
  apply unroll_terms_dropped. simpl.
  apply (f_equal fst) in Hcell. cbn [cell_terms fst] in Hcell.
  by rewrite <- Hcell, layers_terms_dropped.
Qed.

(** X18. Dropout is for training only: a model built when [is_training and
    config.keep_prob < 1] is false computes its cost, its probabilities and
    its final state without any dropout; when the condition is true and
    there is a time step, the cost and the probabilities go through a
    dropout. *)
Theorem dropout_in_training_only is_training config g m g' :
  PTBModel_init is_training config g = (Ok m, g') →
  ((is_training && Qltb (keep_prob config) 1)%bool = false →
   uses_dropout (cost m) = false ∧ uses_dropout (probs m) = false ∧
   uses_dropout (final_state m) = false) ∧
  ((is_training && Qltb (keep_prob config) 1)%bool = true →
   1 ≤ num_steps config →
   uses_dropout (cost m) = true ∧ uses_dropout (probs m) = true).
Proof.
  intros Hm. apply PTBModel_init_inv in Hm.
  destruct Hm as (Hlayers & _ & _ & _ & _ & _ & Htargets & Hweights & _ &
                  Hfinal & Hlogits & Hcost & Hprobs & _).
  unfold cost, probs, final_state.
  rewrite Hcost, Hprobs, Hfinal, Htargets, Hweights, Hlogits.
  cbn [uses_dropout existsb orb]. split.
  - intros Hplain.
    destruct (model_unrolled_plain _ _ (tf.scope_path g) Hplain) as [-> ->].
    done.
  - intros Hdrop Hsteps.
    by rewrite (model_unrolled_dropped _ _ (tf.scope_path g) Hdrop Hlayers
                  Hsteps).
Qed.

End Proofs.

(** * Concrete runs *)

Import Toy.

(** C2, at a concrete input: a call on data of two minibatches returns and
    has fed the model one minibatch. *)
Lemma run_epoch_first_batch_only_witness :
  let out := run_epoch toy_model [1; 3] tf.no_op false toy_world in
  is_ok out.1 = true ∧
  ∃ evs, w_log out.2 = w_log toy_world ++ evs ∧
         (length (minibatches evs) ≤ 1)%nat.
Proof.
  intros out. split; [vm_compute; reflexivity|].
  destruct (run_epoch_first_batch_only toy_model [1; 3] tf.no_op false
              toy_world out.1 out.2) as (evs & Hlog & Hlen & _).
  - apply surjective_pairing.
  - exists evs. split; [exact Hlog|exact Hlen].
Defined.

Lemma Q2R_eq (q : Q) (z : Z) : (q == inject_Z z)%Q → Q2R q = IZR z.
Proof.
  intros Hq. rewrite (Qeq_eqR _ _ Hq). unfold Q2R, inject_Z. simpl. lra.
Qed.

(** C1, where the code departs from it.  On data of two minibatches, whose
    costs are 2 and 6 with [num_steps = 1], the perplexity of the model on
    the data is [exp((2 + 6) / 2) = exp 4]; [run_epoch] leaves its loop
    after the first minibatch and returns [exp(2 / 1) = exp 2]. *)
Theorem run_epoch_drops_later_minibatches :
  gen_items (ptb_iterator [1; 3] (m_batch_size toy_model)
               (m_num_steps toy_model))
  = [([[1]], [[1]]); ([[3]], [[3]])] ∧
  (run_epoch toy_model [1; 3] tf.no_op false toy_world).1
  = Ok (exp 2, Word 0) ∧
  (spec_perplexity toy_model [1; 3] tf.no_op toy_world).1 = Ok (exp 4) ∧
  exp 2 ≠ exp 4.
Proof.
  split; [reflexivity|]. split; [|split].
  - lazy -[exp Q2R Qdiv Qplus inject_Z]. do 3 f_equal. by apply (Q2R_eq _ 2).
  - lazy -[exp Q2R Qdiv Qplus inject_Z]. do 2 f_equal. by apply (Q2R_eq _ 4).
  - intros Heq. apply exp_inv in Heq. lra.
Qed.

Lemma completes_snd {A} (c : M A) (w : world) :
  is_ok (c w).1 = true → ∃ v, c w = (Ok v, (c w).2).
Proof.
  destruct (c w) as [[v|e] w']; [by exists v|discriminate].
Qed.

(** With minibatches of one word, the toy reader yields a minibatch only
    from data that hold one. *)
Lemma toy_reader_yields data epoch_size x y rest :
  epoch_size_of toy_model data = Ok epoch_size →
  ptb_iterator data (m_batch_size toy_model) (m_num_steps toy_model)
    = GYield (x, y) rest →
  0 ≤ epoch_size.
Proof.
  intros Hes Hg. unfold epoch_size_of in Hes.
  change (m_batch_size toy_model) with 1 in Hes.
  change (m_num_steps toy_model) with 1 in Hes.
  change (ptb_iterator data _ _) with (toy_iterator data) in Hg.
  unfold floordiv in Hes. cbn [mbind result_mbind result_bind Z.eqb] in Hes.
  injection Hes as <-. destruct data as [|d data]; [discriminate|].
  rewrite !Z.div_1_r. unfold len. simpl length. lia.
Qed.


(** C3, at concrete flags: with neither flag set [main] raises; with
    [generate] set, on the files training left, it is [generate] on the two
    loaded mappings. *)
Lemma main_dispatch_witness :
  main {| Flags.model := "small"; Flags.data_path := None;
          Flags.generate := Flags.False_;
          Flags.model_path_prefix := None |} toy_world
  = (Raise (ValueError "Must set --data_path to PTB data directory"),
     toy_world) ∧
  main (toy_flags (Flags.Str "1")) trained_world
  = generate (toy_flags (Flags.Str "1")) loaded_vocab loaded_words
      (set_log (λ l, l ++ [EvOpen "out/word_to_id.json" "r";
                           EvOpen "out/id_to_word.json" "r";
                           EvJsonLoad "out/word_to_id.json";
                           EvJsonLoad "out/id_to_word.json"])
         trained_world).
Proof.
  split.
  - apply main_dispatch; reflexivity.
  - apply main_dispatch; vm_compute; reflexivity.
Defined.

Lemma toy_train_completes :
  train (toy_flags Flags.False_) toy_world = (Ok (), trained_world).
Proof.
  destruct (completes_snd (train (toy_flags Flags.False_)) toy_world)
    as [[] Htrain]; [vm_compute; reflexivity|exact Htrain].
Qed.

Lemma toy_generate_completes :
  generate (toy_flags (Flags.Str "1")) loaded_vocab loaded_words trained_world
  = (Ok (), sampled_world).
Proof.
  destruct (completes_snd (generate (toy_flags (Flags.Str "1")) loaded_vocab
                             loaded_words) trained_world)
    as [[] Hgenerate]; [vm_compute; reflexivity|exact Hgenerate].
Qed.


(** C5, at a concrete run: sampling from the trained model completes with
    a sentence of 30 words. *)
Lemma generate_samples_thirty_words_witness :
  generate (toy_flags (Flags.Str "1")) loaded_vocab loaded_words trained_world
  = (Ok (), sampled_world) ∧
  ∃ words,
    length words = 30%nat ∧
    last (w_stdout sampled_world) = Some (Line "%s" [PStr (join " " words)]).
Proof.
  split; [exact toy_generate_completes|].
  destruct (generate_samples_thirty_words (toy_flags (Flags.Str "1"))
              loaded_vocab loaded_words trained_world sampled_world
              toy_generate_completes)
    as (config & m & g & path & c & s0 & state & probs_v & state0 & o &
        bos_v & bos & evs & sentence & words & _ & _ & _ & _ & _ & _ & _ &
        _ & _ & _ & _ & _ & _ & Hlen & Hlast).
  exists words. split; [exact Hlen|exact Hlast].
Defined.

Lemma toy_model_built :
  ∃ m, PTBModel_init true TestConfig tf.empty_graph = (Ok m, test_graph).
Proof. eexists. vm_compute. reflexivity. Qed.

Lemma toy_eval_model_built :
  ∃ m g, PTBModel_init false TestConfig tf.empty_graph = (Ok m, g).
Proof. eexists _, _. vm_compute. reflexivity. Qed.

(** C6, at a concrete configuration: a training model of the test
    configuration has a learning rate, an evaluation model has no training
    op. *)
Lemma gradient_clipping_in_training_only_witness :
  (∃ m lr_t,
     PTBModel_init true TestConfig tf.empty_graph = (Ok m, test_graph) ∧
     _lr m = Some lr_t) ∧
  (∃ m g,
     PTBModel_init false TestConfig tf.empty_graph = (Ok m, g) ∧
     _train_op m = None).
Proof.
  split.
  - destruct toy_model_built as [m Hm].
    destruct (gradient_clipping_in_training_only true TestConfig _ _ _ Hm)
      as (lr_t & tvars & vars & lr_name & _ & _ & Hlr & _).
    exists m, lr_t. split; [exact Hm|exact Hlr].
  - destruct toy_eval_model_built as (m & g & Hm).
    destruct (gradient_clipping_in_training_only false TestConfig _ _ _ Hm)
      as (_ & Hop & _).
    exists m, g. split; [exact Hm|exact Hop].
Defined.

(** C9, at a concrete configuration: the evaluation model of the test
    configuration stacks one cell of two units and unrolls it twice. *)
Lemma stacked_lstm_unrolled_witness :
  ∃ m g (outputs : list tf.tensor),
    PTBModel_init false TestConfig tf.empty_graph = (Ok m, g) ∧
    _initial_state m
    = tf.zero_state (tf.MultiRNNCell [tf.BasicLSTMCell 2 0]) 20 tf.float32 ∧
    Z.of_nat (length outputs) = 2.
Proof.
  destruct toy_eval_model_built as (m & g & Hm).
  destruct (stacked_lstm_unrolled false TestConfig _ _ _ Hm)
    as (_ & _ & _ & Hinit & (outputs & _ & Hlen & _) & _).
  exists m, g, outputs. split; [exact Hm|]. split; [exact Hinit|exact Hlen].
Defined.

(** C7, at a concrete run: sampling after training restores the checkpoint
    that training saved. *)
Lemma checkpoint_round_trip_witness :
  train (toy_flags Flags.False_) toy_world = (Ok (), trained_world) ∧
  generate (toy_flags (Flags.Str "1")) loaded_vocab loaded_words trained_world
  = (Ok (), sampled_world) ∧
  ∃ m' path c after,
    w_fs trained_world !! path = Some (FCkpt c) ∧
    w_log sampled_world
    = w_log trained_world ++ [EvOpen path "r"; EvRestore (saver m') path c]
        ++ after.
Proof.
  split; [exact toy_train_completes|]. split; [exact toy_generate_completes|].
  destruct (checkpoint_round_trip (toy_flags Flags.False_)
              (toy_flags (Flags.Str "1")) toy_world trained_world
              trained_world sampled_world loaded_vocab loaded_words
              toy_train_completes eq_refl eq_refl toy_generate_completes)
    as (config & config' & m & g1 & m' & g' & path & prolog & epochs &
        evs_test & before & s_last & r_last & c & s0 & after & _ & _ & _ &
        _ & _ & _ & _ & _ & _ & _ & _ & _ & _ & _ & _ & _ & Hc & Hlog & _).
  exists m', path, c, after. split; [exact Hc|exact Hlog].
Defined.

(** C8, at a concrete run: after training, [main] in generate mode loads
    the vocabulary that training dumped. *)
Lemma vocabulary_round_trip_witness :
  train (toy_flags Flags.False_) toy_world = (Ok (), trained_world) ∧
  truthy (Flags.generate (toy_flags (Flags.Str "1"))) = true ∧
  ∃ (id_to_word : gmap Z string) (loaded_id_to_word : gmap string jvalue),
    ∀ n : Z, loaded_id_to_word !! str n = JStr <$> id_to_word !! n.
Proof.
  split; [exact toy_train_completes|]. split; [reflexivity|].
  destruct (vocabulary_round_trip (toy_flags Flags.False_)
              (toy_flags (Flags.Str "1")) toy_world trained_world
              trained_world toy_train_completes eq_refl eq_refl eq_refl)
    as (train_data & valid_data & test_data & vocab & word_to_id & id_to_word &
        p1 & p2 & loaded_word_to_id & loaded_id_to_word & evs_train & _ & _ &
        _ & _ & _ & _ & _ & _ & _ & _ & Hwords & _).
  exists id_to_word, loaded_id_to_word. exact Hwords.
Defined.

(** ** Further properties, at concrete inputs *)

(** X1, at a concrete input. *)
Lemma get_config_known_models_witness :
  get_config (toy_flags Flags.False_) = Ok TestConfig ∧
  vocab_size TestConfig = 10002 ∧
  get_config {| Flags.model := "tiny"; Flags.data_path := None;
                Flags.generate := Flags.False_;
                Flags.model_path_prefix := None |}
  = Raise (ValueError "Invalid model: %s").
Proof.
  split; [reflexivity|]. split.
  - destruct (get_config_known_models (toy_flags Flags.False_)) as (Hok & _).
    apply (Hok TestConfig). reflexivity.
  - apply get_config_known_models. simpl.
    rewrite !elem_of_cons, elem_of_nil. intros [H|[H|[H|[H|[]]]]];
      discriminate H.
Defined.

Lemma toy_train_epoch_completes :
  ∃ w', train_epoch (toy_flags Flags.False_) TestConfig test_model test_model
          [1; 3; 5] [2; 4] 0 () toy_world = (Ok (), w').
Proof.
  destruct (completes_snd
              (train_epoch (toy_flags Flags.False_) TestConfig test_model
                 test_model [1; 3; 5] [2; 4] 0 ()) toy_world)
    as [[] Hrun]; [vm_compute; reflexivity|eauto].
Qed.

(** X2, at a concrete input. *)
Lemma train_epoch_learning_rate_witness :
  ∃ lr_t, _lr test_model = Some lr_t ∧ (epoch_lr TestConfig 0 == 1)%Q.
Proof.
  destruct toy_train_epoch_completes as [w' Hrun].
  destruct (train_epoch_learning_rate (toy_flags Flags.False_) TestConfig
              test_model test_model [1; 3; 5] [2; 4] 0 toy_world w'
              eq_refl Hrun)
    as (lr_t & assigned & rest & Hlr & _ & Hflat & _).
  exists lr_t. split; [exact Hlr|]. apply Hflat. simpl. lia.
Defined.

(** X3, at a concrete input. *)
Lemma assign_lr_needs_training_model_witness :
  ∃ m g,
    PTBModel_init false TestConfig tf.empty_graph = (Ok m, g) ∧
    (assign_lr m 1%Q toy_world).1 = Raise (AttributeError "_lr").
Proof.
  destruct toy_eval_model_built as (m & g & Hm).
  exists m, g. split; [exact Hm|].
  destruct (assign_lr_needs_training_model false TestConfig tf.empty_graph m g
              1%Q toy_world (assign_lr m 1%Q toy_world).1
              (assign_lr m 1%Q toy_world).2 Hm)
    as [Hraise _]; [apply surjective_pairing|exact Hraise].
Defined.

(** X4, at a concrete input. *)
Lemma run_epoch_zero_batch_witness :
  m_batch_size empty_model = 0 ∧
  run_epoch empty_model [1; 3] tf.no_op false toy_world
  = (Raise ZeroDivisionError, toy_world).
Proof.
  split; [vm_compute; reflexivity|].
  apply run_epoch_zero_batch. left. vm_compute. reflexivity.
Defined.

(** X5, at a concrete input. *)
Lemma run_epoch_no_minibatch_witness :
  ∃ w',
    run_epoch toy_model [] tf.no_op false toy_world
    = (Raise ZeroDivisionError, w').
Proof.
  edestruct (run_epoch_no_minibatch toy_model [] tf.no_op false toy_world)
    as (w' & Hrun & _).
  - vm_compute; reflexivity.
  - vm_compute; reflexivity.
  - vm_compute; reflexivity.
  - exists w'. exact Hrun.
Defined.

(** X6, at a concrete input. *)
Lemma run_epoch_verbose_prints_nothing_witness :
  epoch_size_of test_model [1; 3; 5] = Ok (-1) ∧
  run_epoch test_model [1; 3; 5] tf.no_op true toy_world
  = run_epoch test_model [1; 3; 5] tf.no_op false toy_world.
Proof.
  split; [vm_compute; reflexivity|].
  apply run_epoch_verbose_prints_nothing.
  intros epoch_size Hes. vm_compute in Hes. injection Hes as <-. lia.
Defined.

(** X7, at a concrete input. *)
Lemma train_needs_model_path_prefix_witness :
  ∃ e w', train bare_flags toy_world = (Raise e, w') ∧
          w_fs w' = w_fs toy_world.
Proof.
  edestruct (train_needs_model_path_prefix bare_flags toy_world)
    as (e & w' & _ & Hrun & Hfs & _).
  - reflexivity.
  - reflexivity.
  - reflexivity.
  - exists e, w'. split; [exact Hrun|exact Hfs].
Defined.

(** X8, at a concrete input. *)
Lemma main_generate_needs_vocabulary_witness :
  main (toy_flags (Flags.Str "1")) toy_world
  = (Raise (IOError "out/word_to_id.json"), toy_world).
Proof.
  destruct (main_generate_needs_vocabulary (toy_flags (Flags.Str "1"))
              toy_world eq_refl) as (_ & Hmissing & _).
  apply Hmissing; reflexivity.
Defined.

(** X9, at a concrete input. *)
Lemma generate_needs_checkpoint_witness :
  ∃ w',
    generate (toy_flags (Flags.Str "1")) loaded_vocab loaded_words toy_world
    = (Raise (IOError "out/ptb.ckpt"), w') ∧
    w_log w' = w_log toy_world.
Proof.
  destruct (generate_needs_checkpoint (toy_flags (Flags.Str "1")) loaded_vocab
              loaded_words toy_world TestConfig "out/ptb.ckpt"
              eq_refl eq_refl eq_refl)
    as (w' & Hrun & Hlog & _).
  exists w'. split; [exact Hrun|exact Hlog].
Defined.

(** X10, at a concrete input. *)
Lemma sampling_keeps_files_witness :
  w_fs (main (toy_flags (Flags.Str "1")) trained_world).2
  = w_fs trained_world.
Proof.
  destruct (sampling_keeps_files (toy_flags (Flags.Str "1")) trained_world
              (main (toy_flags (Flags.Str "1")) trained_world).1
              (main (toy_flags (Flags.Str "1")) trained_world).2)
    as [_ Hmain].
  apply Hmain; [reflexivity|apply surjective_pairing].
Defined.

(** X11, at a concrete input. *)
Lemma train_writes_to_three_paths_witness :
  train (toy_flags Flags.False_) toy_world = (Ok (), trained_world) ∧
  ∃ p1 p2 path evs,
    w_log trained_world = w_log toy_world ++ evs ∧
    ∀ e p f, e ∈ evs → written e = Some (p, f) →
             p = p1 ∨ p = p2 ∨ p = path.
Proof.
  split; [exact toy_train_completes|].
  destruct (train_writes_to_three_paths (toy_flags Flags.False_) toy_world
              trained_world toy_train_completes)
    as (p1 & p2 & path & word_to_id & id_to_word & c & evs & _ & _ & _ & _ &
        _ & _ & Hlog & Hwritten & _).
  exists p1, p2, path, evs. split; [exact Hlog|exact Hwritten].
Defined.

(** X12, at a concrete input. *)
Lemma train_starts_afresh_witness :
  train (toy_flags Flags.False_) toy_world = (Ok (), trained_world) ∧
  ∃ evs,
    w_log trained_world = w_log toy_world ++ evs ∧
    ∀ e, e ∈ evs → reads_back e = false.
Proof.
  split; [exact toy_train_completes|].
  exact (train_starts_afresh (toy_flags Flags.False_) toy_world trained_world
           toy_train_completes).
Defined.

(** X13, at a concrete input. *)
Lemma generate_samples_whole_vocabulary_witness :
  generate (toy_flags (Flags.Str "1")) loaded_vocab loaded_words trained_world
  = (Ok (), sampled_world) ∧
  ∃ m pre evs,
    input_data m = tf.placeholder tf.int32 [1; 1] ∧
    w_log sampled_world = w_log trained_world ++ pre ++ evs ∧
    ∀ n p k, EvChoice n p k ∈ pre ++ evs → n = 10002.
Proof.
  split; [exact toy_generate_completes|].
  destruct (generate_samples_whole_vocabulary (toy_flags (Flags.Str "1"))
              loaded_vocab loaded_words trained_world sampled_world
              toy_generate_completes)
    as (config & m & g & bos & state0 & pre & evs & sentence & Hconfig & _ &
        Hinput & _ & _ & Hlog & _ & _ & Hchoice).
  injection Hconfig as <-.
  exists m, pre, evs. split; [exact Hinput|]. split; [exact Hlog|exact Hchoice].
Defined.

(** X14, at a concrete input. *)
Lemma evaluation_models_share_variables_witness :
  is_ok evaluation_models.1 = true ∧
  tf.g_vars evaluation_models.2 = tf.g_vars model_graph.
Proof.
  split; [vm_compute; reflexivity|].
  destruct (evaluation_models_share_variables TestConfig
              (set_num_steps (set_batch_size TestConfig 1) 1) None model_graph
              evaluation_models.1 evaluation_models.2)
    as [Hvars _]; [apply surjective_pairing|exact Hvars].
Defined.

(** X15, at a concrete input. *)
Lemma learning_rate_not_trained_nor_saved_witness :
  ∃ m lr_name,
    PTBModel_init true TestConfig tf.empty_graph = (Ok m, test_graph) ∧
    _lr m = Some (tf.variable_ref lr_name []) ∧
    lr_name ∉ tf.saver_vars (saver m).
Proof.
  destruct toy_model_built as [m Hm].
  destruct (learning_rate_not_trained_nor_saved TestConfig tf.empty_graph m
              test_graph Hm eq_refl)
    as (lr_name & grads_and_vars & Hlr & _ & _ & _ & Hsaver & _).
  exists m, lr_name. split; [exact Hm|]. split; [exact Hlr|exact Hsaver].
Defined.

(** X16, at a concrete input. *)
Lemma second_model_needs_reuse_witness :
  ∃ m g2,
    PTBModel_init true TestConfig tf.empty_graph = (Ok m, test_graph) ∧
    PTBModel_init false TestConfig test_graph
    = (Raise (ValueError "Variable already exists"), g2) ∧
    tf.g_vars g2 = tf.g_vars test_graph.
Proof.
  destruct toy_model_built as [m Hm].
  destruct (second_model_needs_reuse true TestConfig tf.empty_graph m
              test_graph false TestConfig Hm eq_refl) as (g2 & Hraise & Hvars).
  - simpl; lia.
  - simpl; lia.
  - simpl; lia.
  - exists m, g2. split; [exact Hm|]. split; [exact Hraise|exact Hvars].
Defined.

Lemma toy_scoped_models_built :
  ∃ m g m' g',
    tf.variable_scope "model" None
      (Some (- init_scale TestConfig, init_scale TestConfig)%Q)
      (PTBModel_init true TestConfig) tf.empty_graph = (Ok m, g) ∧
    tf.variable_scope "model" None None
      (PTBModel_init false (set_batch_size (set_num_steps TestConfig 1) 1))
      tf.empty_graph = (Ok m', g').
Proof. eexists _, _, _, _. split; vm_compute; reflexivity. Qed.

(** X17, at a concrete input. *)
Lemma generate_restores_what_train_saves_witness :
  ∃ m m', tf.saver_vars (saver m') = tf.saver_vars (saver m) ∧
          Z.of_nat (length (tf.saver_vars (saver m))) = 5.
Proof.
  destruct toy_scoped_models_built as (m & g & m' & g' & Hm & Hm').
  destruct (generate_restores_what_train_saves TestConfig
              (Some (- init_scale TestConfig, init_scale TestConfig)%Q)
              m g m' g')
    as (Hsame & Hlen & _); [simpl; lia|exact Hm|exact Hm'|].
  exists m, m'. split; [exact Hsame|exact Hlen].
Defined.

(** X18, at a concrete input. *)
Lemma dropout_in_training_only_witness :
  ∃ m g,
    PTBModel_init false TestConfig tf.empty_graph = (Ok m, g) ∧
    uses_dropout (cost m) = false.
Proof.
  destruct toy_eval_model_built as (m & g & Hm).
  destruct (dropout_in_training_only false TestConfig tf.empty_graph m g Hm)
    as [Hplain _].
  exists m, g. split; [exact Hm|]. apply Hplain. reflexivity.
Defined.
